(** * MapServer WCS 1.1 (mapwcs11.c): a shallow embedding and its properties

    The development follows the layout of [mapwcs11.c]:
    - C strings, [strcasecmp], the GDAL tokenizer and [printf]'s [%.15g];
    - the data model ([outputFormatObj], [layerObj], [mapObj],
      [coverageMetadataObj], [wcsParamsObj]) and a functional libxml2 tree;
    - the external collaborators of the file, gathered in one interface;
    - [msWCSGetFormatsList11], [msWCSGetCapabilities11_CoverageSummary],
      [msWCSGetCapabilities11], [msWCSDescribeCoverage_CoverageDescription11],
      [msWCSDescribeCoverage11] and [msWCSReturnCoverage11];
    - the theorems about them.

    Effects (diagnostics, the error stack, the exception reporter, writes to
    stdout, releases of heap objects) are recorded in a trace of events that
    every function returns next to its C return value. *)

From Stdlib Require Import ZArith NArith String Ascii List Bool Lia Floats.
From Stdlib Require Import DecimalString.
From Stdlib Require DecimalFacts.
Import ListNotations.

Local Open Scope string_scope.
Local Open Scope Z_scope.

(* ------------------------------------------------------------------ *)
(** ** Status codes *)

Definition MS_SUCCESS : Z := 0.
Definition MS_FAILURE : Z := 1.
Definition MS_FALSE : Z := 0.

(** Error-stack codes used by this file ([maperror.h]). *)
Definition MS_WCSERR : Z := 32.
Definition MS_NULLPARENTERR : Z := 38.

(* ------------------------------------------------------------------ *)
(** ** C strings *)

Module CStr.

(** The characters written [%c] with code 10, and the double quote. *)
Definition LF : string := String (ascii_of_nat 10) EmptyString.
Definition DQ : string := String (ascii_of_nat 34) EmptyString.

(** [strlen(s) > 0] *)
Definition nonempty (s : string) : bool :=
  match s with EmptyString => false | String _ _ => true end.

(** [tolower] in the C locale. *)
Definition tolower (c : ascii) : ascii :=
  let n := nat_of_ascii c in
  if andb (Nat.leb 65 n) (Nat.leb n 90) then ascii_of_nat (n + 32) else c.

(** The code of [tolower(c)]. *)
Definition lc (c : ascii) : Z := Z.of_nat (nat_of_ascii (tolower c)).

(** [strcasecmp(a, b)]: the strings are walked together; the first pair
    of characters that differ after [tolower] gives the result, and two
    terminators give 0.  The end of a string is its terminator, of code
    0. *)
Fixpoint strcasecmp (a b : string) : Z :=
  match a, b with
  | EmptyString, EmptyString => 0
  | EmptyString, String y _ => 0 - lc y
  | String x _, EmptyString => lc x
  | String x a', String y b' =>
      let d := lc x - lc y in
      if d =? 0 then (if lc x =? 0 then 0 else strcasecmp a' b') else d
  end.

(** [strcasecmp(a, b) == 0] *)
Definition caseeq (a b : string) : bool := strcasecmp a b =? 0.

(** What [strcasecmp] reads of a string: the characters before the first
    one of code 0, folded to lower case. *)
Fixpoint key (s : string) : string :=
  match s with
  | EmptyString => EmptyString
  | String c s' =>
      if lc c =? 0 then EmptyString else String (tolower c) (key s')
  end.

(** [strchr(delims, c) != NULL] for a character [c] other than NUL. *)
Fixpoint strchr (delims : string) (c : ascii) : bool :=
  match delims with
  | EmptyString => false
  | String d ds => if Ascii.eqb d c then true else strchr ds c
  end.

(** The characters of [s] all differ from those of [delims]. *)
Fixpoint free_of (delims s : string) : bool :=
  match s with
  | EmptyString => true
  | String c s' => andb (negb (strchr delims c)) (free_of delims s')
  end.

End CStr.

(* ------------------------------------------------------------------ *)
(** ** GDAL string lists ([cpl_string.h]) *)

Module CSL.

(** A [char **] string list: [NULL], or a NULL-terminated array. *)
Definition StringList := option (list string).

Definition CSLCount (l : StringList) : Z :=
  match l with
  | None => 0
  | Some xs => Z.of_nat (List.length xs)
  end.

(** The token loop of [CSLTokenizeString2] under the flags
    [CSLT_HONOURSTRINGS] ([honour]) and [CSLT_ALLOWEMPTYTOKENS]
    ([allowEmpty]) only.  Characters are gathered into the current token
    (kept reversed in [tok]) until a delimiter outside a quoted string or
    the end of the text; the token is added when it is not empty or when
    empty tokens are allowed.  When strings are honoured a double quote
    opens or closes a quoted string and is dropped, and inside a quoted
    string a backslash before a double quote or a backslash is dropped. *)
Fixpoint tokens_from (delims : string) (honour allowEmpty : bool)
         (inString : bool) (tok : list ascii) (s : string) : list string :=
  let add (rest : list string) :=
    match tok with
    | [] => if allowEmpty then EmptyString :: rest else rest
    | _ :: _ => string_of_list_ascii (rev tok) :: rest
    end in
  match s with
  | EmptyString => add []
  | String c s' =>
      if andb (negb inString) (CStr.strchr delims c)
      then add (match s' with
                | EmptyString => if allowEmpty then [EmptyString] else []
                | String _ _ => tokens_from delims honour allowEmpty false [] s'
                end)
      else if andb honour (Ascii.eqb c (ascii_of_nat 34))
      then tokens_from delims honour allowEmpty (negb inString) tok s'
      else
        match s' with
        | String c' s'' =>
            if andb inString
                 (andb (Ascii.eqb c (ascii_of_nat 92))
                       (orb (Ascii.eqb c' (ascii_of_nat 34))
                            (Ascii.eqb c' (ascii_of_nat 92))))
            then tokens_from delims honour allowEmpty inString (c' :: tok) s''
            else tokens_from delims honour allowEmpty inString (c :: tok) s'
        | EmptyString =>
            tokens_from delims honour allowEmpty inString (c :: tok) s'
        end
  end.

(** [CSLTokenizeStringComplex(s, delims, bHonourStrings, bAllowEmptyTokens)].
    The result is never [NULL]: a text without tokens gives an empty
    list. *)
Definition CSLTokenizeStringComplex (s delims : string)
           (bHonourStrings bAllowEmptyTokens : bool) : StringList :=
  match s with
  | EmptyString => Some []
  | String _ _ =>
      Some (tokens_from delims bHonourStrings bAllowEmptyTokens false [] s)
  end.

End CSL.

(* ------------------------------------------------------------------ *)
(** ** [printf]'s [%.15g] on IEEE doubles

    [sprintf] belongs to the C library.  The conversion is modelled as the
    C standard describes it: the value is rounded (to nearest, ties to even)
    to [P] significant decimal digits, which gives the decimal exponent [X];
    style [f] is used when [-4 <= X < P], style [e] otherwise; trailing
    zeros of the fraction are dropped.  The double is read exactly, as
    [m * 2^e], through [Prim2SF].  A NaN is printed [nan] or [-nan] by
    its sign bit, which a Rocq float does not carry: [g] gives [nan], and
    an equation on a printed text is stated of [printable] doubles. *)

Module Printf.

Definition dec (z : Z) : string :=
  NilZero.string_of_uint (N.to_uint (Z.to_N z)).

Fixpoint zeros (n : nat) : string :=
  match n with O => EmptyString | S n' => String "0" (zeros n') end.

(** Drop the zeros at the end of a run of digits. *)
Fixpoint strip_zeros (s : string) : string :=
  match s with
  | EmptyString => EmptyString
  | String c s' =>
      match strip_zeros s' with
      | EmptyString => if Ascii.eqb c "0" then EmptyString else String c EmptyString
      | r => String c r
      end
  end.

(** [ip] and the fraction digits [fr], without a bare decimal point. *)
Definition with_fraction (ip fr : string) : string :=
  match strip_zeros fr with
  | EmptyString => ip
  | f => ip ++ "." ++ f
  end.

(** [10^k <= num / den] for positive [num], [den]. *)
Definition pow10_le (k num den : Z) : bool :=
  if 0 <=? k then den * 10 ^ k <=? num else den <=? num * 10 ^ (- k).

(** The largest [k] at most [hi] with [10^k <= num / den], looked for
    over [fuel] candidates. *)
Fixpoint floor_log10 (fuel : nat) (hi num den : Z) : Z :=
  match fuel with
  | O => hi
  | S fuel' =>
      if pow10_le hi num den then hi
      else floor_log10 fuel' (hi - 1) num den
  end.

(** [num / den * 10^s] rounded to the nearest integer, ties to even. *)
Definition round_scaled (s num den : Z) : Z :=
  let a := if 0 <=? s then num * 10 ^ s else num in
  let b := if 0 <=? s then den else den * 10 ^ (- s) in
  let q := a / b in
  let r := a mod b in
  match 2 * r ?= b with
  | Lt => q
  | Gt => q + 1
  | Eq => if Z.even q then q else q + 1
  end.

(** The exponent field of style [e]: a sign and at least two digits. *)
Definition exp_field (x : Z) : string :=
  let a := Z.abs x in
  (if x <? 0 then "-" else "+") ++ (if a <? 10 then "0" else "") ++ dec a.

(** [%.Pg] of the positive value [num / den]. *)
Definition g_positive (P num den : Z) : string :=
  let x0 := floor_log10 700 310 num den in
  let r0 := round_scaled (P - 1 - x0) num den in
  let X := if r0 =? 10 ^ P then x0 + 1 else x0 in
  let R := if r0 =? 10 ^ P then 10 ^ (P - 1) else r0 in
  let ds := dec R in
  if orb (X <? -4) (P <=? X)
  then with_fraction (substring 0 1 ds) (substring 1 (Z.to_nat (P - 1)) ds)
       ++ "e" ++ exp_field X
  else if 0 <=? X
  then with_fraction (substring 0 (Z.to_nat (X + 1)) ds)
                     (substring (Z.to_nat (X + 1)) (Z.to_nat (P - 1 - X)) ds)
  else with_fraction "0" (zeros (Z.to_nat (- X - 1)) ++ ds).

Definition sign (s : bool) : string := if s then "-" else "".

(** The doubles whose text does not depend on the sign of a NaN. *)
Definition printable (d : float) : bool := negb (PrimFloat.is_nan d).

Definition g (P : Z) (d : float) : string :=
  match Prim2SF d with
  | S754_zero s => sign s ++ "0"
  | S754_infinity s => sign s ++ "inf"
  | S754_nan => "nan"
  | S754_finite s m e =>
      sign s ++ (if 0 <=? e
                 then g_positive P (Z.pos m * 2 ^ e) 1
                 else g_positive P (Z.pos m) (2 ^ (- e)))
  end.

(** [sprintf(buf, "%.15g %.15g", a, b)] *)
Definition sprintf_g15_g15 (a b : float) : string :=
  g 15 a ++ " " ++ g 15 b.

End Printf.

(* ------------------------------------------------------------------ *)
(** ** Data model ([mapserver.h], [mapwcs.h]) *)

(** [hashTableObj]: string keys and values. *)
Definition hashTableObj := list (string * string).

(** [projectionObj]: the arguments of the projection definition. *)
Definition projectionObj := list string.

(** The [MS_RENDER_WITH_*] values of [outputFormatObj.renderer]. *)
Inductive renderer_t :=
| MS_RENDER_WITH_GD
| MS_RENDER_WITH_SWF
| MS_RENDER_WITH_RAWDATA
| MS_RENDER_WITH_IMAGEMAP
| MS_RENDER_WITH_PDF
| MS_RENDER_WITH_SVG
| MS_RENDER_WITH_TEMPLATE
| MS_RENDER_WITH_AGG.

Record outputFormatObj := {
  format_name : string;
  mimetype : option string;       (* may be NULL *)
  extension : option string;      (* may be NULL *)
  renderer : renderer_t
}.

Record webObj := { web_metadata : hashTableObj }.

(** [mapObj] without its layers: what a layer reaches through its
    back-pointer [layer->map], and all that the code below reads of a map
    apart from [map->layers]. *)
Record mapHeader := {
  outputformatlist : list outputFormatObj;
  outputformat : outputFormatObj;
  map_projection : projectionObj;
  web : webObj
}.

Record layerObj := {
  layer_name : string;
  layer_projection : projectionObj;
  layer_metadata : hashTableObj;
  layer_map : option mapHeader     (* the parent pointer, possibly NULL *)
}.

Record mapObj := {
  header : mapHeader;
  layers : list layerObj
}.

(** [map->numlayers] *)
Definition numlayers (m : mapObj) : nat := List.length (layers m).

(** [GET_LAYER(map, i)] *)
Definition GET_LAYER (m : mapObj) (i : Z) : option layerObj :=
  if i <? 0 then None else nth_error (layers m) (Z.to_nat i).

Record rectObj := { minx : float; miny : float; maxx : float; maxy : float }.

Record coverageMetadataObj := {
  srs_urn : string;
  extent : rectObj;
  llextent : rectObj;
  geotransform : nat -> float;    (* double geotransform[6] *)
  xsize : Z;
  ysize : Z
}.

Record wcsParamsObj := {
  version : string;
  coverages : CSL.StringList
}.

Record cgiRequestObj := {
  ParamNames : list string;
  ParamValues : list string
}.

(** A rendered raster; only handed on to the image encoder. *)
Record imageObj := {
  width : Z;
  height : Z;
  img : list Z
}.

(** [MS_IMAGE_MIME_TYPE] and [MS_IMAGE_EXTENSION] of [mapserver.h]: the
    field, or ["unknown"] when it is NULL. *)
Definition MS_IMAGE_MIME_TYPE (format : outputFormatObj) : string :=
  match mimetype format with Some m => m | None => "unknown" end.

Definition MS_IMAGE_EXTENSION (format : outputFormatObj) : string :=
  match extension format with Some e => e | None => "unknown" end.

(** [a - b] on [int]: the value that the 32-bit two's complement
    subtraction leaves (the C standard leaves the overflow undefined). *)
Definition int_sub (a b : Z) : Z :=
  (a - b + 2 ^ 31) mod 2 ^ 32 - 2 ^ 31.

(** An [int] converted to [double]. *)
Definition double_of_int (z : Z) : float :=
  if z <? 0 then PrimFloat.opp (PrimFloat.of_uint63 (Uint63.of_Z (- z)))
  else PrimFloat.of_uint63 (Uint63.of_Z z).

(** Modelled from the spec: [msGetLayerIndex] is not under src/; the layer
    store resolves a layer by name, giving the index of the first layer of
    that name, or -1. *)
Fixpoint msGetLayerIndex_from (i : Z) (ls : list layerObj) (name : string) : Z :=
  match ls with
  | [] => -1
  | l :: ls' =>
      if String.eqb name (layer_name l) then i
      else msGetLayerIndex_from (i + 1) ls' name
  end.

Definition msGetLayerIndex (m : mapObj) (name : string) : Z :=
  msGetLayerIndex_from 0 (layers m) name.

(* ------------------------------------------------------------------ *)
(** ** The libxml2 tree, as a value *)

Record xmlNs := { href : string; prefix : option string }.

(** Namespace prefixes and URIs of [mapowscommon.h].
    Modelled from the spec: the header is not under src/; the root binds
    the prefixes [ows], [xlink], [xsi] and [ogc] to their standard URIs,
    which lines 853-855 spell out for the first three. *)
Definition MS_OWSCOMMON_OWS_NAMESPACE_PREFIX : string := "ows".
Definition MS_OWSCOMMON_W3C_XLINK_NAMESPACE_PREFIX : string := "xlink".
Definition MS_OWSCOMMON_W3C_XSI_NAMESPACE_PREFIX : string := "xsi".
Definition MS_OWSCOMMON_OGC_NAMESPACE_PREFIX : string := "ogc".

Definition MS_OWSCOMMON_OWS_NAMESPACE_URI : string :=
  "http://www.opengis.net/ows".
Definition MS_OWSCOMMON_W3C_XLINK_NAMESPACE_URI : string :=
  "http://www.w3.org/1999/xlink".
Definition MS_OWSCOMMON_W3C_XSI_NAMESPACE_URI : string :=
  "http://www.w3.org/2001/XMLSchema-instance".
Definition MS_OWSCOMMON_OGC_NAMESPACE_URI : string :=
  "http://www.opengis.net/ogc".

(** [OWS_METHOD_GET] of [mapowscommon.h], only handed on. *)
Definition OWS_METHOD_GET : Z := 1.

(** The fragments built by the OWS-common collaborator
    ([msOWSCommon*] of [mapowscommon.c]): each is kept as the call that
    made it. *)
Inductive owsFragment :=
| msOWSCommonServiceIdentification
    (psNsOws : xmlNs) (map : mapHeader) (servicetype version : string)
| msOWSCommonServiceProvider (psNsOws psNsXLink : xmlNs) (map : mapHeader)
| msOWSCommonOperationsMetadata (psNsOws : xmlNs)
| msOWSCommonOperationsMetadataOperation
    (psNsOws psNsXLink : xmlNs) (name : string) (method : Z) (url : string)
| msOWSCommonOperationsMetadataDomainType
    (psNsOws : xmlNs) (elname name values : string)
| msOWSCommonBoundingBox
    (psNsOws : option xmlNs) (crs : string) (dimensions : Z)
    (minx miny maxx maxy : float)
| msOWSCommonWGS84BoundingBox
    (psNsOws : option xmlNs) (dimensions : Z) (minx miny maxx maxy : float).

#[local] Set Warnings "-register-all".

Inductive xmlNode :=
| Element (name : string) (ns : option xmlNs) (nsDef : list xmlNs)
          (properties : list (string * string)) (content : option string)
          (children : list xmlNode)
| Fragment (call : owsFragment) (children : list xmlNode).

Record xmlDoc := { xml_version : string; root : xmlNode }.

Module Xml.

Definition ns_of (n : xmlNode) : option xmlNs :=
  match n with
  | Element _ ns _ _ _ _ => ns
  | Fragment _ _ => None
  end.

Definition nsDef_of (n : xmlNode) : list xmlNs :=
  match n with
  | Element _ _ d _ _ _ => d
  | Fragment _ _ => []
  end.

Definition properties_of (n : xmlNode) : list (string * string) :=
  match n with
  | Element _ _ _ p _ _ => p
  | Fragment _ _ => []
  end.

Definition content_of (n : xmlNode) : option string :=
  match n with
  | Element _ _ _ _ c _ => c
  | Fragment _ _ => None
  end.

Definition children_of (n : xmlNode) : list xmlNode :=
  match n with
  | Element _ _ _ _ _ cs => cs
  | Fragment _ cs => cs
  end.

(** Is [n] an element called [name]? *)
Definition named (name : string) (n : xmlNode) : bool :=
  match n with
  | Element nm _ _ _ _ _ => String.eqb nm name
  | Fragment _ _ => false
  end.

(** The child elements of [n] called [name], in document order. *)
Definition children_named (name : string) (n : xmlNode) : list xmlNode :=
  filter (named name) (children_of n).

(** The first child element called [name]. *)
Definition child (name : string) (n : xmlNode) : option xmlNode :=
  find (named name) (children_of n).

(** The element reached from [n] along a path of child names. *)
Fixpoint descend (path : list string) (n : xmlNode) : option xmlNode :=
  match path with
  | [] => Some n
  | name :: path' =>
      match child name n with
      | Some c => descend path' c
      | None => None
      end
  end.

(** [xmlNewNode(NULL, name)] *)
Definition xmlNewNode (name : string) : xmlNode :=
  Element name None [] [] None [].

(** [xmlNewNs(node, href, prefix)]: the binding is added to the node's
    definitions. *)
Definition xmlNewNs (node : xmlNode) (n : xmlNs) : xmlNode :=
  match node with
  | Element nm ns d p c cs => Element nm ns (d ++ [n]) p c cs
  | Fragment _ _ => node
  end.

(** [xmlSetNs(node, ns)] *)
Definition xmlSetNs (node : xmlNode) (n : xmlNs) : xmlNode :=
  match node with
  | Element nm _ d p c cs => Element nm (Some n) d p c cs
  | Fragment _ _ => node
  end.

(** [xmlNewProp(node, name, value)] *)
Definition xmlNewProp (node : xmlNode) (name value : string) : xmlNode :=
  match node with
  | Element nm ns d p c cs => Element nm ns d (p ++ [(name, value)]) c cs
  | Fragment _ _ => node
  end.

(** [xmlAddChild(parent, cur)]: [cur] becomes the last child. *)
Definition xmlAddChild (parent cur : xmlNode) : xmlNode :=
  match parent with
  | Element nm ns d p c cs => Element nm ns d p c (cs ++ [cur])
  | Fragment f cs => Fragment f (cs ++ [cur])
  end.

Definition add_children (parent : xmlNode) (cs : list xmlNode) : xmlNode :=
  fold_left xmlAddChild cs parent.

(** The element that [xmlNewChild(parent, ns, name, content)] creates: a
    NULL [ns] inherits the namespace of the parent. *)
Definition new_child (parent : xmlNode) (ns : option xmlNs)
           (name : string) (content : option string) : xmlNode :=
  Element name
          (match ns with Some n => Some n | None => ns_of parent end)
          [] [] content [].

(** [xmlSearchNs(doc, node, prefix)] for a node whose ancestors (itself
    first) are [path]: the nearest binding of the prefix. *)
Fixpoint xmlSearchNs (path : list xmlNode) (pfx : string) : option xmlNs :=
  match path with
  | [] => None
  | n :: up =>
      match find (fun d => match prefix d with
                           | Some p => String.eqb p pfx
                           | None => false
                           end) (nsDef_of n) with
      | Some d => Some d
      | None => xmlSearchNs up pfx
      end
  end.

End Xml.

(* ------------------------------------------------------------------ *)
(** ** Effects *)

(** Heap objects owned by the two builders.  What the helpers allocate
    and release again within one call (token arrays, the formats list and
    the CRS value of a summary or a description) is not part of the
    trace. *)
Inductive resource :=
| R_params_members       (* msWCSFreeParams(params) *)
| R_params               (* free(params) *)
| R_old_coverages        (* CSLDestroy(old_coverages) *)
| R_script_url
| R_script_url_encoded
| R_identifier_list
| R_format_list          (* msFree(format_list) of msWCSGetCapabilities11 *)
| R_buffer               (* xmlFree(buffer) *)
| R_doc.                 (* xmlFreeDoc(psDoc) *)

Inductive event :=
| Ev_msDebug (message : string)
| Ev_msSetError (code : Z) (message routine : string)
| Ev_msWCSException (version code locator : option string)
| Ev_printf (text : string)                  (* msIO_printf, msIO_fprintf(stdout) *)
| Ev_writeDoc (doc : xmlDoc) (encoding : string)
    (* msIO_contextWrite of the buffer of xmlDocDumpFormatMemoryEnc *)
| Ev_msSaveImage (bytes : string)            (* what the encoder wrote *)
| Ev_xmlCleanupParser
| Ev_free (r : resource).

(** A computation: the events it caused, oldest first, and its value;
    no value when it ran into undefined behaviour (a NULL dereference, an
    index out of bounds), after which nothing is known. *)
Definition M (A : Type) : Type := (option A * list event)%type.

Definition ret {A : Type} (a : A) : M A := (Some a, []).

Definition bind {A B : Type} (m : M A) (k : A -> M B) : M B :=
  match fst m with
  | None => (None, snd m)
  | Some a => let r := k a in (fst r, (snd m ++ snd r)%list)
  end.

Definition emit (e : event) : M unit := (Some tt, [e]).

Definition crash {A : Type} : M A := (None, []).

Notation "x <- m ;; k" := (bind m (fun x => k))
  (at level 61, m at next level, right associativity).
Notation "m ;;; k" := (bind m (fun _ => k))
  (at level 61, right associativity).

(** Modelled from the spec: [msWCSException] ([mapwcs.c], not under src/)
    is the exception reporter; it renders the pending error as a protocol
    exception document and reports failure to its caller. *)
Definition msWCSException (map : mapHeader)
           (version code locator : option string) : M Z :=
  emit (Ev_msWCSException version code locator) ;;; ret MS_FAILURE.

(** Modelled from the spec: [msCheckParentPointer] ([maputil.c], not under
    src/) is the consistency guard on a back-reference; a missing parent
    is put on the error stack and reported as failure. *)
Definition msCheckParentPointer {A : Type} (p : option A) (objname : string)
  : M Z :=
  match p with
  | Some _ => ret MS_SUCCESS
  | None =>
      emit (Ev_msSetError MS_NULLPARENTERR
              ("The " ++ objname ++ " parent object is null") "") ;;;
      ret MS_FAILURE
  end.

(** What a trace put on stdout. *)
Definition is_output (e : event) : bool :=
  match e with
  | Ev_printf _ | Ev_writeDoc _ _ | Ev_msSaveImage _ => true
  | _ => false
  end.

Definition written_docs (t : list event) : list xmlDoc :=
  flat_map (fun e => match e with Ev_writeDoc d _ => [d] | _ => [] end) t.

(** How many times a trace released the [wcsParamsObj] itself. *)
Definition releases_of_params (t : list event) : nat :=
  List.length (filter (fun e => match e with
                                | Ev_free R_params => true
                                | _ => false
                                end) t).

(* ------------------------------------------------------------------ *)
(** ** External collaborators

    Functions of other files of the repository and of its libraries that
    [mapwcs11.c] calls and whose results the code below only passes on. *)

Class Collaborators := {
  (* layer store *)
  msWCSIsLayerSupported : layerObj -> bool;
  (* metadata dictionary *)
  msOWSLookupMetadata : hashTableObj -> string -> string -> option string;
  msOWSGetEncodeMetadata :
    hashTableObj -> string -> string -> option string -> option string;
  (* projection resolver *)
  msOWSGetProjURN :
    projectionObj -> hashTableObj -> string -> Z -> option string;
  (* coverage metadata resolver: status and the filled-in structure *)
  msWCSGetCoverageMetadata : layerObj -> Z * coverageMetadataObj;
  (* fills in band range-set metadata of the layer: the new table *)
  msWCSSetDefaultBandsRangeSetInfo :
    wcsParamsObj -> coverageMetadataObj -> layerObj -> hashTableObj;
  (* strings *)
  msStringSplit : string -> ascii -> list string;
  msEncodeHTMLEntities : string -> option string;
  msOWSGetOnlineResource :
    mapHeader -> string -> string -> cgiRequestObj -> option string;
  (* transport *)
  msIO_needBinaryStdout : Z;
  (* image encoder, writing to stdout: status and the bytes written *)
  msSaveImage : mapHeader -> imageObj -> Z * string
}.

Section WCS11.

Context {ext : Collaborators}.

(* ---------------------------------------------------------------- *)
(** ** msWCSGetFormatsList11 *)

(** The names of the configured output formats that look like raster
    formats (lines 75-92). *)
Fixpoint raster_format_names (fs : list outputFormatObj) : list string :=
  match fs with
  | [] => []
  | f :: fs' =>
      match renderer f with
      | MS_RENDER_WITH_GD
      | MS_RENDER_WITH_AGG
      | MS_RENDER_WITH_RAWDATA => format_name f :: raster_format_names fs'
      | _ => raster_format_names fs'
      end
  end.

(** The format names to resolve (lines 63-93). *)
Definition format_tokens (map : mapHeader) (layer : option layerObj)
  : list string :=
  let configured := raster_format_names (outputformatlist map) in
  match layer with
  | None => configured
  | Some l =>
      match msOWSGetEncodeMetadata (layer_metadata l) "COM" "formats"
                                   (Some "GTiff") with
      | Some value => msStringSplit value " "
      | None => configured
      end
  end.

(** The first configured format called [token], up to case
    (lines 107-112); [None] stands for [format_i == numoutputformats]. *)
Definition lookup_format (map : mapHeader) (token : string)
  : option outputFormatObj :=
  find (fun f => CStr.caseeq (format_name f) token) (outputformatlist map).

(** [j < numformats] after the scan of lines 130-134. *)
Definition duplicates (mime : string) (formats : list string) : bool :=
  existsb (fun f => CStr.caseeq mime f) formats.

(** Names to MIME types, without duplicates (lines 102-144); [formats]
    is the array filled so far. *)
Fixpoint formats_loop (map : mapHeader) (tokens formats : list string)
  : M (list string) :=
  match tokens with
  | [] => ret formats
  | token :: rest =>
      match lookup_format map token with
      | None =>
          emit (Ev_msDebug ("Failed to find outputformat info on format '"
                            ++ token ++ "', ignore.")) ;;;
          formats_loop map rest formats
      | Some f =>
          match mimetype f with
          | Some (String _ _ as mime) =>
              if duplicates mime formats
              then
                emit (Ev_msDebug ("Format '" ++ token
                                  ++ "' ignored since mimetype '" ++ mime
                                  ++ "' duplicates another outputFormatObj."))
                ;;; formats_loop map rest formats
              else formats_loop map rest (formats ++ [mime])
          | _ =>
              emit (Ev_msDebug ("No mimetime for format '" ++ token
                                ++ "', ignoring.")) ;;;
              formats_loop map rest formats
          end
      end
  end.

(** The comma delimited form (lines 152-163). *)
Fixpoint join_loop (formats : list string) (format_list : string) : string :=
  match formats with
  | [] => format_list
  | format :: rest =>
      let format_list :=
        if CStr.nonempty format_list then format_list ++ "," else format_list in
      join_loop rest (format_list ++ format)
  end.

(** The [formats] array of [msWCSGetFormatsList11] before it is joined. *)
Definition msWCSGetFormats11 (map : mapHeader) (layer : option layerObj)
  : M (list string) :=
  formats_loop map (format_tokens map layer) [].

Definition msWCSGetFormatsList11 (map : mapHeader) (layer : option layerObj)
  : M string :=
  formats <- msWCSGetFormats11 map layer ;;
  ret (join_loop formats "").

(* ---------------------------------------------------------------- *)
(** ** Pieces shared by the summary and the description *)

(** Modelled from the spec: [msLibXml2GenerateList] ([maplibxml2.c], not
    under src/) appends to [psParent] one child called [elname] per token
    of the delimited list. *)
Definition msLibXml2GenerateList (psParent : xmlNode) (psNs : option xmlNs)
           (elname values : string) (delim : ascii) : xmlNode :=
  Xml.add_children psParent
    (List.map (fun t => Xml.new_child psParent psNs elname (Some t))
              (msStringSplit values delim)).

(** The supported CRSs of a layer (lines 268-278, and again 682-692):
    the layer's own projection and metadata first, then those of its
    map.  [urn_of] is the projection resolver. *)
Definition resolve_supported_crs
           (urn_of : projectionObj -> hashTableObj -> string -> Z
                     -> option string)
           (layer : layerObj) : M (option string) :=
  match urn_of (layer_projection layer) (layer_metadata layer)
               "COM" MS_FALSE with
  | Some owned_value => ret (Some owned_value)
  | None =>
      match layer_map layer with
      | None => crash
      | Some lmap =>
          match urn_of (map_projection lmap) (web_metadata (web lmap))
                       "COM" MS_FALSE with
          | Some owned_value => ret (Some owned_value)
          | None =>
              emit (Ev_msDebug
                "mapwcs.c: missing required information, no SRSs defined.")
              ;;; ret None
          end
      end
  end.

(** Lines 280-282 and 694-696. *)
Definition add_supported_crs (node : xmlNode) (owned_value : option string)
  : xmlNode :=
  match owned_value with
  | Some (String _ _ as v) =>
      msLibXml2GenerateList node None "SupportedCRS" v " "
  | _ => node
  end.

(** Lines 259-261 and 709-711. *)
Definition add_supported_formats (node : xmlNode) (format_list : string)
  : xmlNode :=
  if CStr.nonempty format_list
  then msLibXml2GenerateList node None "SupportedFormat" format_list ","
  else node.

(** The title: the description of the layer, or else its name. *)
Definition title_of (layer : layerObj) : string :=
  match msOWSLookupMetadata (layer_metadata layer) "COM" "description" with
  | Some value => value
  | None => layer_name layer
  end.

(** The three bounding boxes, in the order they are added. *)
Definition bounding_boxes (psOwsNs : option xmlNs) (cm : coverageMetadataObj)
  : list xmlNode :=
  [ Fragment (msOWSCommonBoundingBox psOwsNs "urn:ogc:def:crs:OGC::imageCRS"
                2 0 0 (double_of_int (int_sub (xsize cm) 1))
                (double_of_int (int_sub (ysize cm) 1))) [];
    Fragment (msOWSCommonBoundingBox psOwsNs (srs_urn cm) 2
                (minx (extent cm)) (miny (extent cm))
                (maxx (extent cm)) (maxy (extent cm))) [];
    Fragment (msOWSCommonWGS84BoundingBox psOwsNs 2
                (minx (llextent cm)) (miny (llextent cm))
                (maxx (llextent cm)) (maxy (llextent cm))) [] ].

(* ---------------------------------------------------------------- *)
(** ** msWCSGetCapabilities11_CoverageSummary

    [psRootNode] is the parent of [psContents], where [xmlSearchNs] goes
    on looking.  The value is the status and [psContents] as the call
    leaves it. *)

Definition msWCSGetCapabilities11_CoverageSummary
           (map : mapHeader) (params : wcsParamsObj) (req : cgiRequestObj)
           (psRootNode psContents : xmlNode) (layer : layerObj)
  : M (Z * xmlNode) :=
  let psOwsNs := Xml.xmlSearchNs [psContents; psRootNode] "ows" in
  let (status, cm) := msWCSGetCoverageMetadata layer in
  if negb (status =? MS_SUCCESS) then ret (MS_FAILURE, psContents) else
  let psCSummary := Xml.new_child psContents None "CoverageSummary" None in
  (* Title (from description) *)
  let psCSummary := Xml.xmlAddChild psCSummary
    (Xml.new_child psCSummary psOwsNs "Title" (Some (title_of layer))) in
  (* Identifier (layer name) *)
  let psCSummary := Xml.xmlAddChild psCSummary
    (Xml.new_child psCSummary None "Identifier" (Some (layer_name layer))) in
  (* Keywords *)
  let psCSummary :=
    match msOWSLookupMetadata (layer_metadata layer) "COM" "keywordlist" with
    | Some value =>
        let psNode := Xml.new_child psCSummary psOwsNs "Keywords" None in
        Xml.xmlAddChild psCSummary
          (Xml.add_children psNode
             (List.map (fun t => Xml.new_child psNode None "Keyword" (Some t))
                       (msStringSplit value ",")))
    | None => psCSummary
    end in
  (* imageCRS, native CRS and WGS84 bounding boxes *)
  let psCSummary := Xml.add_children psCSummary (bounding_boxes psOwsNs cm) in
  (* SupportedFormats *)
  format_list <- msWCSGetFormatsList11 map (Some layer) ;;
  let psCSummary := add_supported_formats psCSummary format_list in
  (* Supported CRSes *)
  owned_value <- resolve_supported_crs msOWSGetProjURN layer ;;
  let psCSummary := add_supported_crs psCSummary owned_value in
  ret (MS_SUCCESS, Xml.xmlAddChild psContents psCSummary).

(* ---------------------------------------------------------------- *)
(** ** msWCSGetCapabilities11 *)

(** The list of layer identifiers available (lines 310-325). *)
Fixpoint identifier_list_loop (ls : list layerObj) (identifier_list : string)
  : string :=
  match ls with
  | [] => identifier_list
  | layer :: rest =>
      if negb (msWCSIsLayerSupported layer)
      then identifier_list_loop rest identifier_list
      else
        let identifier_list :=
          if CStr.nonempty identifier_list
          then identifier_list ++ "," else identifier_list in
        identifier_list_loop rest (identifier_list ++ layer_name layer)
  end.

(** The root element with its name spaces and version (lines 332-345 and
    764-777, the same statements on two root names). *)
Definition wcs_namespace : xmlNs :=
  {| href := "http://www.opengis.net/wcs/1.1"; prefix := None |}.
Definition ows_namespace : xmlNs :=
  {| href := MS_OWSCOMMON_OWS_NAMESPACE_URI;
     prefix := Some MS_OWSCOMMON_OWS_NAMESPACE_PREFIX |}.
Definition xlink_namespace : xmlNs :=
  {| href := MS_OWSCOMMON_W3C_XLINK_NAMESPACE_URI;
     prefix := Some MS_OWSCOMMON_W3C_XLINK_NAMESPACE_PREFIX |}.
Definition xsi_namespace : xmlNs :=
  {| href := MS_OWSCOMMON_W3C_XSI_NAMESPACE_URI;
     prefix := Some MS_OWSCOMMON_W3C_XSI_NAMESPACE_PREFIX |}.
Definition ogc_namespace : xmlNs :=
  {| href := MS_OWSCOMMON_OGC_NAMESPACE_URI;
     prefix := Some MS_OWSCOMMON_OGC_NAMESPACE_PREFIX |}.

Definition new_root (name : string) (params : wcsParamsObj) : xmlNode :=
  let psRootNode := Xml.xmlNewNode name in
  let psRootNode :=
    Xml.xmlSetNs (Xml.xmlNewNs psRootNode wcs_namespace) wcs_namespace in
  let psRootNode := Xml.xmlNewNs psRootNode ows_namespace in
  let psRootNode := Xml.xmlNewNs psRootNode xlink_namespace in
  let psRootNode := Xml.xmlNewNs psRootNode xsi_namespace in
  let psRootNode := Xml.xmlNewNs psRootNode ogc_namespace in
  Xml.xmlNewProp psRootNode "version" (version params).

(** One [Operation] node with its [Parameter] children. *)
Definition operation (name script_url_encoded : string)
           (parameters : list (string * string)) : xmlNode :=
  Fragment (msOWSCommonOperationsMetadataOperation
              ows_namespace xlink_namespace name OWS_METHOD_GET
              script_url_encoded)
           (List.map (fun p =>
               Fragment (msOWSCommonOperationsMetadataDomainType
                           ows_namespace "Parameter" (fst p) (snd p)) [])
            parameters).

(** The Contents loop (lines 434-445): the status, and [psMainNode] as
    the loop leaves it. *)
Fixpoint contents_loop (map : mapHeader) (params : wcsParamsObj)
         (req : cgiRequestObj) (psRootNode : xmlNode)
         (ls : list layerObj) (psMainNode : xmlNode) : M (Z * xmlNode) :=
  match ls with
  | [] => ret (MS_SUCCESS, psMainNode)
  | layer :: rest =>
      if negb (msWCSIsLayerSupported layer)
      then contents_loop map params req psRootNode rest psMainNode
      else
        r <- msWCSGetCapabilities11_CoverageSummary
               map params req psRootNode psMainNode layer ;;
        if negb (fst r =? MS_SUCCESS) then ret (MS_FAILURE, snd r)
        else contents_loop map params req psRootNode rest (snd r)
  end.

(** Lines 451-460 and 805-814: the document goes to stdout. *)
Definition write_document (psRootNode : xmlNode) (k : M Z) : M Z :=
  if msIO_needBinaryStdout =? MS_FAILURE then ret MS_FAILURE else
  emit (Ev_printf ("Content-type: text/xml" ++ CStr.LF ++ CStr.LF)) ;;;
  emit (Ev_writeDoc {| xml_version := "1.0"; root := psRootNode |}
                    "ISO-8859-1") ;;;
  emit (Ev_free R_buffer) ;;;
  k.

Definition msWCSGetCapabilities11 (map : mapObj) (params : wcsParamsObj)
           (req : cgiRequestObj) : M Z :=
  let hd := header map in
  (* Build list of layer identifiers available. *)
  let identifier_list := identifier_list_loop (layers map) "" in
  (* Create document, name spaces. *)
  let psRootNode := new_root "Capabilities" params in
  (* Service metadata. *)
  let psRootNode := Xml.xmlAddChild psRootNode
    (Fragment (msOWSCommonServiceIdentification
                 ows_namespace hd "OGC WCS" (version params)) []) in
  let psRootNode := Xml.xmlAddChild psRootNode
    (Fragment (msOWSCommonServiceProvider
                 ows_namespace xlink_namespace hd) []) in
  (* operation metadata *)
  let no_url :=
    msWCSException hd (Some (version params))
                   (Some "NoApplicableCode") (Some "NoApplicableCode") in
  match msOWSGetOnlineResource hd "COM" "onlineresource" req with
  | None => no_url
  | Some script_url =>
  match msEncodeHTMLEntities script_url with
  | None => no_url
  | Some script_url_encoded =>
  emit (Ev_free R_script_url) ;;;
  let service_version :=
    [("service", "WCS"); ("version", version params)] in
  format_list <- msWCSGetFormatsList11 hd None ;;
  let psMainNode :=
    Fragment (msOWSCommonOperationsMetadata ows_namespace)
      [ operation "GetCapabilities" script_url_encoded service_version;
        operation "DescribeCoverage" script_url_encoded
          (service_version ++ [("identifiers", identifier_list)])%list;
        operation "GetCoverage" script_url_encoded
          (service_version ++
           [("Identifier", identifier_list);
            ("InterpolationType", "NEAREST_NEIGHBOUR,BILINEAR");
            ("format", format_list);
            ("store", "false");
            ("GridBaseCRS", "urn:ogc:def:crs:epsg::4326")])%list ] in
  let psRootNode := Xml.xmlAddChild psRootNode psMainNode in
  emit (Ev_free R_format_list) ;;;
  (* Contents section. *)
  let psMainNode := Xml.new_child psRootNode None "Contents" None in
  r <- contents_loop hd params req psRootNode (layers map) psMainNode ;;
  if negb (fst r =? MS_SUCCESS) then ret MS_FAILURE else
  let psRootNode := Xml.xmlAddChild psRootNode (snd r) in
  (* Write out the document. *)
  write_document psRootNode (
    emit (Ev_free R_doc) ;;;
    emit Ev_xmlCleanupParser ;;;
    (* clean up *)
    emit (Ev_free R_params_members) ;;;
    emit (Ev_free R_params) ;;;
    emit (Ev_free R_script_url_encoded) ;;;
    emit (Ev_free R_identifier_list) ;;;
    ret MS_SUCCESS)
  end
  end.

(* ---------------------------------------------------------------- *)
(** ** msWCSDescribeCoverage_CoverageDescription11 *)

Definition with_metadata (layer : layerObj) (md : hashTableObj) : layerObj :=
  {| layer_name := layer_name layer;
     layer_projection := layer_projection layer;
     layer_metadata := md;
     layer_map := layer_map layer |}.

(** The GridCRS block (lines 577-598). *)
Definition grid_crs (psSD : xmlNode) (cm : coverageMetadataObj) : xmlNode :=
  let gt := geotransform cm in
  let psGridCRS := Xml.new_child psSD None "GridCRS" None in
  Xml.add_children psGridCRS
    [ Xml.new_child psGridCRS None "GridBaseCRS" (Some (srs_urn cm));
      Xml.new_child psGridCRS None "GridType"
        (Some "urn:ogc:def:method:WCS:1.1:2dSimpleGrid");
      Xml.new_child psGridCRS None "GridOrigin"
        (Some (Printf.sprintf_g15_g15
                 (gt 0%nat + gt 1%nat / 2 + gt 2%nat / 2)%float
                 (gt 3%nat + gt 4%nat / 2 + gt 5%nat / 2)%float));
      Xml.new_child psGridCRS None "GridOffsets"
        (Some (Printf.sprintf_g15_g15 (gt 1%nat) (gt 5%nat)));
      Xml.new_child psGridCRS None "GridCS"
        (Some "urn:ogc:def:cs:OGC:0.0:Grid2dSquareCS") ].

(** The Range block (lines 623-662). *)
Definition range (psCD : xmlNode) (psOwsNs : xmlNs) (layer : layerObj)
  : xmlNode :=
  let psRange := Xml.new_child psCD None "Range" None in
  let psField := Xml.new_child psRange None "Field" None in
  let psField :=
    match msOWSGetEncodeMetadata (layer_metadata layer) "COM"
                                 "rangeset_label" None with
    | Some value => Xml.xmlAddChild psField
                      (Xml.new_child psField (Some psOwsNs) "Title" (Some value))
    | None => psField
    end in
  let psField := Xml.xmlAddChild psField
    (Xml.new_child psField None "Identifier"
       (msOWSGetEncodeMetadata (layer_metadata layer) "COM"
                               "rangeset_name" (Some "bands"))) in
  let psInterpMethods :=
    Xml.new_child psField None "InterpolationMethods" None in
  let psInterpMethods := Xml.add_children psInterpMethods
    [ Xml.new_child psInterpMethods None "DefaultMethod"
                    (Some "nearest neighbour");
      Xml.new_child psInterpMethods None "OtherMethod" (Some "bilinear") ] in
  let psField := Xml.xmlAddChild psField psInterpMethods in
  (* Do axes properly later... *)
  let psAxis :=
    Xml.xmlNewProp (Xml.new_child psField None "Axis" None)
                   "identifier" "Band" in
  let psAxis := Xml.xmlAddChild psAxis
    (msLibXml2GenerateList (Xml.new_child psAxis None "AvailableKeys" None)
                           None "Key" "1" ",") in
  Xml.xmlAddChild psRange (Xml.xmlAddChild psField psAxis).

(** The value is the status, [psRootNode] as the call leaves it, and the
    layer, whose metadata the call may have completed. *)
Definition msWCSDescribeCoverage_CoverageDescription11
           (layer : layerObj) (params : wcsParamsObj)
           (psRootNode : xmlNode) (psOwsNs : xmlNs)
  : M (Z * xmlNode * layerObj) :=
  (* Verify layer is processable. *)
  checked <- msCheckParentPointer (layer_map layer) "map" ;;
  if checked =? MS_FAILURE then ret (MS_FAILURE, psRootNode, layer) else
  if negb (msWCSIsLayerSupported layer)
  then ret (MS_SUCCESS, psRootNode, layer) else
  (* Setup coverage metadata. *)
  let (status, cm) := msWCSGetCoverageMetadata layer in
  if negb (status =? MS_SUCCESS) then ret (status, psRootNode, layer) else
  (* fill in bands rangeset info, if required. *)
  let layer :=
    with_metadata layer (msWCSSetDefaultBandsRangeSetInfo params cm layer) in
  (* Create CoverageDescription node. *)
  let psCD := Xml.new_child psRootNode None "CoverageDescription" None in
  (* Title (from description) *)
  let psCD := Xml.xmlAddChild psCD
    (Xml.new_child psCD (Some psOwsNs) "Title" (Some (title_of layer))) in
  (* Identifier (layer name) *)
  let psCD := Xml.xmlAddChild psCD
    (Xml.new_child psCD None "Identifier" (Some (layer_name layer))) in
  (* Keywords *)
  let psCD :=
    match msOWSLookupMetadata (layer_metadata layer) "COM" "keywordlist" with
    | Some value =>
        Xml.xmlAddChild psCD
          (msLibXml2GenerateList
             (Xml.new_child psCD (Some psOwsNs) "Keywords" None)
             None "Keyword" value ",")
    | None => psCD
    end in
  (* Domain, SpatialDomain *)
  let psDomain := Xml.new_child psCD None "Domain" None in
  let psSD := Xml.new_child psDomain None "SpatialDomain" None in
  let psSD := Xml.add_children psSD (bounding_boxes (Some psOwsNs) cm) in
  let psSD := Xml.xmlAddChild psSD (grid_crs psSD cm) in
  let psCD := Xml.xmlAddChild psCD (Xml.xmlAddChild psDomain psSD) in
  (* Range *)
  let psCD := Xml.xmlAddChild psCD (range psCD psOwsNs layer) in
  (* SupportedCRS *)
  owned_value <- resolve_supported_crs msOWSGetProjURN layer ;;
  let psCD := add_supported_crs psCD owned_value in
  (* SupportedFormats *)
  match layer_map layer with
  | None => crash
  | Some lmap =>
      format_list <- msWCSGetFormatsList11 lmap (Some layer) ;;
      let psCD := add_supported_formats psCD format_list in
      ret (MS_SUCCESS, Xml.xmlAddChild psRootNode psCD, layer)
  end.

(* ---------------------------------------------------------------- *)
(** ** msWCSDescribeCoverage11 *)

(** Lines 736-742: a single item is split on commas and takes the place
    of the old list. *)
Definition split_single_coverage (params : wcsParamsObj) : M wcsParamsObj :=
  if CSL.CSLCount (coverages params) =? 1 then
    match coverages params with
    | Some (old0 :: _) =>
        let split := CSL.CSLTokenizeStringComplex old0 "," false false in
        emit (Ev_free R_old_coverages) ;;;
        ret {| version := version params; coverages := split |}
    | _ => ret params
    end
  else ret params.

(** The first requested coverage that is not a layer of the map: where
    the loop of lines 748-756 returns, if it does. *)
Fixpoint first_unresolved (map : mapObj) (cs : list string) : option string :=
  match cs with
  | [] => None
  | c :: rest =>
      if msGetLayerIndex map c =? -1 then Some c
      else first_unresolved map rest
  end.

(** [*GET_LAYER(map, i) = layer] *)
Definition set_layer (map : mapObj) (i : Z) (layer : layerObj) : mapObj :=
  {| header := header map;
     layers := firstn (Z.to_nat i) (layers map) ++ layer
               :: skipn (S (Z.to_nat i)) (layers map) |}%list.

(** One turn of either loop of lines 783-795: the layer at index [i] is
    described, the status is dropped. *)
Definition describe_layer (map : mapObj) (params : wcsParamsObj)
           (psOwsNs : xmlNs) (i : Z) (psRootNode : xmlNode)
  : M (mapObj * xmlNode) :=
  match GET_LAYER map i with
  | None => crash
  | Some layer =>
      r <- msWCSDescribeCoverage_CoverageDescription11
             layer params psRootNode psOwsNs ;;
      ret (set_layer map i (snd r), snd (fst r))
  end.

(** Lines 784-789: the requested coverages, in the order of the list. *)
Fixpoint describe_requested (map : mapObj) (params : wcsParamsObj)
         (psOwsNs : xmlNs) (cs : list string) (psRootNode : xmlNode)
  : M (mapObj * xmlNode) :=
  match cs with
  | [] => ret (map, psRootNode)
  | c :: rest =>
      r <- describe_layer map params psOwsNs (msGetLayerIndex map c)
                          psRootNode ;;
      describe_requested (fst r) params psOwsNs rest (snd r)
  end.

(** Lines 791-794: all layers; [n] layers are left, from index [i] on. *)
Fixpoint describe_all (n : nat) (i : Z) (map : mapObj)
         (params : wcsParamsObj) (psOwsNs : xmlNs) (psRootNode : xmlNode)
  : M (mapObj * xmlNode) :=
  match n with
  | O => ret (map, psRootNode)
  | S n' =>
      r <- describe_layer map params psOwsNs i psRootNode ;;
      describe_all n' (i + 1) (fst r) params psOwsNs (snd r)
  end.

(** [msWCSDescribeCoverage11] after lines 736-742. *)
Definition describe_coverages (map : mapObj) (params : wcsParamsObj) : M Z :=
  (* Validate that the requested coverages exist as named layers. *)
  match match coverages params with
        | Some cs => first_unresolved map cs
        | None => None
        end with
  | Some coverage =>
      emit (Ev_msSetError MS_WCSERR
              ("COVERAGE " ++ coverage ++ " cannot be opened / does not exist")
              "msWCSDescribeCoverage()") ;;;
      msWCSException (header map) (Some coverage)
                     (Some "CoverageNotDefined") (Some "coverage")
  | None =>
      (* Create document, name spaces. *)
      let psRootNode := new_root "CoverageDescriptions" params in
      (* Generate a CoverageDescription for each requested coverage. *)
      r <- match coverages params with
           | Some cs =>
               describe_requested map params ows_namespace cs psRootNode
           | None =>
               describe_all (numlayers map) 0 map params
                            ows_namespace psRootNode
           end ;;
      (* Write out the document. *)
      write_document (snd r) (
        (* Cleanup *)
        emit (Ev_free R_doc) ;;;
        emit Ev_xmlCleanupParser ;;;
        emit (Ev_free R_params_members) ;;;
        emit (Ev_free R_params) ;;;
        ret MS_SUCCESS)
  end.

Definition msWCSDescribeCoverage11 (map : mapObj) (params : wcsParamsObj)
  : M Z :=
  params <- split_single_coverage params ;;
  describe_coverages map params.

(* ---------------------------------------------------------------- *)
(** ** msWCSReturnCoverage11 *)

(** The text of the first [msIO_fprintf] (lines 844-872): the format with
    its [%c] (code 10) and [%s] arguments in place, line by line. *)
Definition coverage_envelope (extension mime : string) : string :=
  "Content-Type: multipart/mixed; boundary=wcs" ++ CStr.LF ++ CStr.LF
  ++ "--wcs" ++ CStr.LF
  ++ "Content-Type: text/xml" ++ CStr.LF
  ++ "Content-ID: wcs.xml" ++ CStr.LF ++ CStr.LF
  ++ "<?xml version=" ++ CStr.DQ ++ "1.0" ++ CStr.DQ
     ++ " encoding=" ++ CStr.DQ ++ "UTF-8" ++ CStr.DQ ++ "?>" ++ CStr.LF
  ++ "<Coverages" ++ CStr.LF
  ++ "     xmlns=" ++ CStr.DQ ++ "http://www.opengis.net/wcs/1.1" ++ CStr.DQ
     ++ CStr.LF
  ++ "     xmlns:ows=" ++ CStr.DQ ++ "http://www.opengis.net/ows" ++ CStr.DQ
     ++ CStr.LF
  ++ "     xmlns:xlink=" ++ CStr.DQ ++ "http://www.w3.org/1999/xlink"
     ++ CStr.DQ ++ CStr.LF
  ++ "     xmlns:xsi=" ++ CStr.DQ
     ++ "http://www.w3.org/2001/XMLSchema-instance" ++ CStr.DQ ++ CStr.LF
  ++ "     xsi:schemaLocation=" ++ CStr.DQ
     ++ "http://www.opengis.net/ows/1.1 ../owsCoverages.xsd" ++ CStr.DQ
     ++ ">" ++ CStr.LF
  ++ "  <Coverage>" ++ CStr.LF
  ++ "    <Reference xlink:href=" ++ CStr.DQ ++ "cid:coverage/wcs."
     ++ extension ++ CStr.DQ ++ "/>" ++ CStr.LF
  ++ "  </Coverage>" ++ CStr.LF
  ++ "</Coverages>" ++ CStr.LF
  ++ "--wcs" ++ CStr.LF
  ++ "Content-Type: " ++ mime ++ CStr.LF
  ++ "Content-Description: coverage data" ++ CStr.LF
  ++ "Content-Transfer-Encoding: binary" ++ CStr.LF
  ++ "Content-ID: coverage/wcs." ++ extension ++ CStr.LF
  ++ "Content-Disposition: INLINE" ++ CStr.LF ++ CStr.LF.

Definition msWCSReturnCoverage11 (params : wcsParamsObj) (map : mapObj)
           (image : imageObj) : M Z :=
  let format := outputformat (header map) in
  emit (Ev_printf (coverage_envelope (MS_IMAGE_EXTENSION format)
                                     (MS_IMAGE_MIME_TYPE format))) ;;;
  let (status, bytes) := msSaveImage (header map) image in
  emit (Ev_msSaveImage bytes) ;;;
  if negb (status =? MS_SUCCESS)
  then msWCSException (header map) (Some (version params)) None None
  else
    emit (Ev_printf ("--wcs--" ++ CStr.LF ++ CStr.LF)) ;;;
    ret MS_SUCCESS.

End WCS11.

(* ------------------------------------------------------------------ *)
(** ** Vocabulary of the statements *)

(** The MIME type a format name stands for: that of the first descriptor
    of this name, when it is not empty. *)
Definition mime_of_token (map : mapHeader) (token : string) : option string :=
  match lookup_format map token with
  | Some f =>
      match mimetype f with
      | Some (String _ _ as mime) => Some mime
      | _ => None
      end
  | None => None
  end.

(** The MIME types of the names that stand for one, in the order of the
    names. *)
Definition resolved_mimes (map : mapHeader) (tokens : list string)
  : list string :=
  flat_map (fun token => match mime_of_token map token with
                         | Some mime => [mime]
                         | None => []
                         end) tokens.

(** Following the spec: deduplication by case-insensitive equality, the
    first seen kept where it is, every later duplicate discarded. *)
Fixpoint first_seen (l : list string) : list string :=
  match l with
  | [] => []
  | x :: xs => x :: filter (fun y => negb (CStr.caseeq x y)) (first_seen xs)
  end.

(** No two entries are equal up to case. *)
Fixpoint ci_unique (l : list string) : Prop :=
  match l with
  | [] => True
  | x :: xs => Forall (fun y => CStr.caseeq x y = false) xs /\ ci_unique xs
  end.

Definition is_diagnostic (e : event) : bool :=
  match e with Ev_msDebug _ => true | _ => false end.

(* ------------------------------------------------------------------ *)
(** ** A small server, for running the code *)

Module Sample.

Definition lookup (md : hashTableObj) (key : string) : option string :=
  match find (fun kv => String.eqb (fst kv) key) md with
  | Some kv => Some (snd kv)
  | None => None
  end.

Definition tiff : outputFormatObj :=
  {| format_name := "GTiff"; mimetype := Some "image/tiff";
     extension := Some "tif"; renderer := MS_RENDER_WITH_RAWDATA |}.

Definition tiff_again : outputFormatObj :=
  {| format_name := "GEOTIFF_16"; mimetype := Some "Image/Tiff";
     extension := Some "tif"; renderer := MS_RENDER_WITH_GD |}.

Definition png : outputFormatObj :=
  {| format_name := "png"; mimetype := Some "image/png";
     extension := Some "png"; renderer := MS_RENDER_WITH_AGG |}.

Definition pdf : outputFormatObj :=
  {| format_name := "pdf"; mimetype := Some "application/x-pdf";
     extension := Some "pdf"; renderer := MS_RENDER_WITH_PDF |}.

Definition nomime : outputFormatObj :=
  {| format_name := "raw"; mimetype := None;
     extension := None; renderer := MS_RENDER_WITH_RAWDATA |}.

(** A server whose configured MIME types are image/tiff, Image/Tiff and
    image/png. *)
Definition three_formats : mapHeader :=
  {| outputformatlist := [tiff; tiff_again; png];
     outputformat := tiff;
     map_projection := ["urn:ogc:def:crs:EPSG::4326"];
     web := {| web_metadata := [("onlineresource", "http://localhost/wcs?")] |} |}.

(** A server with two more formats: one that is no raster format and one
    without a MIME type. *)
Definition five_formats : mapHeader :=
  {| outputformatlist := [pdf; tiff; nomime; tiff_again; png];
     outputformat := png;
     map_projection := ["urn:ogc:def:crs:EPSG::4326"];
     web := {| web_metadata := [("onlineresource", "http://localhost/wcs?")] |} |}.

(** The same server without an online resource. *)
Definition no_url : mapHeader :=
  {| outputformatlist := [tiff; tiff_again; png];
     outputformat := tiff;
     map_projection := [];
     web := {| web_metadata := [] |} |}.

Definition layer (name : string) (hd : option mapHeader) : layerObj :=
  {| layer_name := name;
     layer_projection := [];
     layer_metadata := [];
     layer_map := hd |}.

(** Layers a, b and c; the coverage metadata of layer b cannot be
    computed. *)
Definition server : mapObj :=
  {| header := three_formats;
     layers := [ layer "a" (Some three_formats);
                 layer "b" (Some three_formats);
                 layer "c" (Some three_formats) ] |}.

(** Layers a and c, and a layer in between that lost its parent
    pointer. *)
Definition orphan_server : mapObj :=
  {| header := three_formats;
     layers := [ layer "a" (Some three_formats);
                 layer "o" None;
                 layer "c" (Some three_formats) ] |}.

(** Layers a and c, both in order. *)
Definition small_server : mapObj :=
  {| header := three_formats;
     layers := [ layer "a" (Some three_formats);
                 layer "c" (Some three_formats) ] |}.

Definition offline_server : mapObj :=
  {| header := no_url; layers := [ layer "a" (Some no_url) ] |}.

Definition extent0 : rectObj :=
  {| minx := 100; miny := 140; maxx := 160; maxy := 200 |}.

(** A 2 x 2 raster with 30 unit pixels, north up. *)
Definition cm : coverageMetadataObj :=
  {| srs_urn := "urn:ogc:def:crs:EPSG::32611";
     extent := extent0;
     llextent := extent0;
     geotransform := fun i => nth i [100; 30; 0; 200; 0; -30]%float 0%float;
     xsize := 2;
     ysize := 2 |}.

Definition request : cgiRequestObj :=
  {| ParamNames := ["SERVICE"; "REQUEST"];
     ParamValues := ["WCS"; "GetCapabilities"] |}.

Definition image : imageObj := {| width := 2; height := 2; img := [0; 1; 2; 3] |}.

Definition params (cs : CSL.StringList) : wcsParamsObj :=
  {| version := "1.1.0"; coverages := cs |}.

Definition world : Collaborators :=
  {| msWCSIsLayerSupported := fun _ => true;
     msOWSLookupMetadata := fun md _ key => lookup md key;
     msOWSGetEncodeMetadata := fun md _ key default =>
       match lookup md key with
       | Some v => Some v
       | None => default
       end;
     msOWSGetProjURN := fun proj _ _ _ => hd_error proj;
     msWCSGetCoverageMetadata := fun l =>
       if String.eqb (layer_name l) "b" then (MS_FAILURE, cm)
       else (MS_SUCCESS, cm);
     msWCSSetDefaultBandsRangeSetInfo := fun _ _ l => layer_metadata l;
     msStringSplit := fun s delim =>
       CSL.tokens_from (String delim EmptyString) false true false [] s;
     msEncodeHTMLEntities := fun s => Some s;
     msOWSGetOnlineResource := fun hd _ key _ =>
       lookup (web_metadata (web hd)) key;
     msIO_needBinaryStdout := MS_SUCCESS;
     msSaveImage := fun _ _ => (MS_SUCCESS, "II*") |}.

End Sample.

(** The coverage list that [msWCSDescribeCoverage11] works on, after the
    split of a single item. *)
Definition normalized_coverages (params : wcsParamsObj) : CSL.StringList :=
  match fst (split_single_coverage params) with
  | Some p => coverages p
  | None => coverages params
  end.

(** Nothing of the trace went to stdout. *)
Definition silent (t : list event) : Prop :=
  forallb (fun e => negb (is_output e)) t = true.

(** Only diagnostics and entries of the error stack. *)
Definition is_log (e : event) : bool :=
  match e with Ev_msDebug _ | Ev_msSetError _ _ _ => true | _ => false end.

Definition logs (t : list event) : Prop := forallb is_log t = true.

(** The layer is supported and its coverage metadata cannot be computed. *)
Definition summary_fails {ext : Collaborators} (layer : layerObj) : Prop :=
  msWCSIsLayerSupported layer = true
  /\ fst (msWCSGetCoverageMetadata layer) <> MS_SUCCESS.

(** The description of the layer fails: its parent pointer is missing, or
    it is supported and its coverage metadata cannot be computed. *)
Definition description_fails {ext : Collaborators} (layer : layerObj) : Prop :=
  layer_map layer = None \/ summary_fails layer.

(** The names of the layers, which [msGetLayerIndex] goes by. *)
Definition layer_names (m : mapObj) : list string :=
  List.map layer_name (layers m).

(** The identifiers of the CoverageDescription children of a root. *)
Definition described (psRootNode : xmlNode) : list (option string) :=
  List.map (fun cd => match Xml.child "Identifier" cd with
                      | Some i => Xml.content_of i
                      | None => None
                      end)
           (Xml.children_named "CoverageDescription" psRootNode).

(** The events at the end of a successful call (lines 805-824). *)
Definition describe_epilogue (p : wcsParamsObj) (cds : list xmlNode)
  : list event :=
  [ Ev_printf ("Content-type: text/xml" ++ CStr.LF ++ CStr.LF);
    Ev_writeDoc
      {| xml_version := "1.0";
         root := Xml.add_children (new_root "CoverageDescriptions" p) cds |}
      "ISO-8859-1";
    Ev_free R_buffer; Ev_free R_doc; Ev_xmlCleanupParser;
    Ev_free R_params_members; Ev_free R_params ].

(** The namespace bindings that the root of a document declares. *)
Definition root_bindings (d : xmlDoc) : list (option string * string) :=
  List.map (fun n => (prefix n, href n)) (Xml.nsDef_of (root d)).

(** The text of a field of the GridCRS block of a CoverageDescription. *)
Definition grid_text (field : string) (cd : xmlNode) : option string :=
  match Xml.descend ["Domain"; "SpatialDomain"; "GridCRS"; field] cd with
  | Some n => Xml.content_of n
  | None => None
  end.

(** The texts of the SupportedCRS children of a node. *)
Definition supported_crs_of (node : xmlNode) : list (option string) :=
  List.map Xml.content_of (Xml.children_named "SupportedCRS" node).

(** Following the spec: the layer's own CRS list, and the server's when
    the layer has none. *)
Definition crs_choice (own server : option string) : option string :=
  match own with
  | Some v => Some v
  | None => server
  end.

(** The CRS names listed for a resolved value: those of a non-empty
    string. *)
Definition crs_tokens {ext : Collaborators} (owned_value : option string)
  : list string :=
  match owned_value with
  | Some (String _ _ as v) => msStringSplit v " "
  | _ => []
  end.

Definition no_srs_diagnostic : event :=
  Ev_msDebug "mapwcs.c: missing required information, no SRSs defined.".

(** The bytes that a trace put on stdout, XML documents apart. *)
Fixpoint stdout_text (t : list event) : string :=
  match t with
  | [] => EmptyString
  | Ev_printf s :: t' => s ++ stdout_text t'
  | Ev_msSaveImage bytes :: t' => bytes ++ stdout_text t'
  | _ :: t' => stdout_text t'
  end.

(** Following the spec: a multipart/mixed response, as a boundary token
    and parts, each with its header fields and its body.  Every
    delimiter is a line: the line break before it ends the body of the
    part before and is not a byte of that body. *)
Module Mime.

Record part := { fields : list (string * string); body : string }.

Definition render_field (f : string * string) : string :=
  fst f ++ ": " ++ snd f ++ CStr.LF.

Definition render_part (p : part) : string :=
  String.concat EmptyString (List.map render_field (fields p))
  ++ CStr.LF ++ body p.

(** The Content-Type line and an empty line, then each part after a line
    of two dashes and the boundary and before a line break, then the
    closing line: two dashes, the boundary and two dashes. *)
Definition render (boundary : string) (parts : list part) : string :=
  "Content-Type: multipart/mixed; boundary=" ++ boundary ++ CStr.LF ++ CStr.LF
  ++ String.concat EmptyString
       (List.map (fun p => "--" ++ boundary ++ CStr.LF ++ render_part p
                           ++ CStr.LF) parts)
  ++ "--" ++ boundary ++ "--" ++ CStr.LF.

End Mime.

(** Following the spec: the manifest, whose Reference points to the
    content id of the coverage part. *)
Definition manifest_xml (href : string) : string :=
  "<?xml version=" ++ CStr.DQ ++ "1.0" ++ CStr.DQ
  ++ " encoding=" ++ CStr.DQ ++ "UTF-8" ++ CStr.DQ ++ "?>" ++ CStr.LF
  ++ "<Coverages" ++ CStr.LF
  ++ "     xmlns=" ++ CStr.DQ ++ "http://www.opengis.net/wcs/1.1" ++ CStr.DQ
  ++ CStr.LF
  ++ "     xmlns:ows=" ++ CStr.DQ ++ "http://www.opengis.net/ows" ++ CStr.DQ
  ++ CStr.LF
  ++ "     xmlns:xlink=" ++ CStr.DQ ++ "http://www.w3.org/1999/xlink" ++ CStr.DQ
  ++ CStr.LF
  ++ "     xmlns:xsi=" ++ CStr.DQ ++ "http://www.w3.org/2001/XMLSchema-instance"
  ++ CStr.DQ ++ CStr.LF
  ++ "     xsi:schemaLocation=" ++ CStr.DQ
  ++ "http://www.opengis.net/ows/1.1 ../owsCoverages.xsd" ++ CStr.DQ ++ ">"
  ++ CStr.LF
  ++ "  <Coverage>" ++ CStr.LF
  ++ "    <Reference xlink:href=" ++ CStr.DQ ++ href ++ CStr.DQ ++ "/>" ++ CStr.LF
  ++ "  </Coverage>" ++ CStr.LF
  ++ "</Coverages>".

Definition manifest_part (extension : string) : Mime.part :=
  {| Mime.fields := [ ("Content-Type", "text/xml"); ("Content-ID", "wcs.xml") ];
     Mime.body := manifest_xml ("cid:coverage/wcs." ++ extension) |}.

Definition coverage_part (mime extension bytes : string) : Mime.part :=
  {| Mime.fields :=
       [ ("Content-Type", mime);
         ("Content-Description", "coverage data");
         ("Content-Transfer-Encoding", "binary");
         ("Content-ID", "coverage/wcs." ++ extension);
         ("Content-Disposition", "INLINE") ];
     Mime.body := bytes |}.

(** The lines of a text: what stands between its line feeds. *)
Fixpoint lines_of (s : string) : list string :=
  match s with
  | EmptyString => [EmptyString]
  | String c s' =>
      if Ascii.eqb c (ascii_of_nat 10) then EmptyString :: lines_of s'
      else match lines_of s' with
           | l :: ls => String c l :: ls
           | [] => [String c EmptyString]
           end
  end.

(** Following the spec: what every generated document declares on its
    root, the five namespace bindings and the version attribute; the
    root itself is in the default namespace. *)
Definition declares_wcs11 (v : string) (d : xmlDoc) : Prop :=
  root_bindings d
  = [ (None, "http://www.opengis.net/wcs/1.1");
      (Some "ows", MS_OWSCOMMON_OWS_NAMESPACE_URI);
      (Some "xlink", MS_OWSCOMMON_W3C_XLINK_NAMESPACE_URI);
      (Some "xsi", MS_OWSCOMMON_W3C_XSI_NAMESPACE_URI);
      (Some "ogc", MS_OWSCOMMON_OGC_NAMESPACE_URI) ]
  /\ Xml.ns_of (root d)
     = Some {| href := "http://www.opengis.net/wcs/1.1"; prefix := None |}
  /\ Xml.properties_of (root d) = [("version", v)].

(* ------------------------------------------------------------------ *)
(** ** Vocabulary of the further properties *)

(** The renderer is one of those that lines 82-91 take for a raster
    format. *)
Definition raster_capable (f : outputFormatObj) : bool :=
  match renderer f with
  | MS_RENDER_WITH_GD | MS_RENDER_WITH_AGG | MS_RENDER_WITH_RAWDATA => true
  | _ => false
  end.

(** The MIME types, when not empty, of the raster formats, in the order
    of the configuration. *)
Definition raster_mimes (fs : list outputFormatObj) : list string :=
  flat_map (fun f => if raster_capable f
                     then match mimetype f with
                          | Some (String _ _ as mime) => [mime]
                          | _ => []
                          end
                     else []) fs.

(** A list of names without the empty names it starts with. *)
Fixpoint drop_leading_empty (l : list string) : list string :=
  match l with
  | EmptyString :: l' => drop_leading_empty l'
  | _ => l
  end.


(** The text of the Identifier child of a node. *)
Definition identifier_of (node : xmlNode) : option string :=
  match Xml.child "Identifier" node with
  | Some i => Xml.content_of i
  | None => None
  end.

(** The identifiers of the CoverageSummary children of a Contents node. *)
Definition summarized (psContents : xmlNode) : list (option string) :=
  List.map identifier_of (Xml.children_named "CoverageSummary" psContents).

(** The names and values of the Parameter domains of an Operation. *)
Definition parameters_of (op : xmlNode) : list (string * string) :=
  flat_map (fun n =>
              match n with
              | Fragment (msOWSCommonOperationsMetadataDomainType
                            _ elname name values) _ =>
                  if String.eqb elname "Parameter" then [(name, values)] else []
              | _ => []
              end) (Xml.children_of op).

(** The operations that a root advertises in its OperationsMetadata:
    name, URL and parameters of each. *)
Definition operations_of (psRootNode : xmlNode)
  : list (string * string * list (string * string)) :=
  flat_map (fun n =>
              match n with
              | Fragment (msOWSCommonOperationsMetadata _) ops =>
                  flat_map (fun op =>
                              match op with
                              | Fragment (msOWSCommonOperationsMetadataOperation
                                            _ _ name _ url) _ =>
                                  [(name, url, parameters_of op)]
                              | _ => []
                              end) ops
              | _ => []
              end) (Xml.children_of psRootNode).

(** The names of the supported layers, in the order of the map. *)
Definition supported_names {ext : Collaborators} (ls : list layerObj)
  : list string :=
  List.map layer_name (filter msWCSIsLayerSupported ls).

(** How many times a trace released a resource. *)
Definition resource_eqb (a b : resource) : bool :=
  match a, b with
  | R_params_members, R_params_members
  | R_params, R_params
  | R_old_coverages, R_old_coverages
  | R_script_url, R_script_url
  | R_script_url_encoded, R_script_url_encoded
  | R_identifier_list, R_identifier_list
  | R_format_list, R_format_list
  | R_buffer, R_buffer
  | R_doc, R_doc => true
  | _, _ => false
  end.

Definition frees (r : resource) (t : list event) : nat :=
  List.length (filter (fun e => match e with
                                | Ev_free r' => resource_eqb r r'
                                | _ => false
                                end) t).

(** The events at the end of a successful capabilities call
    (lines 451-470). *)
Definition capabilities_epilogue (psRootNode : xmlNode) : list event :=
  [ Ev_printf ("Content-type: text/xml" ++ CStr.LF ++ CStr.LF);
    Ev_writeDoc {| xml_version := "1.0"; root := psRootNode |} "ISO-8859-1";
    Ev_free R_buffer; Ev_free R_doc; Ev_xmlCleanupParser;
    Ev_free R_params_members; Ev_free R_params;
    Ev_free R_script_url_encoded; Ev_free R_identifier_list ].

(** The parent pointer of every layer is there. *)
Definition parents_set (ls : list layerObj) : Prop :=
  Forall (fun l => layer_map l <> None) ls.

(** The coverage metadata of every supported layer can be computed. *)
Definition summaries_computable {ext : Collaborators} (ls : list layerObj)
  : Prop :=
  Forall (fun l => msWCSIsLayerSupported l = true ->
                   fst (msWCSGetCoverageMetadata l) = MS_SUCCESS) ls.


(** The root of the capabilities document (lines 332-445), given the
    encoded URL, the formats list and the summaries of the Contents. *)
Definition capabilities_root {ext : Collaborators} (map : mapObj)
           (params : wcsParamsObj) (script_url_encoded format_list : string)
           (summaries : list xmlNode) : xmlNode :=
  let identifier_list := identifier_list_loop (layers map) "" in
  let service_version := [("service", "WCS"); ("version", version params)] in
  Xml.add_children (new_root "Capabilities" params)
    [ Fragment (msOWSCommonServiceIdentification
                  ows_namespace (header map) "OGC WCS" (version params)) [];
      Fragment (msOWSCommonServiceProvider
                  ows_namespace xlink_namespace (header map)) [];
      Fragment (msOWSCommonOperationsMetadata ows_namespace)
        [ operation "GetCapabilities" script_url_encoded service_version;
          operation "DescribeCoverage" script_url_encoded
            (service_version ++ [("identifiers", identifier_list)])%list;
          operation "GetCoverage" script_url_encoded
            (service_version ++
             [("Identifier", identifier_list);
              ("InterpolationType", "NEAREST_NEIGHBOUR,BILINEAR");
              ("format", format_list);
              ("store", "false");
              ("GridBaseCRS", "urn:ogc:def:crs:epsg::4326")])%list ];
      Xml.add_children
        (Xml.new_child (new_root "Capabilities" params) None "Contents" None)
        summaries ].

(** 1 when the coverage list has a single item, which lines 736-742
    replace, and 0 otherwise. *)
Definition single_item (params : wcsParamsObj) : nat :=
  if CSL.CSLCount (coverages params) =? 1 then 1%nat else 0%nat.


(** The characters of [s] are all among those of [delims]. *)
Fixpoint only_of (delims s : string) : bool :=
  match s with
  | EmptyString => true
  | String c s' => andb (CStr.strchr delims c) (only_of delims s')
  end.

(** The sample collaborators with an image encoder that fails after it
    has written a part of the image. *)
Definition failing_encoder : Collaborators :=
  {| msWCSIsLayerSupported := msWCSIsLayerSupported (Collaborators := Sample.world);
     msOWSLookupMetadata := msOWSLookupMetadata (Collaborators := Sample.world);
     msOWSGetEncodeMetadata :=
       msOWSGetEncodeMetadata (Collaborators := Sample.world);
     msOWSGetProjURN := msOWSGetProjURN (Collaborators := Sample.world);
     msWCSGetCoverageMetadata :=
       msWCSGetCoverageMetadata (Collaborators := Sample.world);
     msWCSSetDefaultBandsRangeSetInfo :=
       msWCSSetDefaultBandsRangeSetInfo (Collaborators := Sample.world);
     msStringSplit := msStringSplit (Collaborators := Sample.world);
     msEncodeHTMLEntities :=
       msEncodeHTMLEntities (Collaborators := Sample.world);
     msOWSGetOnlineResource :=
       msOWSGetOnlineResource (Collaborators := Sample.world);
     msIO_needBinaryStdout := MS_SUCCESS;
     msSaveImage := fun _ _ => (MS_FAILURE, "II") |}.


(** The layer gets a CoverageDescription: its parent pointer is there,
    it is supported, and its coverage metadata can be computed. *)
Definition describable {ext : Collaborators} (layer : layerObj) : bool :=
  match layer_map layer with
  | Some _ =>
      andb (msWCSIsLayerSupported layer)
           (fst (msWCSGetCoverageMetadata layer) =? MS_SUCCESS)
  | None => false
  end.

(** The same of the layer that a coverage name stands for. *)
Definition describable_name {ext : Collaborators} (map : mapObj)
           (c : string) : bool :=
  match GET_LAYER map (msGetLayerIndex map c) with
  | Some layer => describable layer
  | None => false
  end.


(** The bounding boxes among the children of a node. *)
Definition is_box (n : xmlNode) : bool :=
  match n with
  | Fragment (msOWSCommonBoundingBox _ _ _ _ _ _ _) _
  | Fragment (msOWSCommonWGS84BoundingBox _ _ _ _ _ _) _ => true
  | _ => false
  end.

Definition boxes_of (n : xmlNode) : list xmlNode :=
  filter is_box (Xml.children_of n).


(** The encoded online resource of the capabilities (lines 359-360),
    when it is found and can be encoded. *)
Definition encoded_online_resource {ext : Collaborators} (map : mapObj)
           (req : cgiRequestObj) : option string :=
  match msOWSGetOnlineResource (header map) "COM" "onlineresource" req with
  | Some script_url => msEncodeHTMLEntities script_url
  | None => None
  end.


(* ================================================================== *)
(** * Properties *)

Example printf_samples :
  List.map (Printf.g 15)
      [115; 185; 30; -30; 0.5; 1e15; 1e14; 0.000030517578125;
       4503599627370496; 0; -0; infinity; 1234.5;
       0x1.999999999999ap-4; 0x1.3333333333334p-2; 0x1.a36e2eb1c432dp-14;
       0x1.4f8b588e368f1p-17; 0x1p-1074; 0x1.fffffffffffffp+1023;
       0x1.6bcc41e8ffffdp+46]%float
  = ["115"; "185"; "30"; "-30"; "0.5"; "1e+15"; "100000000000000";
     "3.0517578125e-05"; "4.5035996273705e+15"; "0"; "-0"; "inf"; "1234.5";
     "0.1"; "0.3"; "0.0001";
     "1e-05"; "4.94065645841247e-324"; "1.79769313486232e+308";
     "100000000000000"].
Proof. vm_compute. reflexivity. Qed.

(** ** The trace monad *)

Lemma fst_bind {A B : Type} (m : M A) (k : A -> M B) :
  fst (bind m k) = match fst m with Some a => fst (k a) | None => None end.
Proof. unfold bind. destruct (fst m); reflexivity. Qed.

Lemma snd_bind {A B : Type} (m : M A) (k : A -> M B) :
  snd (bind m k) = match fst m with
                   | Some a => (snd m ++ snd (k a))%list
                   | None => snd m
                   end.
Proof. unfold bind. destruct (fst m); reflexivity. Qed.

Lemma bind_ret {A B : Type} (a : A) (k : A -> M B) : bind (ret a) k = k a.
Proof. unfold bind, ret. simpl. destruct (k a). reflexivity. Qed.

Lemma bind_emit {B : Type} (e : event) (k : unit -> M B) :
  bind (emit e) k = (fst (k tt), e :: snd (k tt)).
Proof. reflexivity. Qed.

Lemma bind_value {A B : Type} (m : M A) (k : A -> M B) (a : A) :
  fst m = Some a -> bind m k = (fst (k a), (snd m ++ snd (k a))%list).
Proof. intros H. unfold bind. rewrite H. reflexivity. Qed.

Lemma bind_crash {A B : Type} (m : M A) (k : A -> M B) :
  fst m = None -> bind m k = (None, snd m).
Proof. intros H. unfold bind. rewrite H. reflexivity. Qed.

(** ** C strings *)

Lemma append_assoc (a b c : string) : ((a ++ b) ++ c = a ++ (b ++ c))%string.
Proof. induction a as [|x a IH]; simpl; [reflexivity | now rewrite IH]. Qed.

Lemma append_nil_r (a : string) : (a ++ EmptyString)%string = a.
Proof. induction a as [|x a IH]; simpl; [reflexivity | now rewrite IH]. Qed.

Lemma lc_eq (x y : ascii) :
  CStr.lc x - CStr.lc y = 0 -> CStr.tolower x = CStr.tolower y.
Proof.
  unfold CStr.lc. intros H.
  assert (E : nat_of_ascii (CStr.tolower x) = nat_of_ascii (CStr.tolower y))
    by lia.
  rewrite <- (ascii_nat_embedding (CStr.tolower x)), E.
  apply ascii_nat_embedding.
Qed.

(** [strcasecmp] answers 0 exactly on strings with the same key. *)
Lemma caseeq_key (a b : string) :
  CStr.caseeq a b = String.eqb (CStr.key a) (CStr.key b).
Proof.
  unfold CStr.caseeq. revert b.
  induction a as [|x a IH]; intros [|y b];
    cbn [CStr.strcasecmp CStr.key].
  - reflexivity.
  - destruct (Z.eqb_spec (CStr.lc y) 0) as [Ey|Ey].
    + rewrite Ey. reflexivity.
    + cbn [String.eqb]. apply Z.eqb_neq. lia.
  - destruct (Z.eqb_spec (CStr.lc x) 0) as [Ex|Ex]; reflexivity.
  - destruct (Z.eqb_spec (CStr.lc x - CStr.lc y) 0) as [Ed|Ed].
    + pose proof (lc_eq _ _ Ed) as Et.
      assert (Exy : CStr.lc y = CStr.lc x) by lia. rewrite Exy.
      destruct (Z.eqb_spec (CStr.lc x) 0) as [Ex|Ex]; [reflexivity|].
      cbn [String.eqb]. rewrite Et, Ascii.eqb_refl. apply IH.
    + destruct (Z.eqb_spec (CStr.lc x) 0) as [Ex|Ex];
        destruct (Z.eqb_spec (CStr.lc y) 0) as [Ey|Ey];
        cbn [String.eqb]; try (apply Z.eqb_neq; exact Ed).
      * lia.
      * destruct (Ascii.eqb (CStr.tolower x) (CStr.tolower y)) eqn:Et.
        -- apply Ascii.eqb_eq in Et. unfold CStr.lc in Ed. rewrite Et in Ed. lia.
        -- apply Z.eqb_neq. exact Ed.
Qed.

Lemma caseeq_refl (a : string) : CStr.caseeq a a = true.
Proof. rewrite caseeq_key. apply String.eqb_refl. Qed.

Lemma caseeq_sym (a b : string) : CStr.caseeq a b = CStr.caseeq b a.
Proof. rewrite !caseeq_key. apply String.eqb_sym. Qed.

Lemma caseeq_trans (a b c : string) :
  CStr.caseeq a b = true -> CStr.caseeq b c = true -> CStr.caseeq a c = true.
Proof.
  rewrite !caseeq_key, !String.eqb_eq. congruence.
Qed.

(** ** msWCSGetFormatsList11 *)

Section FormatsList.

Context {ext : Collaborators}.

Lemma filter_filter {A : Type} (f g : A -> bool) (l : list A) :
  filter f (filter g l) = filter (fun x => andb (g x) (f x)) l.
Proof.
  induction l as [|x l IH]; simpl; [reflexivity|].
  destruct (g x); simpl; [destruct (f x)|]; now rewrite IH.
Qed.

Lemma duplicates_snoc (y x : string) (acc : list string) :
  duplicates y (acc ++ [x]) = orb (duplicates y acc) (CStr.caseeq x y).
Proof.
  unfold duplicates. rewrite existsb_app. simpl.
  rewrite orb_false_r, (caseeq_sym y x). reflexivity.
Qed.

Lemma duplicates_trans (x y : string) (acc : list string) :
  duplicates x acc = true -> CStr.caseeq x y = true ->
  duplicates y acc = true.
Proof.
  unfold duplicates. rewrite !existsb_exists.
  intros [a [Ha Hxa]] Hxy. exists a. split; [exact Ha|].
  apply caseeq_trans with x; [now rewrite caseeq_sym | exact Hxa].
Qed.

(** The array the loop leaves, from any array it starts with. *)
Lemma formats_loop_value (map : mapHeader) (tokens acc : list string) :
  fst (formats_loop map tokens acc)
  = Some (acc ++ filter (fun y => negb (duplicates y acc))
                        (first_seen (resolved_mimes map tokens)))%list.
Proof.
  revert acc. induction tokens as [|t ts IH]; intros acc.
  - simpl. now rewrite app_nil_r.
  - cbn [formats_loop resolved_mimes flat_map].
    fold (resolved_mimes map ts). unfold mime_of_token.
    destruct (lookup_format map t) as [f|];
      [destruct (mimetype f) as [[|c m]|]|];
      try (rewrite bind_emit; cbn [fst app]; apply IH).
    cbn [app first_seen filter].
    destruct (duplicates (String c m) acc) eqn:D.
    + rewrite bind_emit. cbn [fst negb]. rewrite IH. do 2 f_equal.
      rewrite filter_filter. apply filter_ext_in. intros y _.
      destruct (CStr.caseeq (String c m) y) eqn:E; [|reflexivity].
      now rewrite (duplicates_trans _ _ _ D E).
    + cbn [negb]. rewrite IH, <- app_assoc. cbn [app]. do 3 f_equal.
      rewrite filter_filter. apply filter_ext. intros y.
      rewrite duplicates_snoc.
      destruct (duplicates y acc), (CStr.caseeq (String c m) y); reflexivity.
Qed.

Lemma formats_loop_start (map : mapHeader) (tokens : list string) :
  fst (formats_loop map tokens [])
  = Some (first_seen (resolved_mimes map tokens)).
Proof.
  rewrite formats_loop_value. cbn [app]. f_equal.
  induction (first_seen (resolved_mimes map tokens)) as [|x l IH];
    [reflexivity | cbn [filter duplicates existsb negb]; now f_equal].
Qed.

Lemma formats_loop_trace (map : mapHeader) (tokens acc : list string) :
  forallb is_diagnostic (snd (formats_loop map tokens acc)) = true.
Proof.
  revert acc. induction tokens as [|t ts IH]; intros acc; [reflexivity|].
  cbn [formats_loop].
  destruct (lookup_format map t) as [f|];
    [destruct (mimetype f) as [[|c m]|];
     [|destruct (duplicates (String c m) acc)|]|];
    try (rewrite bind_emit; cbn [snd forallb is_diagnostic andb]);
    apply IH.
Qed.

Lemma first_seen_sound (l : list string) (x : string) :
  In x (first_seen l) -> In x l.
Proof.
  induction l as [|a l IH]; simpl; [tauto|].
  intros [E|H]; [now left|]. right. apply IH.
  apply filter_In in H. tauto.
Qed.

Lemma ci_unique_filter (f : string -> bool) (l : list string) :
  ci_unique l -> ci_unique (filter f l).
Proof.
  induction l as [|a l IH]; simpl; [tauto|].
  intros [Ha Hl]. destruct (f a); simpl; [split|]; auto.
  rewrite Forall_forall in *. intros y Hy. apply Ha.
  apply filter_In in Hy. tauto.
Qed.

Lemma first_seen_unique (l : list string) : ci_unique (first_seen l).
Proof.
  induction l as [|a l IH]; simpl; [exact I|]. split.
  - rewrite Forall_forall. intros y Hy. apply filter_In in Hy.
    destruct Hy as [_ Hy]. now apply negb_true_iff in Hy.
  - now apply ci_unique_filter.
Qed.

Lemma resolved_mimes_app (map : mapHeader) (l1 l2 : list string) :
  resolved_mimes map (l1 ++ l2)
  = (resolved_mimes map l1 ++ resolved_mimes map l2)%list.
Proof. unfold resolved_mimes. apply flat_map_app. Qed.

Lemma resolved_mimes_nonempty (map : mapHeader) (tokens : list string) :
  Forall (fun m => CStr.nonempty m = true) (resolved_mimes map tokens).
Proof.
  induction tokens as [|t ts IH]; simpl; [constructor|].
  unfold mime_of_token.
  destruct (lookup_format map t) as [f|];
    [destruct (mimetype f) as [[|c m]|]|]; simpl; auto.
Qed.

Lemma join_loop_concat (fs : list string) (acc : string) :
  CStr.nonempty acc = true ->
  join_loop fs acc = String.concat "," (acc :: fs).
Proof.
  revert acc. induction fs as [|f fs IH]; intros acc Hacc; [reflexivity|].
  cbn [join_loop]. rewrite Hacc, IH.
  - destruct fs as [|g fs]; cbn [String.concat];
      now rewrite !append_assoc.
  - destruct acc; [discriminate | reflexivity].
Qed.

Lemma join_loop_start (fs : list string) :
  Forall (fun m => CStr.nonempty m = true) fs ->
  join_loop fs EmptyString = String.concat "," fs.
Proof.
  intros H. destruct H as [|f fs Hf Hfs]; [reflexivity|].
  cbn [join_loop CStr.nonempty append]. now apply join_loop_concat.
Qed.

End FormatsList.

Example formats_list_samples :
  msWCSGetFormatsList11 (ext := Sample.world) Sample.five_formats None
  = (Some "image/tiff,image/png",
     [ Ev_msDebug "No mimetime for format 'raw', ignoring.";
       Ev_msDebug ("Format 'GEOTIFF_16' ignored since mimetype 'Image/Tiff' "
                   ++ "duplicates another outputFormatObj.") ])
  /\ msWCSGetFormatsList11 (ext := Sample.world) Sample.five_formats
       (Some {| layer_name := "dem";
                layer_projection := [];
                layer_metadata := [("formats", "PNG jpeg pdf gtiff")];
                layer_map := Some Sample.five_formats |})
     = (Some "image/png,application/x-pdf,image/tiff",
        [ Ev_msDebug
            "Failed to find outputformat info on format 'jpeg', ignore." ]).
Proof. split; reflexivity. Qed.

(** C3. Whatever the server configuration and the list of format names,
    the formats resolved by [msWCSGetFormatsList11] are the MIME types of
    the names, deduplicated up to case with the first seen kept in place:
    no two entries are equal up to case.  A name without a descriptor, or
    whose descriptor has no or an empty MIME type, only causes a diagnostic
    and contributes nothing.  The returned string is the list joined by
    commas.  MIME types image/tiff, Image/Tiff, image/png resolve to
    image/tiff, image/png. *)
Theorem C3_formats_deduplicated_first_seen :
  forall (ext : Collaborators) (map : mapHeader),
    (forall tokens : list string,
        fst (formats_loop map tokens [])
        = Some (first_seen (resolved_mimes map tokens))
        /\ ci_unique (first_seen (resolved_mimes map tokens))
        /\ forallb is_diagnostic (snd (formats_loop map tokens [])) = true)
    /\ (forall (pre post : list string) (token : string),
           lookup_format map token = None
           \/ (exists f, lookup_format map token = Some f
                         /\ (mimetype f = None
                             \/ mimetype f = Some EmptyString)) ->
           fst (formats_loop map (pre ++ token :: post) [])
           = fst (formats_loop map (pre ++ post) []))
    /\ (forall layer : option layerObj,
           exists formats : list string,
             fst (msWCSGetFormats11 map layer) = Some formats
             /\ ci_unique formats
             /\ fst (msWCSGetFormatsList11 map layer)
                = Some (String.concat "," formats))
    /\ fst (msWCSGetFormats11 Sample.three_formats None)
       = Some ["image/tiff"; "image/png"].
Proof.
  intros ext map.
  split; [intros tokens; split; [|split] | split; [|split; [|reflexivity]]].
  - apply formats_loop_start.
  - apply first_seen_unique.
  - apply formats_loop_trace.
  - intros pre post token H.
    assert (N : mime_of_token map token = None).
    { unfold mime_of_token.
      destruct H as [-> | [f [-> [-> | ->]]]]; reflexivity. }
    rewrite !formats_loop_start, !resolved_mimes_app.
    cbn [resolved_mimes flat_map]. rewrite N. reflexivity.
  - intros layer. exists (first_seen (resolved_mimes map (format_tokens map layer))).
    assert (V : fst (msWCSGetFormats11 map layer)
                = Some (first_seen (resolved_mimes map (format_tokens map layer)))).
    { unfold msWCSGetFormats11. apply formats_loop_start. }
    split; [exact V|]. split; [apply first_seen_unique|].
    unfold msWCSGetFormatsList11. rewrite fst_bind, V. cbn [ret fst].
    f_equal. apply join_loop_start.
    rewrite Forall_forall. intros m Hm. apply first_seen_sound in Hm.
    pose proof (resolved_mimes_nonempty map (format_tokens map layer)) as F.
    rewrite Forall_forall in F. now apply F.
Qed.

Lemma C3_witness :
  fst (formats_loop Sample.three_formats (["PNG"] ++ "jpeg" :: ["gtiff"]) [])
  = fst (formats_loop Sample.three_formats (["PNG"] ++ ["gtiff"]) []).
Proof.
  apply (proj1 (proj2 (C3_formats_deduplicated_first_seen
                         Sample.world Sample.three_formats))).
  left. reflexivity.
Defined.

(** ** The tokenizer *)

Example tokenizer_samples :
  CSL.CSLTokenizeStringComplex "a,b,c" "," false false = Some ["a"; "b"; "c"]
  /\ CSL.CSLTokenizeStringComplex ",b,,c," "," false false = Some ["b"; "c"]
  /\ CSL.CSLTokenizeStringComplex "dem" "," false false = Some ["dem"]
  /\ CSL.CSLTokenizeStringComplex EmptyString "," false false = Some []
  /\ CSL.CSLTokenizeStringComplex "a,,b," "," false true
     = Some ["a"; EmptyString; "b"; EmptyString]
  /\ CSL.CSLTokenizeStringComplex
       ("a," ++ CStr.DQ ++ "b,c" ++ CStr.DQ ++ ",d") "," true false
     = Some ["a"; "b,c"; "d"].
Proof. repeat split. Qed.

Section Tokenizer.

Variable delims : string.

Lemma string_of_rev_rev (l : list ascii) (a : string) :
  string_of_list_ascii (rev (rev (list_ascii_of_string a) ++ l))
  = (string_of_list_ascii (rev l) ++ a)%string.
Proof.
  rewrite rev_app_distr, rev_involutive.
  induction (rev l) as [|x r IH]; simpl.
  - apply string_of_list_ascii_of_string.
  - now rewrite IH.
Qed.

(** Scanning a run of characters that are no delimiters gathers them. *)
Lemma tokens_from_scan (allowEmpty : bool) (a s : string) (tok : list ascii) :
  CStr.free_of delims a = true ->
  CSL.tokens_from delims false allowEmpty false tok (a ++ s)
  = CSL.tokens_from delims false allowEmpty false
                    (rev (list_ascii_of_string a) ++ tok)%list s.
Proof.
  revert tok. induction a as [|x a IH]; intros tok F; [reflexivity|].
  simpl in F. apply andb_true_iff in F. destruct F as [Fx Fa].
  apply negb_true_iff in Fx.
  cbn [append CSL.tokens_from negb andb]. rewrite Fx.
  assert (E : CSL.tokens_from delims false allowEmpty false (x :: tok) (a ++ s)
              = CSL.tokens_from delims false allowEmpty false
                  (rev (list_ascii_of_string (String x a)) ++ tok)%list s).
  { rewrite IH by exact Fa. cbn [list_ascii_of_string rev].
    now rewrite <- app_assoc. }
  destruct (a ++ s)%string; exact E.
Qed.

Lemma rev_chars_nonempty (a : string) :
  CStr.nonempty a = true ->
  exists x l, (rev (list_ascii_of_string a) ++ [])%list = x :: l.
Proof.
  destruct a as [|c a]; [discriminate|]. intros _.
  rewrite app_nil_r. cbn [list_ascii_of_string rev].
  destruct (rev (list_ascii_of_string a)) as [|y r]; simpl; eauto.
Qed.

(** A token, a delimiter and more text: the token, then those of the
    text. *)
Lemma tokens_from_token (a rest : string) (d : ascii) :
  CStr.free_of delims a = true -> CStr.nonempty a = true ->
  CStr.strchr delims d = true -> CStr.nonempty rest = true ->
  CSL.tokens_from delims false false false [] (a ++ String d rest)
  = a :: CSL.tokens_from delims false false false [] rest.
Proof.
  intros F N D R. rewrite tokens_from_scan by exact F.
  destruct rest as [|r rest]; [discriminate|].
  cbn [CSL.tokens_from negb andb]. rewrite D.
  pose proof (string_of_rev_rev [] a) as S. cbn [rev append] in S.
  destruct (rev_chars_nonempty a N) as [x [l E]].
  rewrite E in *. now rewrite S.
Qed.

(** A last token. *)
Lemma tokens_from_last (a : string) :
  CStr.free_of delims a = true -> CStr.nonempty a = true ->
  CSL.tokens_from delims false false false [] a = [a].
Proof.
  intros F N. rewrite <- (append_nil_r a) at 1.
  rewrite tokens_from_scan by exact F.
  cbn [CSL.tokens_from].
  pose proof (string_of_rev_rev [] a) as S. cbn [rev append] in S.
  destruct (rev_chars_nonempty a N) as [x [l E]].
  rewrite E in *. now rewrite S.
Qed.

End Tokenizer.

(** A comma-joined triple of identifiers is split into the three. *)
Lemma tokenize_triple (a b c : string) :
  CStr.free_of "," a = true -> CStr.nonempty a = true ->
  CStr.free_of "," b = true -> CStr.nonempty b = true ->
  CStr.free_of "," c = true -> CStr.nonempty c = true ->
  CSL.CSLTokenizeStringComplex (a ++ "," ++ b ++ "," ++ c) "," false false
  = Some [a; b; c].
Proof.
  intros Fa Na Fb Nb Fc Nc. unfold CSL.CSLTokenizeStringComplex.
  assert (T : CSL.tokens_from "," false false false []
                              (a ++ "," ++ b ++ "," ++ c)
              = [a; b; c]).
  { change ("," ++ b ++ "," ++ c)%string
      with (String "," (b ++ String "," c)).
    rewrite tokens_from_token; auto.
    - rewrite tokens_from_token; auto. now rewrite tokens_from_last.
    - destruct b; [discriminate | reflexivity]. }
  rewrite T. destruct a; [discriminate | reflexivity].
Qed.

(** ** msWCSDescribeCoverage11: parameter normalization *)

(** C4. For every map and every triple of identifiers (non-empty names
    without a comma), the request with the single coverage value a,b,c has
    the same outcome as the request with the three values a, b, c: the same
    status and the same events (exception or document with its
    CoverageDescription nodes, releases), after the release of the old
    one-item list that only the first request makes. *)
Theorem C4_comma_joined_is_repeated :
  forall (ext : Collaborators) (map : mapObj) (v a b c : string),
    CStr.nonempty a = true -> CStr.free_of "," a = true ->
    CStr.nonempty b = true -> CStr.free_of "," b = true ->
    CStr.nonempty c = true -> CStr.free_of "," c = true ->
    let joined :=
      msWCSDescribeCoverage11 map
        {| version := v; coverages := Some [a ++ "," ++ b ++ "," ++ c] |} in
    let repeated :=
      msWCSDescribeCoverage11 map
        {| version := v; coverages := Some [a; b; c] |} in
    fst joined = fst repeated
    /\ snd joined = Ev_free R_old_coverages :: snd repeated
    /\ written_docs (snd joined) = written_docs (snd repeated).
Proof.
  intros ext map v a b c Na Fa Nb Fb Nc Fc joined repeated.
  assert (J : joined
              = (fst repeated, Ev_free R_old_coverages :: snd repeated)).
  { unfold joined, repeated, msWCSDescribeCoverage11, split_single_coverage.
    cbn [coverages version CSL.CSLCount List.length Z.of_nat Z.eqb
         Pos.of_succ_nat Pos.succ Pos.eqb].
    rewrite tokenize_triple by assumption.
    rewrite bind_ret. reflexivity. }
  rewrite J. cbn [fst snd]. repeat split.
Qed.

Lemma C4_witness :
  fst (msWCSDescribeCoverage11 (ext := Sample.world) Sample.server
         (Sample.params (Some ["a,b,c"])))
  = fst (msWCSDescribeCoverage11 (ext := Sample.world) Sample.server
           (Sample.params (Some ["a"; "b"; "c"]))).
Proof.
  apply (C4_comma_joined_is_repeated Sample.world Sample.server
           "1.1.0" "a" "b" "c"); reflexivity.
Defined.

(** ** Traces *)

Lemma silent_app (t1 t2 : list event) :
  silent t1 -> silent t2 -> silent (t1 ++ t2).
Proof. unfold silent. rewrite forallb_app. intros -> ->. reflexivity. Qed.

Lemma diagnostic_silent (t : list event) :
  forallb is_diagnostic t = true -> silent t.
Proof.
  unfold silent. rewrite !forallb_forall. intros H e He.
  specialize (H e He). destruct e; try discriminate. reflexivity.
Qed.

Lemma logs_app (t1 t2 : list event) : logs t1 -> logs t2 -> logs (t1 ++ t2).
Proof. unfold logs. rewrite forallb_app. intros -> ->. reflexivity. Qed.

Lemma diagnostic_logs (t : list event) :
  forallb is_diagnostic t = true -> logs t.
Proof.
  unfold logs. rewrite !forallb_forall. intros H e He.
  specialize (H e He). destruct e; try discriminate. reflexivity.
Qed.

Lemma logs_silent (t : list event) : logs t -> silent t.
Proof.
  unfold logs, silent. rewrite !forallb_forall. intros H e He.
  specialize (H e He). destruct e; try discriminate; reflexivity.
Qed.

Lemma logs_no_release (t : list event) :
  logs t -> releases_of_params t = 0%nat.
Proof.
  unfold logs, releases_of_params. induction t as [|e t IH]; [reflexivity|].
  cbn [forallb]. rewrite andb_true_iff. intros [He Ht].
  destruct e; try discriminate; cbn [filter]; now apply IH.
Qed.

Lemma silent_no_docs (t : list event) : silent t -> written_docs t = [].
Proof.
  unfold silent. induction t as [|e t IH]; [reflexivity|].
  cbn [forallb]. rewrite andb_true_iff. intros [He Ht].
  destruct e; try discriminate; cbn [written_docs flat_map app]; now apply IH.
Qed.

Lemma written_docs_app (t1 t2 : list event) :
  written_docs (t1 ++ t2) = (written_docs t1 ++ written_docs t2)%list.
Proof. unfold written_docs. apply flat_map_app. Qed.

(** ** msWCSDescribeCoverage11: validation *)

Lemma split_single_coverage_value (params : wcsParamsObj) :
  exists p, fst (split_single_coverage params) = Some p
            /\ version p = version params
            /\ (snd (split_single_coverage params) = []
                \/ snd (split_single_coverage params) = [Ev_free R_old_coverages]).
Proof.
  unfold split_single_coverage.
  destruct (CSL.CSLCount (coverages params) =? 1).
  - destruct (coverages params) as [[|old0 rest]|];
      try (exists params; repeat split; now left).
    eexists. repeat split. now right.
  - exists params. repeat split. now left.
Qed.

(** Where the validation loop stops. *)
Lemma first_unresolved_found (map : mapObj) (cs : list string) :
  (exists c, In c cs /\ msGetLayerIndex map c = -1) ->
  exists pre c post,
    cs = (pre ++ c :: post)%list
    /\ Forall (fun x => msGetLayerIndex map x <> -1) pre
    /\ msGetLayerIndex map c = -1
    /\ first_unresolved map cs = Some c.
Proof.
  induction cs as [|x cs IH]; intros [c [Hin Hc]]; [destruct Hin|].
  cbn [first_unresolved].
  destruct (Z.eqb_spec (msGetLayerIndex map x) (-1)) as [E|E].
  - exists [], x, cs. repeat split; auto.
  - destruct IH as [pre [c' [post [-> [Hpre [Hc' Hf]]]]]].
    { exists c. split; [|exact Hc]. destruct Hin as [->|]; [contradiction | auto]. }
    exists (x :: pre), c', post. repeat split; auto.
Qed.

Lemma first_unresolved_none (map : mapObj) (cs : list string) :
  first_unresolved map cs = None <->
  Forall (fun x => msGetLayerIndex map x <> -1) cs.
Proof.
  induction cs as [|x cs IH]; cbn [first_unresolved].
  - split; auto.
  - destruct (Z.eqb_spec (msGetLayerIndex map x) (-1)) as [E|E].
    + split; [discriminate|]. intros H. inversion H. contradiction.
    + rewrite IH. split; [now constructor | intros H; now inversion H].
Qed.

(** C1. When the coverage list of a DescribeCoverage request, after the
    split of a single item, holds a name that is no layer of the map, the
    call reports failure through the exception reporter with the code
    CoverageNotDefined, naming the first such name (in the reporter's first
    argument and in the message put on the error stack); these are its last
    events, nothing is written to stdout and no document is produced. *)
Theorem C1_unknown_coverage_is_refused :
  forall (ext : Collaborators) (map : mapObj) (params : wcsParamsObj)
         (cs : list string),
    normalized_coverages params = Some cs ->
    (exists c, In c cs /\ msGetLayerIndex map c = -1) ->
    exists pre c post,
      cs = (pre ++ c :: post)%list
      /\ Forall (fun x => msGetLayerIndex map x <> -1) pre
      /\ msGetLayerIndex map c = -1
      /\ fst (msWCSDescribeCoverage11 map params) = Some MS_FAILURE
      /\ snd (msWCSDescribeCoverage11 map params)
         = (snd (split_single_coverage params)
            ++ [ Ev_msSetError MS_WCSERR
                   ("COVERAGE " ++ c ++ " cannot be opened / does not exist")
                   "msWCSDescribeCoverage()";
                 Ev_msWCSException (Some c) (Some "CoverageNotDefined")
                                   (Some "coverage") ])%list
      /\ silent (snd (msWCSDescribeCoverage11 map params))
      /\ written_docs (snd (msWCSDescribeCoverage11 map params)) = [].
Proof.
  intros ext map params cs N U.
  destruct (first_unresolved_found map cs U) as [pre [c [post [E [P [C F]]]]]].
  exists pre, c, post. split; [exact E|]. split; [exact P|]. split; [exact C|].
  unfold normalized_coverages in N.
  destruct (split_single_coverage_value params) as [p [V [_ T]]].
  rewrite V in N.
  assert (R : msWCSDescribeCoverage11 map params
              = (Some MS_FAILURE,
                 (snd (split_single_coverage params)
                  ++ [ Ev_msSetError MS_WCSERR
                         ("COVERAGE " ++ c ++ " cannot be opened / does not exist")
                         "msWCSDescribeCoverage()";
                       Ev_msWCSException (Some c) (Some "CoverageNotDefined")
                                         (Some "coverage") ])%list)).
  { unfold msWCSDescribeCoverage11. rewrite (bind_value _ _ _ V).
    unfold describe_coverages. rewrite N, F. reflexivity. }
  rewrite R. cbn [fst snd].
  assert (S : silent (snd (split_single_coverage params)
                      ++ [ Ev_msSetError MS_WCSERR
                             ("COVERAGE " ++ c ++ " cannot be opened / does not exist")
                             "msWCSDescribeCoverage()";
                           Ev_msWCSException (Some c) (Some "CoverageNotDefined")
                                             (Some "coverage") ])).
  { apply silent_app; [destruct T as [-> | ->]|]; reflexivity. }
  repeat split; [exact S | now apply silent_no_docs].
Qed.

Lemma C1_witness :
  exists pre c post,
    ["a"; "zzz"] = (pre ++ c :: post)%list
    /\ Forall (fun x => msGetLayerIndex Sample.server x <> -1) pre
    /\ msGetLayerIndex Sample.server c = -1
    /\ fst (msWCSDescribeCoverage11 (ext := Sample.world) Sample.server
              (Sample.params (Some ["a,zzz"]))) = Some MS_FAILURE
    /\ snd (msWCSDescribeCoverage11 (ext := Sample.world) Sample.server
              (Sample.params (Some ["a,zzz"])))
       = (snd (split_single_coverage (Sample.params (Some ["a,zzz"])))
          ++ [ Ev_msSetError MS_WCSERR
                 ("COVERAGE " ++ c ++ " cannot be opened / does not exist")
                 "msWCSDescribeCoverage()";
               Ev_msWCSException (Some c) (Some "CoverageNotDefined")
                                 (Some "coverage") ])%list
    /\ silent (snd (msWCSDescribeCoverage11 (ext := Sample.world)
                      Sample.server (Sample.params (Some ["a,zzz"]))))
    /\ written_docs (snd (msWCSDescribeCoverage11 (ext := Sample.world)
                            Sample.server (Sample.params (Some ["a,zzz"]))))
       = [].
Proof.
  apply (C1_unknown_coverage_is_refused Sample.world Sample.server
           (Sample.params (Some ["a,zzz"])) ["a"; "zzz"]).
  - reflexivity.
  - exists "zzz". split; [right; left|]; reflexivity.
Defined.

(** ** msWCSGetCapabilities11 *)

Section Capabilities.

Context {ext : Collaborators}.

Lemma msWCSGetFormatsList11_value (map : mapHeader) (layer : option layerObj) :
  exists format_list, fst (msWCSGetFormatsList11 map layer) = Some format_list.
Proof.
  unfold msWCSGetFormatsList11, msWCSGetFormats11.
  rewrite fst_bind, formats_loop_start. eexists. reflexivity.
Qed.

Lemma msWCSGetFormatsList11_trace (map : mapHeader) (layer : option layerObj) :
  forallb is_diagnostic (snd (msWCSGetFormatsList11 map layer)) = true.
Proof.
  unfold msWCSGetFormatsList11, msWCSGetFormats11.
  rewrite snd_bind, formats_loop_start. cbn [ret snd].
  rewrite app_nil_r. apply formats_loop_trace.
Qed.

Lemma resolve_supported_crs_trace
      (urn_of : projectionObj -> hashTableObj -> string -> Z -> option string)
      (layer : layerObj) :
  forallb is_diagnostic (snd (resolve_supported_crs urn_of layer)) = true.
Proof.
  unfold resolve_supported_crs.
  destruct (urn_of (layer_projection layer) _ _ _); [reflexivity|].
  destruct (layer_map layer) as [lmap|]; [|reflexivity].
  destruct (urn_of (map_projection lmap) _ _ _); reflexivity.
Qed.

Lemma resolve_supported_crs_value
      (urn_of : projectionObj -> hashTableObj -> string -> Z -> option string)
      (layer : layerObj) :
  layer_map layer <> None ->
  exists v, fst (resolve_supported_crs urn_of layer) = Some v.
Proof.
  intros W. unfold resolve_supported_crs.
  destruct (urn_of (layer_projection layer) _ _ _); [eexists; reflexivity|].
  destruct (layer_map layer) as [lmap|]; [|contradiction].
  destruct (urn_of (map_projection lmap) _ _ _); eexists; reflexivity.
Qed.

(** A summary that cannot get its coverage metadata fails at once and
    leaves [psContents] alone. *)
Lemma CoverageSummary_failure (map : mapHeader) (params : wcsParamsObj)
      (req : cgiRequestObj) (psRootNode psContents : xmlNode) (layer : layerObj) :
  fst (msWCSGetCoverageMetadata layer) <> MS_SUCCESS ->
  msWCSGetCapabilities11_CoverageSummary map params req psRootNode psContents layer
  = (Some (MS_FAILURE, psContents), []).
Proof.
  intros F. unfold msWCSGetCapabilities11_CoverageSummary.
  destruct (msWCSGetCoverageMetadata layer) as [status cm]. cbn [fst] in F.
  apply Z.eqb_neq in F. rewrite F. reflexivity.
Qed.

(** A summary only fails for want of coverage metadata. *)
Lemma CoverageSummary_failure_iff (map : mapHeader) (params : wcsParamsObj)
      (req : cgiRequestObj) (psRootNode psContents : xmlNode) (layer : layerObj) :
  (exists st node,
      fst (msWCSGetCapabilities11_CoverageSummary
             map params req psRootNode psContents layer) = Some (st, node)
      /\ st <> MS_SUCCESS)
  <-> fst (msWCSGetCoverageMetadata layer) <> MS_SUCCESS.
Proof.
  split.
  - intros [st [node [E N]]] M.
    unfold msWCSGetCapabilities11_CoverageSummary in E.
    destruct (msWCSGetCoverageMetadata layer) as [status cm]. cbn [fst] in M.
    subst status. cbn [Z.eqb MS_SUCCESS negb] in E.
    rewrite !fst_bind in E.
    destruct (fst (msWCSGetFormatsList11 map (Some layer))); [|discriminate].
    rewrite fst_bind in E.
    destruct (fst (resolve_supported_crs msOWSGetProjURN layer));
      [|discriminate].
    cbn [ret fst] in E. injection E as <- _. now apply N.
  - intros F. rewrite CoverageSummary_failure by exact F.
    exists MS_FAILURE, psContents. split; [reflexivity | discriminate].
Qed.

Lemma CoverageSummary_trace (map : mapHeader) (params : wcsParamsObj)
      (req : cgiRequestObj) (psRootNode psContents : xmlNode) (layer : layerObj) :
  forallb is_diagnostic
    (snd (msWCSGetCapabilities11_CoverageSummary
            map params req psRootNode psContents layer)) = true.
Proof.
  unfold msWCSGetCapabilities11_CoverageSummary.
  destruct (msWCSGetCoverageMetadata layer) as [status cm].
  destruct (negb (status =? MS_SUCCESS)); [reflexivity|].
  rewrite snd_bind.
  destruct (msWCSGetFormatsList11_value map (Some layer)) as [fl ->].
  rewrite forallb_app, msWCSGetFormatsList11_trace, snd_bind. cbn [andb].
  pose proof (resolve_supported_crs_trace msOWSGetProjURN layer) as T.
  destruct (fst (resolve_supported_crs msOWSGetProjURN layer));
    [cbn [ret snd]; now rewrite app_nil_r | exact T].
Qed.

Lemma CoverageSummary_value (map : mapHeader) (params : wcsParamsObj)
      (req : cgiRequestObj) (psRootNode psContents : xmlNode) (layer : layerObj) :
  layer_map layer <> None ->
  exists r, fst (msWCSGetCapabilities11_CoverageSummary
                   map params req psRootNode psContents layer) = Some r.
Proof.
  intros W. unfold msWCSGetCapabilities11_CoverageSummary.
  destruct (msWCSGetCoverageMetadata layer) as [status cm].
  destruct (negb (status =? MS_SUCCESS)); [eexists; reflexivity|].
  rewrite fst_bind.
  destruct (msWCSGetFormatsList11_value map (Some layer)) as [fl ->].
  rewrite fst_bind.
  destruct (resolve_supported_crs_value msOWSGetProjURN layer W) as [v ->].
  eexists. reflexivity.
Qed.

Lemma contents_loop_trace (map : mapHeader) (params : wcsParamsObj)
      (req : cgiRequestObj) (psRootNode : xmlNode) (ls : list layerObj)
      (psMainNode : xmlNode) :
  forallb is_diagnostic
    (snd (contents_loop map params req psRootNode ls psMainNode)) = true.
Proof.
  revert psMainNode. induction ls as [|layer rest IH]; intros psMainNode;
    [reflexivity|].
  cbn [contents_loop].
  destruct (negb (msWCSIsLayerSupported layer)); [apply IH|].
  rewrite snd_bind.
  pose proof (CoverageSummary_trace map params req psRootNode psMainNode layer)
    as T.
  destruct (fst (msWCSGetCapabilities11_CoverageSummary _ _ _ _ _ _))
    as [r|]; [|exact T].
  rewrite forallb_app, T. cbn [andb].
  destruct (negb (fst r =? MS_SUCCESS)); [reflexivity | apply IH].
Qed.

(** The loop never reports success past a summary that fails. *)
Lemma contents_loop_aborts (map : mapHeader) (params : wcsParamsObj)
      (req : cgiRequestObj) (psRootNode : xmlNode) (ls : list layerObj)
      (psMainNode : xmlNode) :
  (exists layer, In layer ls /\ summary_fails layer) ->
  match fst (contents_loop map params req psRootNode ls psMainNode) with
  | Some r => fst r = MS_FAILURE
  | None => True
  end.
Proof.
  revert psMainNode.
  induction ls as [|layer rest IH]; intros psMainNode [bad [Hin [Hs Hf]]];
    [destruct Hin|].
  cbn [contents_loop].
  destruct (msWCSIsLayerSupported layer) eqn:S; cbn [negb].
  - destruct (Z.eq_dec (fst (msWCSGetCoverageMetadata layer)) MS_SUCCESS)
      as [Ok|Ko].
    + rewrite fst_bind.
      destruct (fst (msWCSGetCapabilities11_CoverageSummary _ _ _ _ _ _))
        as [r|]; [|exact I].
      destruct (negb (fst r =? MS_SUCCESS)); [reflexivity|].
      apply IH. exists bad. repeat split; auto.
      destruct Hin as [->|]; [contradiction | assumption].
    + rewrite CoverageSummary_failure by exact Ko. reflexivity.
  - apply IH. exists bad. repeat split; auto.
    destruct Hin as [->|]; [congruence | assumption].
Qed.

Lemma contents_loop_value (map : mapHeader) (params : wcsParamsObj)
      (req : cgiRequestObj) (psRootNode : xmlNode) (ls : list layerObj)
      (psMainNode : xmlNode) :
  Forall (fun l => layer_map l <> None) ls ->
  exists r, fst (contents_loop map params req psRootNode ls psMainNode) = Some r.
Proof.
  revert psMainNode. induction ls as [|layer rest IH]; intros psMainNode W;
    [eexists; reflexivity|].
  inversion W as [|? ? Wl Wrest]; subst.
  cbn [contents_loop].
  destruct (negb (msWCSIsLayerSupported layer)); [now apply IH|].
  rewrite fst_bind.
  destruct (CoverageSummary_value map params req psRootNode psMainNode layer Wl)
    as [r ->].
  destruct (negb (fst r =? MS_SUCCESS)); [eexists; reflexivity | now apply IH].
Qed.

End Capabilities.

(** What the build comes to when a summary fails. *)
Lemma capabilities_abort {ext : Collaborators} (map : mapObj)
      (params : wcsParamsObj) (req : cgiRequestObj) :
  (exists layer, In layer (layers map) /\ summary_fails layer) ->
  let r := msWCSGetCapabilities11 map params req in
  (fst r = None \/ fst r = Some MS_FAILURE)
  /\ silent (snd r)
  /\ (Forall (fun l => layer_map l <> None) (layers map) ->
      fst r = Some MS_FAILURE).
Proof.
  intros Bad r. subst r. unfold msWCSGetCapabilities11.
  destruct (msOWSGetOnlineResource _ _ _ _) as [script_url|];
    [|repeat split; auto].
  destruct (msEncodeHTMLEntities script_url) as [script_url_encoded|];
    [|repeat split; auto].
  rewrite bind_emit.
  destruct (msWCSGetFormatsList11_value (header map) None) as [fl V].
  rewrite (bind_value _ _ _ V), bind_emit. cbn [fst snd].
  pose proof (msWCSGetFormatsList11_trace (header map) None) as Tf.
  match goal with
  | |- context [contents_loop ?m ?p ?q ?rt ?ls ?mn] =>
      pose proof (contents_loop_aborts m p q rt ls mn Bad) as A;
      pose proof (contents_loop_trace m p q rt ls mn) as Tc;
      pose proof (contents_loop_value m p q rt ls mn) as Vc;
      destruct (contents_loop m p q rt ls mn) as [[res|] tc]
  end; cbn [fst snd] in *.
  - rewrite (bind_value (B := Z) (Some res, tc) _ res eq_refl).
    rewrite A. cbn [negb Z.eqb MS_FAILURE MS_SUCCESS ret fst snd].
    split; [now right|]. split; [|reflexivity].
    apply (silent_app [_]); [reflexivity|].
    apply silent_app; [now apply diagnostic_silent|].
    apply (silent_app [_]); [reflexivity|].
    rewrite app_nil_r. now apply diagnostic_silent.
  - rewrite (bind_crash (B := Z) (None, tc) _ eq_refl). cbn [fst snd].
    split; [now left|]. split.
    + apply (silent_app [_]); [reflexivity|].
      apply silent_app; [now apply diagnostic_silent|].
      apply (silent_app [_]); [reflexivity | now apply diagnostic_silent].
    + intros W. destruct (Vc W) as [x Hx]. discriminate.
Qed.

(** C2. In a GetCapabilities build over a map with a supported layer
    whose CoverageSummary fails (which it only does when the coverage
    metadata of the layer cannot be computed), the call does not report
    success and writes nothing to stdout: no capabilities document, whole
    or partial.  On a map whose layers all have their parent pointer the
    call returns MS_FAILURE. *)
Theorem C2_capabilities_abort_on_summary_failure :
  forall (ext : Collaborators) (map : mapObj) (params : wcsParamsObj)
         (req : cgiRequestObj),
    (exists (layer : layerObj) (psRootNode psContents node : xmlNode) (st : Z),
        In layer (layers map)
        /\ msWCSIsLayerSupported layer = true
        /\ fst (msWCSGetCapabilities11_CoverageSummary
                  (header map) params req psRootNode psContents layer)
           = Some (st, node)
        /\ st <> MS_SUCCESS) ->
    let r := msWCSGetCapabilities11 map params req in
    fst r <> Some MS_SUCCESS
    /\ silent (snd r)
    /\ written_docs (snd r) = []
    /\ (Forall (fun l => layer_map l <> None) (layers map) ->
        fst r = Some MS_FAILURE).
Proof.
  intros ext map params req [layer [rt [ct [node [st [I [S [E N]]]]]]]] r.
  assert (Bad : exists l, In l (layers map) /\ summary_fails l).
  { exists layer. split; [exact I|]. split; [exact S|].
    apply (CoverageSummary_failure_iff (header map) params req rt ct layer).
    now exists st, node. }
  destruct (capabilities_abort map params req Bad) as [St [Si W]].
  fold r in St, Si, W.
  split; [destruct St as [F | F]; rewrite F; discriminate|].
  split; [exact Si|]. split; [now apply silent_no_docs | exact W].
Qed.

Lemma C2_witness :
  fst (msWCSGetCapabilities11 (ext := Sample.world) Sample.server
         (Sample.params None) Sample.request) <> Some MS_SUCCESS
  /\ silent (snd (msWCSGetCapabilities11 (ext := Sample.world) Sample.server
                    (Sample.params None) Sample.request))
  /\ written_docs (snd (msWCSGetCapabilities11 (ext := Sample.world)
                          Sample.server (Sample.params None) Sample.request))
     = []
  /\ (Forall (fun l => layer_map l <> None) (layers Sample.server) ->
      fst (msWCSGetCapabilities11 (ext := Sample.world) Sample.server
             (Sample.params None) Sample.request) = Some MS_FAILURE).
Proof.
  apply (C2_capabilities_abort_on_summary_failure Sample.world Sample.server
           (Sample.params None) Sample.request).
  exists (Sample.layer "b" (Some Sample.three_formats)),
         (new_root "Capabilities" (Sample.params None)),
         (Xml.xmlNewNode "Contents"), (Xml.xmlNewNode "Contents"), MS_FAILURE.
  split; [right; left; reflexivity|].
  split; [reflexivity|]. split; [reflexivity | discriminate].
Defined.

(** ** The tree *)

Lemma nsDef_of_xmlAddChild (p c : xmlNode) :
  Xml.nsDef_of (Xml.xmlAddChild p c) = Xml.nsDef_of p.
Proof. destruct p; reflexivity. Qed.

Lemma ns_of_xmlAddChild (p c : xmlNode) :
  Xml.ns_of (Xml.xmlAddChild p c) = Xml.ns_of p.
Proof. destruct p; reflexivity. Qed.

Lemma properties_of_xmlAddChild (p c : xmlNode) :
  Xml.properties_of (Xml.xmlAddChild p c) = Xml.properties_of p.
Proof. destruct p; reflexivity. Qed.

Lemma named_xmlAddChild (name : string) (p c : xmlNode) :
  Xml.named name (Xml.xmlAddChild p c) = Xml.named name p.
Proof. destruct p; reflexivity. Qed.

Lemma children_of_xmlAddChild (p c : xmlNode) :
  Xml.children_of (Xml.xmlAddChild p c) = (Xml.children_of p ++ [c])%list.
Proof. destruct p; reflexivity. Qed.

Lemma add_children_keeps (p : xmlNode) (cs : list xmlNode) :
  Xml.nsDef_of (Xml.add_children p cs) = Xml.nsDef_of p
  /\ Xml.ns_of (Xml.add_children p cs) = Xml.ns_of p
  /\ Xml.properties_of (Xml.add_children p cs) = Xml.properties_of p
  /\ (forall name, Xml.named name (Xml.add_children p cs) = Xml.named name p)
  /\ Xml.children_of (Xml.add_children p cs) = (Xml.children_of p ++ cs)%list.
Proof.
  revert p. induction cs as [|c cs IH]; intros p.
  - cbn. rewrite app_nil_r. auto.
  - change (Xml.add_children p (c :: cs))
      with (Xml.add_children (Xml.xmlAddChild p c) cs).
    destruct (IH (Xml.xmlAddChild p c)) as [H1 [H2 [H3 [H4 H5]]]].
    rewrite H1, H2, H3, H5, nsDef_of_xmlAddChild, ns_of_xmlAddChild,
      properties_of_xmlAddChild, children_of_xmlAddChild, <- app_assoc.
    repeat split. intros name. now rewrite H4, named_xmlAddChild.
Qed.

(** The root that both builders start from. *)
Lemma new_root_bindings (name : string) (params : wcsParamsObj) :
  Xml.nsDef_of (new_root name params)
  = [wcs_namespace; ows_namespace; xlink_namespace; xsi_namespace;
     ogc_namespace]
  /\ Xml.ns_of (new_root name params) = Some wcs_namespace
  /\ Xml.properties_of (new_root name params) = [("version", version params)]
  /\ Xml.children_of (new_root name params) = [].
Proof. repeat split. Qed.

(** ** The documents that are written *)

Lemma written_docs_silent_app (t1 t2 : list event) :
  silent t1 -> written_docs (t1 ++ t2) = written_docs t2.
Proof.
  intros S. rewrite written_docs_app, (silent_no_docs _ S). reflexivity.
Qed.

Lemma releases_app (t1 t2 : list event) :
  releases_of_params (t1 ++ t2)
  = (releases_of_params t1 + releases_of_params t2)%nat.
Proof. unfold releases_of_params. now rewrite filter_app, length_app. Qed.

Lemma diagnostic_no_release (t : list event) :
  forallb is_diagnostic t = true -> releases_of_params t = 0%nat.
Proof.
  unfold releases_of_params. induction t as [|e t IH]; [reflexivity|].
  cbn [forallb]. rewrite andb_true_iff. intros [He Ht].
  destruct e; try discriminate. cbn [filter]. now apply IH.
Qed.

(** A capabilities build that does not report success has written no
    document and has not released the parameters; one that does has
    written the document it built on the common root and has released the
    parameters once. *)
Lemma capabilities_docs {ext : Collaborators} (map : mapObj)
      (params : wcsParamsObj) (req : cgiRequestObj) :
  let r := msWCSGetCapabilities11 map params req in
  (written_docs (snd r) = []
   /\ fst r <> Some MS_SUCCESS
   /\ releases_of_params (snd r) = 0%nat)
  \/ exists children,
      written_docs (snd r)
      = [ {| xml_version := "1.0";
             root := Xml.add_children (new_root "Capabilities" params)
                                      children |} ]
      /\ fst r = Some MS_SUCCESS
      /\ releases_of_params (snd r) = 1%nat.
Proof.
  intros r. subst r. unfold msWCSGetCapabilities11.
  destruct (msOWSGetOnlineResource _ _ _ _) as [script_url|];
    [|left; repeat split; discriminate].
  destruct (msEncodeHTMLEntities script_url) as [script_url_encoded|];
    [|left; repeat split; discriminate].
  rewrite bind_emit.
  destruct (msWCSGetFormatsList11_value (header map) None) as [fl V].
  rewrite (bind_value _ _ _ V), bind_emit. cbn [fst snd].
  pose proof (msWCSGetFormatsList11_trace (header map) None) as Tf.
  match goal with
  | |- context [contents_loop ?m ?p ?q ?rt ?ls ?mn] =>
      pose proof (contents_loop_trace m p q rt ls mn) as Tc;
      destruct (contents_loop m p q rt ls mn) as [[res|] tc]
  end; cbn [fst snd] in *.
  - rewrite (bind_value (B := Z) (Some res, tc) _ res eq_refl).
    cbn [fst snd].
    set (before := (Ev_free R_script_url
                    :: snd (msWCSGetFormatsList11 (header map) None)
                       ++ [Ev_free R_format_list] ++ tc)%list).
    assert (Sb : silent before).
    { apply (silent_app [_]); [reflexivity|].
      apply silent_app; [now apply diagnostic_silent|].
      apply (silent_app [_]); [reflexivity | now apply diagnostic_silent]. }
    assert (Rb : releases_of_params before = 0%nat).
    { unfold before.
      change (?e :: (?a ++ ?b)%list) with ([e] ++ (a ++ b))%list.
      rewrite !releases_app, (diagnostic_no_release _ Tf),
        (diagnostic_no_release _ Tc).
      reflexivity. }
    assert (Shape : forall t0,
               (Ev_free R_script_url
                :: snd (msWCSGetFormatsList11 (header map) None)
                   ++ Ev_free R_format_list :: tc ++ t0)%list
               = (before ++ t0)%list).
    { intros t0. unfold before. cbn [app].
      now rewrite <- !app_assoc. }
    rewrite Shape.
    destruct (negb (fst res =? MS_SUCCESS)).
    + left. cbn [ret snd fst]. rewrite app_nil_r.
      split; [now apply silent_no_docs|]. split; [discriminate | exact Rb].
    + unfold write_document.
      destruct (msIO_needBinaryStdout =? MS_FAILURE).
      * left. cbn [ret snd fst]. rewrite app_nil_r.
        split; [now apply silent_no_docs|]. split; [discriminate | exact Rb].
      * right. eexists [_; _; _; _]. rewrite !bind_emit. cbn [ret fst snd].
        split; [|split; [reflexivity|]].
        -- rewrite written_docs_silent_app by exact Sb. reflexivity.
        -- rewrite releases_app, Rb. reflexivity.
  - left. rewrite (bind_crash (B := Z) (None, tc) _ eq_refl). cbn [fst snd].
    split; [|split; [discriminate|]].
    + apply (silent_no_docs (_ :: _)). apply (silent_app [_]); [reflexivity|].
      apply silent_app; [now apply diagnostic_silent|].
      apply (silent_app [_]); [reflexivity | now apply diagnostic_silent].
    + change (?e :: (?a ++ ?f :: ?b)%list)
        with ([e] ++ (a ++ ([f] ++ b)))%list.
      rewrite !releases_app, (diagnostic_no_release _ Tf),
        (diagnostic_no_release _ Tc).
      reflexivity.
Qed.

(** ** msWCSDescribeCoverage_CoverageDescription11 *)

Section Description.

Context {ext : Collaborators}.

Lemma add_supported_crs_named (name : string) (n : xmlNode) (v : option string) :
  Xml.named name (add_supported_crs n v) = Xml.named name n.
Proof.
  unfold add_supported_crs, msLibXml2GenerateList.
  destruct v as [[|c v]|]; try reflexivity.
  apply add_children_keeps.
Qed.

Lemma add_supported_formats_named (name : string) (n : xmlNode) (fl : string) :
  Xml.named name (add_supported_formats n fl) = Xml.named name n.
Proof.
  unfold add_supported_formats, msLibXml2GenerateList.
  destruct (CStr.nonempty fl); [apply add_children_keeps | reflexivity].
Qed.

(** A call always returns; it leaves the root as it was or with one more
    CoverageDescription child, keeps the name and the parent pointer of
    the layer, and writes nothing. *)
Lemma CoverageDescription11_outcome (layer : layerObj) (params : wcsParamsObj)
      (psRootNode : xmlNode) (psOwsNs : xmlNs) :
  exists st root' layer' t,
    msWCSDescribeCoverage_CoverageDescription11 layer params psRootNode psOwsNs
    = (Some (st, root', layer'), t)
    /\ layer_name layer' = layer_name layer
    /\ layer_map layer' = layer_map layer
    /\ (root' = psRootNode
        \/ exists cd, root' = Xml.xmlAddChild psRootNode cd
                      /\ Xml.named "CoverageDescription" cd = true)
    /\ logs t.
Proof.
  unfold msWCSDescribeCoverage_CoverageDescription11.
  destruct (layer_map layer) as [lmap|] eqn:P.
  2:{ do 4 eexists. split; [reflexivity|]. repeat split; auto. }
  cbn [msCheckParentPointer]. rewrite bind_ret.
  cbn [Z.eqb MS_SUCCESS MS_FAILURE].
  destruct (msWCSIsLayerSupported layer).
  2:{ do 4 eexists. split; [reflexivity|]. repeat split; auto. }
  cbn [negb].
  destruct (msWCSGetCoverageMetadata layer) as [status cm].
  destruct (negb (status =? MS_SUCCESS)).
  { do 4 eexists. split; [reflexivity|]. repeat split; auto. }
  set (layer1 := with_metadata layer _).
  assert (P1 : layer_map layer1 = Some lmap) by exact P.
  destruct (resolve_supported_crs_value msOWSGetProjURN layer1) as [v V];
    [congruence|].
  pose proof (resolve_supported_crs_trace msOWSGetProjURN layer1) as Tv.
  rewrite (bind_value _ _ _ V). rewrite P1.
  destruct (msWCSGetFormatsList11_value lmap (Some layer1)) as [fl F].
  pose proof (msWCSGetFormatsList11_trace lmap (Some layer1)) as Tf.
  rewrite (bind_value _ _ _ F). cbn [ret fst snd].
  do 4 eexists. split; [reflexivity|]. split; [reflexivity|].
  split; [exact P|]. split.
  - right. eexists. split; [reflexivity|].
    rewrite add_supported_formats_named, add_supported_crs_named.
    rewrite !named_xmlAddChild.
    destruct (msOWSLookupMetadata (layer_metadata layer1) "COM" "keywordlist");
      rewrite ?named_xmlAddChild; reflexivity.
  - rewrite app_nil_r. apply logs_app; now apply diagnostic_logs.
Qed.

(** A call on a layer whose description fails: a status other than
    MS_SUCCESS, and the root and the layer as they were. *)
Lemma CoverageDescription11_failure (layer : layerObj) (params : wcsParamsObj)
      (psRootNode : xmlNode) (psOwsNs : xmlNs) :
  description_fails layer ->
  exists st t,
    msWCSDescribeCoverage_CoverageDescription11 layer params psRootNode psOwsNs
    = (Some (st, psRootNode, layer), t)
    /\ st <> MS_SUCCESS /\ logs t.
Proof.
  intros F. unfold msWCSDescribeCoverage_CoverageDescription11.
  destruct (layer_map layer) as [lmap|] eqn:P.
  2:{ do 2 eexists. split; [reflexivity|]. split; [discriminate | reflexivity]. }
  destruct F as [F | [S F]]; [congruence|].
  cbn [msCheckParentPointer]. rewrite bind_ret.
  cbn [Z.eqb MS_SUCCESS MS_FAILURE]. rewrite S. cbn [negb].
  destruct (msWCSGetCoverageMetadata layer) as [status cm]. cbn [fst] in F.
  destruct (Z.eqb_spec status MS_SUCCESS) as [E|E]; [contradiction|].
  cbn [negb]. do 2 eexists. split; [reflexivity|]. split; [exact E | reflexivity].
Qed.

End Description.

(** ** The layer store *)

Lemma nth_error_firstn_skipn {A : Type} (ls : list A) (n : nat) (l : A) :
  nth_error ls n = Some l -> (firstn n ls ++ l :: skipn (S n) ls)%list = ls.
Proof.
  revert n. induction ls as [|x ls IH]; intros [|n] H; try discriminate.
  - injection H as ->. reflexivity.
  - cbn [firstn skipn app]. f_equal. now apply IH.
Qed.

Lemma set_layer_same (map : mapObj) (i : Z) (layer : layerObj) :
  GET_LAYER map i = Some layer -> set_layer map i layer = map.
Proof.
  unfold GET_LAYER, set_layer. destruct (i <? 0); [discriminate|].
  intros H. rewrite (nth_error_firstn_skipn _ _ _ H). now destruct map.
Qed.

Lemma set_layer_names (map : mapObj) (i : Z) (layer layer' : layerObj) :
  GET_LAYER map i = Some layer -> layer_name layer' = layer_name layer ->
  layer_names (set_layer map i layer') = layer_names map.
Proof.
  unfold GET_LAYER, set_layer, layer_names. destruct (i <? 0); [discriminate|].
  intros H N. cbn [layers].
  rewrite <- (nth_error_firstn_skipn _ _ _ H) at 3.
  rewrite !map_app. cbn [List.map]. now rewrite N.
Qed.

Lemma msGetLayerIndex_from_names (ls1 ls2 : list layerObj) (i : Z) (c : string) :
  List.map layer_name ls1 = List.map layer_name ls2 ->
  msGetLayerIndex_from i ls1 c = msGetLayerIndex_from i ls2 c.
Proof.
  revert ls2 i. induction ls1 as [|l ls1 IH]; intros [|l2 ls2] i E;
    try discriminate; [reflexivity|].
  cbn [List.map] in E. injection E as En Er.
  cbn [msGetLayerIndex_from]. rewrite En, (IH ls2 (i + 1) Er). reflexivity.
Qed.

Lemma msGetLayerIndex_names (m1 m2 : mapObj) (c : string) :
  layer_names m1 = layer_names m2 -> msGetLayerIndex m1 c = msGetLayerIndex m2 c.
Proof. apply msGetLayerIndex_from_names. Qed.

Lemma msGetLayerIndex_from_found (ls : list layerObj) (i : Z) (c : string) :
  msGetLayerIndex_from i ls c <> -1 -> 0 <= i ->
  exists layer,
    nth_error ls (Z.to_nat (msGetLayerIndex_from i ls c - i)) = Some layer
    /\ layer_name layer = c
    /\ i <= msGetLayerIndex_from i ls c.
Proof.
  revert i. induction ls as [|l ls IH]; intros i H Hi; [now contradiction H|].
  cbn [msGetLayerIndex_from] in *.
  destruct (String.eqb_spec c (layer_name l)) as [E|E].
  - exists l. rewrite Z.sub_diag. repeat split; auto. lia.
  - destruct (IH (i + 1) H) as [layer [Hn [Hc Hle]]]; [lia|].
    exists layer. split; [|split; [exact Hc | lia]].
    replace (Z.to_nat (msGetLayerIndex_from (i + 1) ls c - i))
      with (S (Z.to_nat (msGetLayerIndex_from (i + 1) ls c - (i + 1))))
      by lia.
    exact Hn.
Qed.

(** A name that the validation accepts is the name of a layer in range. *)
Lemma msGetLayerIndex_found (map : mapObj) (c : string) :
  msGetLayerIndex map c <> -1 ->
  exists layer, GET_LAYER map (msGetLayerIndex map c) = Some layer
                /\ layer_name layer = c.
Proof.
  intros H. unfold msGetLayerIndex in *.
  destruct (msGetLayerIndex_from_found (layers map) 0 c H) as [l [Hn [Hc Hle]]];
    [lia|].
  exists l. split; [|exact Hc]. unfold GET_LAYER.
  destruct (Z.ltb_spec (msGetLayerIndex_from 0 (layers map) c) 0); [lia|].
  now rewrite Z.sub_0_r in Hn.
Qed.

(** ** msWCSDescribeCoverage11: the loops *)

Section Describe.

Context {ext : Collaborators}.

Lemma describe_layer_outcome (map : mapObj) (params : wcsParamsObj)
      (psOwsNs : xmlNs) (i : Z) (psRootNode : xmlNode) (layer : layerObj) :
  GET_LAYER map i = Some layer ->
  exists map' root' t,
    describe_layer map params psOwsNs i psRootNode = (Some (map', root'), t)
    /\ layer_names map' = layer_names map
    /\ (root' = psRootNode
        \/ exists cd, root' = Xml.xmlAddChild psRootNode cd
                      /\ Xml.named "CoverageDescription" cd = true)
    /\ logs t.
Proof.
  intros G. unfold describe_layer. rewrite G.
  destruct (CoverageDescription11_outcome layer params psRootNode psOwsNs)
    as [st [root' [layer' [t [E [N [_ [R S]]]]]]]].
  rewrite E. unfold bind. cbn [fst snd ret].
  do 3 eexists. split; [reflexivity|].
  split; [now apply set_layer_names with layer|].
  split; [exact R|]. now rewrite app_nil_r.
Qed.

(** One turn of a loop on a layer whose description fails: the map and
    the root as they were, whatever the status was. *)
Lemma describe_layer_failure (map : mapObj) (params : wcsParamsObj)
      (psOwsNs : xmlNs) (i : Z) (psRootNode : xmlNode) (layer : layerObj) :
  GET_LAYER map i = Some layer -> description_fails layer ->
  exists t,
    describe_layer map params psOwsNs i psRootNode = (Some (map, psRootNode), t)
    /\ logs t.
Proof.
  intros G F. unfold describe_layer. rewrite G.
  destruct (CoverageDescription11_failure layer params psRootNode psOwsNs F)
    as [st [t [E [_ S]]]].
  rewrite E. unfold bind. cbn [fst snd ret].
  rewrite (set_layer_same _ _ _ G), app_nil_r. now exists t.
Qed.

Lemma describe_requested_app (map : mapObj) (params : wcsParamsObj)
      (psOwsNs : xmlNs) (cs1 cs2 : list string) (psRootNode : xmlNode) :
  describe_requested map params psOwsNs (cs1 ++ cs2) psRootNode
  = (r <- describe_requested map params psOwsNs cs1 psRootNode ;;
     describe_requested (fst r) params psOwsNs cs2 (snd r)).
Proof.
  revert map psRootNode. induction cs1 as [|c cs1 IH]; intros map psRootNode.
  - cbn [app describe_requested]. now rewrite bind_ret.
  - cbn [app describe_requested].
    destruct (describe_layer map params psOwsNs (msGetLayerIndex map c)
                             psRootNode) as [[r|] t].
    + unfold bind at 1 3. cbn [fst snd]. rewrite IH.
      unfold bind. cbn [fst snd].
      destruct (describe_requested (fst r) params psOwsNs cs1 (snd r))
        as [[r1|] t1]; cbn [fst snd]; [|reflexivity].
      now rewrite app_assoc.
    + reflexivity.
Qed.

(** The loop over the requested coverages, once they are validated. *)
Lemma describe_requested_outcome (map : mapObj) (params : wcsParamsObj)
      (psOwsNs : xmlNs) (cs : list string) (psRootNode : xmlNode) :
  Forall (fun c => msGetLayerIndex map c <> -1) cs ->
  exists map' cds t,
    describe_requested map params psOwsNs cs psRootNode
    = (Some (map', Xml.add_children psRootNode cds), t)
    /\ layer_names map' = layer_names map
    /\ Forall (fun cd => Xml.named "CoverageDescription" cd = true) cds
    /\ logs t.
Proof.
  revert map psRootNode. induction cs as [|c cs IH]; intros map psRootNode V.
  - exists map, [], []. repeat split; auto.
  - inversion V as [|? ? Vc Vcs]; subst.
    destruct (msGetLayerIndex_found map c Vc) as [layer [G _]].
    destruct (describe_layer_outcome map params psOwsNs _ psRootNode layer G)
      as [map1 [root1 [t1 [E1 [N1 [R1 S1]]]]]].
    cbn [describe_requested]. rewrite E1. unfold bind at 1. cbn [fst snd].
    destruct (IH map1 root1) as [map2 [cds [t2 [E2 [N2 [C2 S2]]]]]].
    { rewrite Forall_forall in *. intros x Hx.
      rewrite (msGetLayerIndex_names map1 map x N1). now apply Vcs. }
    rewrite E2. cbn [fst snd].
    destruct R1 as [-> | [cd [-> Hcd]]].
    + exists map2, cds, (t1 ++ t2)%list. repeat split; auto.
      * congruence.
      * now apply logs_app.
    + exists map2, (cd :: cds), (t1 ++ t2)%list. repeat split; auto.
      * congruence.
      * now apply logs_app.
Qed.

(** The loop over all layers. *)
Lemma describe_all_outcome (n : nat) (i : Z) (map : mapObj)
      (params : wcsParamsObj) (psOwsNs : xmlNs) (psRootNode : xmlNode) :
  0 <= i -> i + Z.of_nat n <= Z.of_nat (List.length (layer_names map)) ->
  exists map' cds t,
    describe_all n i map params psOwsNs psRootNode
    = (Some (map', Xml.add_children psRootNode cds), t)
    /\ layer_names map' = layer_names map
    /\ Forall (fun cd => Xml.named "CoverageDescription" cd = true) cds
    /\ logs t.
Proof.
  revert i map psRootNode. induction n as [|n IH]; intros i map psRootNode Hi Hn.
  - exists map, [], []. repeat split; auto.
  - assert (G : exists layer, GET_LAYER map i = Some layer).
    { unfold GET_LAYER. destruct (Z.ltb_spec i 0); [lia|].
      destruct (nth_error (layers map) (Z.to_nat i)) eqn:E; [eauto|].
      apply nth_error_None in E. unfold layer_names in Hn.
      rewrite length_map in Hn. lia. }
    destruct G as [layer G].
    destruct (describe_layer_outcome map params psOwsNs _ psRootNode layer G)
      as [map1 [root1 [t1 [E1 [N1 [R1 S1]]]]]].
    cbn [describe_all]. rewrite E1. unfold bind at 1. cbn [fst snd].
    destruct (IH (i + 1) map1 root1) as [map2 [cds [t2 [E2 [N2 [C2 S2]]]]]];
      [lia | rewrite N1; lia |].
    rewrite E2. cbn [fst snd].
    destruct R1 as [-> | [cd [-> Hcd]]].
    + exists map2, cds, (t1 ++ t2)%list. repeat split; auto.
      * congruence.
      * now apply logs_app.
    + exists map2, (cd :: cds), (t1 ++ t2)%list. repeat split; auto.
      * congruence.
      * now apply logs_app.
Qed.

End Describe.

(** ** msWCSDescribeCoverage11: the whole call *)

Section DescribeCall.

Context {ext : Collaborators}.

Lemma normalized_coverages_split (params : wcsParamsObj) :
  exists p,
    fst (split_single_coverage params) = Some p
    /\ version p = version params
    /\ coverages p = normalized_coverages params
    /\ silent (snd (split_single_coverage params))
    /\ releases_of_params (snd (split_single_coverage params)) = 0%nat.
Proof.
  destruct (split_single_coverage_value params) as [p [V [E T]]].
  exists p. unfold normalized_coverages. rewrite V.
  repeat split; auto; destruct T as [-> | ->]; reflexivity.
Qed.

(** A validated request reaches the end of the function: the document is
    written and success reported, unless stdout cannot be made binary. *)
Lemma describe_coverages_outcome (map : mapObj) (p : wcsParamsObj) :
  match coverages p with
  | Some cs => Forall (fun c => msGetLayerIndex map c <> -1) cs
  | None => True
  end ->
  exists cds t,
    describe_coverages map p
    = (if msIO_needBinaryStdout =? MS_FAILURE
       then (Some MS_FAILURE, t)
       else (Some MS_SUCCESS, (t ++ describe_epilogue p cds)%list))
    /\ Forall (fun cd => Xml.named "CoverageDescription" cd = true) cds
    /\ logs t.
Proof.
  intros V. unfold describe_coverages.
  assert (L : exists map' cds t,
             match coverages p with
             | Some cs =>
                 describe_requested map p ows_namespace cs
                   (new_root "CoverageDescriptions" p)
             | None =>
                 describe_all (numlayers map) 0 map p ows_namespace
                   (new_root "CoverageDescriptions" p)
             end
             = (Some (map', Xml.add_children
                              (new_root "CoverageDescriptions" p) cds), t)
             /\ Forall (fun cd => Xml.named "CoverageDescription" cd = true) cds
             /\ logs t).
  { destruct (coverages p) as [cs|].
    - destruct (describe_requested_outcome map p ows_namespace cs
                  (new_root "CoverageDescriptions" p) V)
        as [m [cds [t [E [_ [C S]]]]]]. eauto 8.
    - destruct (describe_all_outcome (numlayers map) 0 map p
                  ows_namespace (new_root "CoverageDescriptions" p))
        as [m [cds [t [E [_ [C S]]]]]];
        [lia | unfold layer_names, numlayers; rewrite length_map; lia
        | eauto 8]. }
  destruct L as [map' [cds [t [E [C S]]]]].
  assert (F : match coverages p with
              | Some cs => first_unresolved map cs
              | None => None
              end = None).
  { destruct (coverages p); [now apply first_unresolved_none | reflexivity]. }
  rewrite F, E. unfold bind at 1. cbn [fst snd]. unfold write_document.
  exists cds, t. split; [|split; [exact C | exact S]].
  destruct (msIO_needBinaryStdout =? MS_FAILURE).
  - cbn [ret fst snd]. now rewrite app_nil_r.
  - reflexivity.
Qed.

(** A request that is not validated ends in the exception reporter. *)
Lemma describe_coverages_refused (map : mapObj) (p : wcsParamsObj)
      (cs : list string) (c : string) :
  coverages p = Some cs -> first_unresolved map cs = Some c ->
  describe_coverages map p
  = (Some MS_FAILURE,
     [ Ev_msSetError MS_WCSERR
         ("COVERAGE " ++ c ++ " cannot be opened / does not exist")
         "msWCSDescribeCoverage()";
       Ev_msWCSException (Some c) (Some "CoverageNotDefined")
                         (Some "coverage") ]).
Proof. intros C F. unfold describe_coverages. rewrite C, F. reflexivity. Qed.

(** A DescribeCoverage call that does not report success has written no
    document and has not released the parameters; one that does has
    written the document it built on the common root and has released the
    parameters once. *)
Lemma describe_docs (map : mapObj) (params : wcsParamsObj) :
  let r := msWCSDescribeCoverage11 map params in
  (written_docs (snd r) = []
   /\ fst r <> Some MS_SUCCESS
   /\ releases_of_params (snd r) = 0%nat)
  \/ exists p cds,
      version p = version params
      /\ written_docs (snd r)
         = [ {| xml_version := "1.0";
                root := Xml.add_children (new_root "CoverageDescriptions" p)
                                         cds |} ]
      /\ Forall (fun cd => Xml.named "CoverageDescription" cd = true) cds
      /\ fst r = Some MS_SUCCESS
      /\ releases_of_params (snd r) = 1%nat.
Proof.
  intros r. subst r. unfold msWCSDescribeCoverage11.
  destruct (normalized_coverages_split params) as [p [V [Ev [Ec [Ss Rs]]]]].
  rewrite (bind_value _ _ _ V). cbn [fst snd].
  destruct (match coverages p with
            | Some cs => first_unresolved map cs
            | None => None
            end) as [c|] eqn:U.
  - left. destruct (coverages p) as [cs|] eqn:C; [|discriminate].
    rewrite (describe_coverages_refused map p cs c C U). cbn [fst snd].
    split; [now rewrite written_docs_silent_app|].
    split; [discriminate|]. now rewrite releases_app, Rs.
  - destruct (describe_coverages_outcome map p) as [cds [t [E [C L]]]].
    { destruct (coverages p); [now apply first_unresolved_none | exact I]. }
    rewrite E. destruct (msIO_needBinaryStdout =? MS_FAILURE); cbn [fst snd].
    + left. split; [|split; [discriminate|]].
      * rewrite written_docs_silent_app by exact Ss.
        apply silent_no_docs. now apply logs_silent.
      * now rewrite releases_app, Rs, (logs_no_release _ L).
    + right. exists p, cds. split; [exact Ev|]. split; [|split; [exact C|]].
      * rewrite written_docs_silent_app by exact Ss.
        rewrite written_docs_silent_app by now apply logs_silent.
        reflexivity.
      * split; [reflexivity|].
        rewrite !releases_app, Rs, (logs_no_release _ L). reflexivity.
Qed.

End DescribeCall.

(** ** The root of the documents *)

(** The root of a document built on the common root. *)
Lemma common_root_declares (name : string) (p : wcsParamsObj)
      (children : list xmlNode) (v : string) :
  version p = v ->
  Xml.named name (Xml.add_children (new_root name p) children) = true
  /\ declares_wcs11 v
       {| xml_version := "1.0";
          root := Xml.add_children (new_root name p) children |}.
Proof.
  intros V.
  destruct (add_children_keeps (new_root name p) children)
    as [Hd [Hn [Hp [Hm _]]]].
  destruct (new_root_bindings name p) as [Bd [Bn [Bp _]]].
  split.
  - rewrite Hm. cbn. apply String.eqb_refl.
  - unfold declares_wcs11, root_bindings. cbn [root].
    rewrite Hd, Hn, Hp, Bd, Bn, Bp, V. repeat split.
Qed.

(** C9. A GetCapabilities call that reports success has written exactly
    one document, whose root is called Capabilities; a DescribeCoverage
    call that reports success has written exactly one, whose root is
    called CoverageDescriptions.  These, and every document that either
    call writes at all, declare on the root exactly five namespace
    bindings: the default namespace http://www.opengis.net/wcs/1.1, in
    which the root is, and the prefixes ows, xlink, xsi and ogc; the root
    has one attribute, version, whose value is the version of the
    request parameters. *)
Theorem C9_root_namespaces_and_version :
  forall (ext : Collaborators) (map : mapObj) (params : wcsParamsObj)
         (req : cgiRequestObj),
    (fst (msWCSGetCapabilities11 map params req) = Some MS_SUCCESS ->
     exists doc,
       written_docs (snd (msWCSGetCapabilities11 map params req)) = [doc]
       /\ Xml.named "Capabilities" (root doc) = true
       /\ declares_wcs11 (version params) doc)
    /\ (fst (msWCSDescribeCoverage11 map params) = Some MS_SUCCESS ->
        exists doc,
          written_docs (snd (msWCSDescribeCoverage11 map params)) = [doc]
          /\ Xml.named "CoverageDescriptions" (root doc) = true
          /\ declares_wcs11 (version params) doc)
    /\ (forall doc : xmlDoc,
           In doc (written_docs (snd (msWCSGetCapabilities11 map params req)))
           \/ In doc (written_docs (snd (msWCSDescribeCoverage11 map params)))
           ->
           root_bindings doc
           = [ (None, "http://www.opengis.net/wcs/1.1");
               (Some "ows", MS_OWSCOMMON_OWS_NAMESPACE_URI);
               (Some "xlink", MS_OWSCOMMON_W3C_XLINK_NAMESPACE_URI);
               (Some "xsi", MS_OWSCOMMON_W3C_XSI_NAMESPACE_URI);
               (Some "ogc", MS_OWSCOMMON_OGC_NAMESPACE_URI) ]
           /\ Xml.ns_of (root doc)
              = Some {| href := "http://www.opengis.net/wcs/1.1";
                        prefix := None |}
           /\ Xml.properties_of (root doc) = [("version", version params)]).
Proof.
  intros ext map params req. split; [|split].
  - intros S.
    destruct (capabilities_docs map params req) as [[_ [N _]] | [cs [E _]]];
      [contradiction|].
    eexists. split; [exact E|].
    now apply (common_root_declares "Capabilities" params cs).
  - intros S.
    destruct (describe_docs map params) as [[_ [N _]] | [p [cds [V [E _]]]]];
      [contradiction|].
    eexists. split; [exact E|].
    now apply (common_root_declares "CoverageDescriptions" p cds).
  - intros doc H.
    assert (R : declares_wcs11 (version params) doc); [|exact R].
    destruct H as [H | H].
    + destruct (capabilities_docs map params req) as [[E _] | [cs [E _]]];
        rewrite E in H; [destruct H|].
      destruct H as [<- | []].
      now apply (common_root_declares "Capabilities" params cs).
    + destruct (describe_docs map params) as [[E _] | [p [cds [V [E _]]]]];
        rewrite E in H; [destruct H|].
      destruct H as [<- | []].
      now apply (common_root_declares "CoverageDescriptions" p cds).
Qed.

Lemma C9_witness :
  (exists doc,
      written_docs (snd (msWCSGetCapabilities11 (ext := Sample.world)
                           Sample.small_server (Sample.params (Some ["a"]))
                           Sample.request)) = [doc]
      /\ Xml.named "Capabilities" (root doc) = true
      /\ declares_wcs11 "1.1.0" doc)
  /\ (exists doc,
         written_docs (snd (msWCSDescribeCoverage11 (ext := Sample.world)
                              Sample.small_server
                              (Sample.params (Some ["a"])))) = [doc]
         /\ Xml.named "CoverageDescriptions" (root doc) = true
         /\ declares_wcs11 "1.1.0" doc).
Proof.
  destruct (C9_root_namespaces_and_version Sample.world Sample.small_server
              (Sample.params (Some ["a"])) Sample.request) as [Cap [Des _]].
  split; [apply Cap | apply Des]; reflexivity.
Defined.

(** ** Release of the request parameters *)

(** C6 (the code does otherwise). Either builder releases the request
    parameters once when it reports success and not at all when it does
    not: every early return keeps them.  GetCapabilities without an online
    resource returns MS_FAILURE through the exception reporter, its only
    event, with the parameters unreleased. *)
Theorem C6_params_released_only_on_success :
  (forall (ext : Collaborators) (map : mapObj) (params : wcsParamsObj)
          (req : cgiRequestObj),
      let r := msWCSGetCapabilities11 map params req in
      (fst r = Some MS_SUCCESS /\ releases_of_params (snd r) = 1%nat)
      \/ (fst r <> Some MS_SUCCESS /\ releases_of_params (snd r) = 0%nat))
  /\ (forall (ext : Collaborators) (map : mapObj) (params : wcsParamsObj),
         let r := msWCSDescribeCoverage11 map params in
         (fst r = Some MS_SUCCESS /\ releases_of_params (snd r) = 1%nat)
         \/ (fst r <> Some MS_SUCCESS /\ releases_of_params (snd r) = 0%nat))
  /\ msWCSGetCapabilities11 (ext := Sample.world) Sample.offline_server
       (Sample.params None) Sample.request
     = (Some MS_FAILURE,
        [ Ev_msWCSException (Some "1.1.0") (Some "NoApplicableCode")
                            (Some "NoApplicableCode") ])
  /\ releases_of_params
       (snd (msWCSGetCapabilities11 (ext := Sample.world)
               Sample.offline_server (Sample.params None) Sample.request))
     = 0%nat.
Proof.
  split; [|split; [|split; reflexivity]].
  - intros ext map params req r.
    destruct (capabilities_docs map params req) as [[_ [F R]] | [cs [_ [S R]]]].
    + right. now split.
    + left. now split.
  - intros ext map params r.
    destruct (describe_docs map params)
      as [[_ [F R]] | [p [cds [_ [_ [_ [S R]]]]]]].
    + right. now split.
    + left. now split.
Qed.

(** ** A layer that cannot be described *)

(** The identifiers described by the documents of a trace. *)
Lemma sample_descriptions :
  List.map (fun d => described (root d))
    (written_docs (snd (msWCSDescribeCoverage11 (ext := Sample.world)
                          Sample.server (Sample.params (Some ["a,b,c"])))))
  = [[Some "a"; Some "c"]]
  /\ List.map (fun d => described (root d))
       (written_docs (snd (msWCSDescribeCoverage11 (ext := Sample.world)
                             Sample.orphan_server (Sample.params None))))
     = [[Some "a"; Some "c"]].
Proof. vm_compute. split; reflexivity. Qed.

(** C10. In DescribeCoverage a layer whose description fails (its parent
    pointer is missing, or it is supported and its coverage metadata cannot
    be computed) does not stop the build.  The call on the layer returns a
    status other than MS_SUCCESS and leaves the root and the layer as they
    were; the loop drops the status and goes on from the same map and
    root, so that a failing coverage in the middle of a request leaves the
    map and the root that the request without it leaves.  Once the request
    is validated and stdout is binary, the call writes the document, made
    of CoverageDescription nodes only, and returns MS_SUCCESS.
    GetCapabilities on a map with a supported layer whose coverage metadata
    cannot be computed does not report success and writes no document.  On
    the sample server, whose layer b fails, the request a,b,c describes a
    and c; so does the request for all layers of a server whose middle
    layer lost its parent pointer. *)
Theorem C10_describe_survives_layer_failure :
  forall (ext : Collaborators) (map : mapObj) (params : wcsParamsObj),
    (forall (i : Z) (layer : layerObj) (psRootNode : xmlNode),
        GET_LAYER map i = Some layer -> description_fails layer ->
        (exists st t,
            msWCSDescribeCoverage_CoverageDescription11
              layer params psRootNode ows_namespace
            = (Some (st, psRootNode, layer), t)
            /\ st <> MS_SUCCESS /\ silent t)
        /\ fst (describe_layer map params ows_namespace i psRootNode)
           = Some (map, psRootNode))
    /\ (forall (pre post : list string) (bad : string)
               (psRootNode root1 : xmlNode) (map1 : mapObj),
           fst (describe_requested map params ows_namespace pre psRootNode)
           = Some (map1, root1) ->
           (exists layer,
               GET_LAYER map1 (msGetLayerIndex map1 bad) = Some layer
               /\ description_fails layer) ->
           fst (describe_requested map params ows_namespace
                                   (pre ++ bad :: post) psRootNode)
           = fst (describe_requested map params ows_namespace
                                     (pre ++ post) psRootNode))
    /\ (match normalized_coverages params with
        | Some cs => Forall (fun c => msGetLayerIndex map c <> -1) cs
        | None => True
        end ->
        msIO_needBinaryStdout <> MS_FAILURE ->
        fst (msWCSDescribeCoverage11 map params) = Some MS_SUCCESS
        /\ exists p cds,
            version p = version params
            /\ written_docs (snd (msWCSDescribeCoverage11 map params))
               = [ {| xml_version := "1.0";
                      root := Xml.add_children
                                (new_root "CoverageDescriptions" p) cds |} ]
            /\ Forall (fun cd => Xml.named "CoverageDescription" cd = true) cds)
    /\ (forall req : cgiRequestObj,
           (exists layer, In layer (layers map) /\ summary_fails layer) ->
           fst (msWCSGetCapabilities11 map params req) <> Some MS_SUCCESS
           /\ written_docs (snd (msWCSGetCapabilities11 map params req)) = [])
    /\ List.map (fun d => described (root d))
         (written_docs (snd (msWCSDescribeCoverage11 (ext := Sample.world)
                               Sample.server (Sample.params (Some ["a,b,c"])))))
       = [[Some "a"; Some "c"]]
    /\ List.map (fun d => described (root d))
         (written_docs (snd (msWCSDescribeCoverage11 (ext := Sample.world)
                               Sample.orphan_server (Sample.params None))))
       = [[Some "a"; Some "c"]].
Proof.
  intros ext map params.
  split; [|split; [|split; [|split; [|exact sample_descriptions]]]].
  - intros i layer psRootNode G F. split.
    + destruct (CoverageDescription11_failure layer params psRootNode
                  ows_namespace F) as [st [t [E [N L]]]].
      exists st, t. split; [exact E|]. split; [exact N | now apply logs_silent].
    + destruct (describe_layer_failure map params ows_namespace i psRootNode
                  layer G F) as [t [E _]].
      now rewrite E.
  - intros pre post bad psRootNode root1 map1 P [layer [G F]].
    rewrite !describe_requested_app, !fst_bind, P. cbn [fst snd].
    cbn [describe_requested].
    destruct (describe_layer_failure map1 params ows_namespace _ root1
                layer G F) as [t [E _]].
    rewrite fst_bind, E. reflexivity.
  - intros V B. apply Z.eqb_neq in B.
    unfold msWCSDescribeCoverage11.
    destruct (normalized_coverages_split params) as [p [Vp [Ev [Ec [Ss Rs]]]]].
    rewrite (bind_value _ _ _ Vp). cbn [fst snd].
    rewrite <- Ec in V.
    destruct (describe_coverages_outcome map p V) as [cds [t [E [C L]]]].
    rewrite E, B. cbn [fst snd]. split; [reflexivity|].
    exists p, cds. split; [exact Ev|]. split; [|exact C].
    rewrite written_docs_silent_app by exact Ss.
    rewrite written_docs_silent_app by now apply logs_silent.
    reflexivity.
  - intros req Bad.
    destruct (capabilities_abort map params req Bad) as [St [Si _]].
    split; [destruct St as [E | E]; rewrite E; discriminate|].
    now apply silent_no_docs.
Qed.

Lemma C10_witness :
  fst (msWCSDescribeCoverage11 (ext := Sample.world) Sample.server
         (Sample.params (Some ["a,b,c"]))) = Some MS_SUCCESS
  /\ fst (describe_layer (ext := Sample.world) Sample.orphan_server
            (Sample.params None) ows_namespace 1
            (new_root "CoverageDescriptions" (Sample.params None)))
     = Some (Sample.orphan_server,
             new_root "CoverageDescriptions" (Sample.params None))
  /\ fst (describe_requested (ext := Sample.world) Sample.server
            (Sample.params None) ows_namespace (["a"] ++ "b" :: ["c"])
            (new_root "CoverageDescriptions" (Sample.params None)))
     = fst (describe_requested (ext := Sample.world) Sample.server
              (Sample.params None) ows_namespace (["a"] ++ ["c"])
              (new_root "CoverageDescriptions" (Sample.params None)))
  /\ fst (msWCSGetCapabilities11 (ext := Sample.world) Sample.server
            (Sample.params None) Sample.request) <> Some MS_SUCCESS.
Proof.
  pose proof (C10_describe_survives_layer_failure Sample.world Sample.server
                (Sample.params (Some ["a,b,c"]))) as [_ [_ [S [G _]]]].
  pose proof (C10_describe_survives_layer_failure Sample.world
                Sample.orphan_server (Sample.params None)) as [O _].
  pose proof (C10_describe_survives_layer_failure Sample.world Sample.server
                (Sample.params None)) as [_ [R _]].
  split; [|split; [|split]].
  - apply S; [|discriminate].
    repeat constructor; discriminate.
  - apply (O 1 (Sample.layer "o" None)); [reflexivity | left; reflexivity].
  - apply (R ["a"] ["c"] "b" _ _ _ eq_refl).
    exists (Sample.layer "b" (Some Sample.three_formats)).
    split; [reflexivity|]. right. split; [reflexivity | discriminate].
  - apply (G Sample.request).
    exists (Sample.layer "b" (Some Sample.three_formats)).
    split; [right; left; reflexivity|]. split; [reflexivity | discriminate].
Defined.

(** ** Looking children up *)

Lemma find_app {A : Type} (f : A -> bool) (l l' : list A) :
  find f (l ++ l') = match find f l with
                     | Some x => Some x
                     | None => find f l'
                     end.
Proof.
  induction l as [|x l IH]; [reflexivity|].
  cbn [app find]. destruct (f x); [reflexivity | exact IH].
Qed.

Lemma child_xmlAddChild (name : string) (p c : xmlNode) :
  Xml.child name (Xml.xmlAddChild p c)
  = match Xml.child name p with
    | Some x => Some x
    | None => if Xml.named name c then Some c else None
    end.
Proof.
  unfold Xml.child. rewrite children_of_xmlAddChild, find_app.
  destruct (find (Xml.named name) (Xml.children_of p)); [reflexivity|].
  cbn [find]. destruct (Xml.named name c); reflexivity.
Qed.

Lemma child_add_children (name : string) (p x : xmlNode) (cs : list xmlNode) :
  Xml.child name p = Some x -> Xml.child name (Xml.add_children p cs) = Some x.
Proof.
  unfold Xml.child. intros H.
  destruct (add_children_keeps p cs) as [_ [_ [_ [_ C]]]].
  now rewrite C, find_app, H.
Qed.

Lemma child_add_supported_crs {ext : Collaborators}
      (name : string) (p x : xmlNode) (v : option string) :
  Xml.child name p = Some x -> Xml.child name (add_supported_crs p v) = Some x.
Proof.
  intros H. unfold add_supported_crs, msLibXml2GenerateList.
  destruct v as [[|c v]|]; auto. now apply child_add_children.
Qed.

Lemma child_add_supported_formats {ext : Collaborators}
      (name : string) (p x : xmlNode) (fl : string) :
  Xml.child name p = Some x ->
  Xml.child name (add_supported_formats p fl) = Some x.
Proof.
  intros H. unfold add_supported_formats, msLibXml2GenerateList.
  destruct (CStr.nonempty fl); auto. now apply child_add_children.
Qed.

Lemma named_msLibXml2GenerateList {ext : Collaborators}
      (name : string) (p : xmlNode) (ns : option xmlNs) (elname values : string)
      (delim : ascii) :
  Xml.named name (msLibXml2GenerateList p ns elname values delim)
  = Xml.named name p.
Proof. unfold msLibXml2GenerateList. apply add_children_keeps. Qed.

(** The child that is added to a node without such a child is found
    there, whatever is added after it. *)
Lemma child_after_keywords (name : string) (k c c' : xmlNode) :
  Xml.child name k = None -> Xml.named name c = true ->
  Xml.child name (Xml.xmlAddChild (Xml.xmlAddChild k c) c') = Some c.
Proof. intros K C. now rewrite !child_xmlAddChild, K, C. Qed.

(** ** The grid of a coverage *)

(** C5. The CoverageDescription of a coverage with geotransform gt0..gt5
    has in Domain/SpatialDomain/GridCRS a GridOrigin whose text is the pair
    gt0 + gt1/2 + gt2/2 and gt3 + gt4/2 + gt5/2, and a GridOffsets whose
    text is the pair gt1 and gt5, both computed in doubles and printed with
    15 significant digits, whenever none of the four printed doubles is a
    NaN (infinities are printed inf and -inf).  The coefficients 100, 30,
    0, 200, 0, -30 give the texts 115 185 and 30 -30. *)
Theorem C5_grid_origin_and_offsets :
  forall (ext : Collaborators) (layer : layerObj) (lmap : mapHeader)
         (params : wcsParamsObj) (psRootNode : xmlNode) (psOwsNs : xmlNs)
         (cm : coverageMetadataObj),
    layer_map layer = Some lmap ->
    msWCSIsLayerSupported layer = true ->
    msWCSGetCoverageMetadata layer = (MS_SUCCESS, cm) ->
    Printf.printable (geotransform cm 0%nat + geotransform cm 1%nat / 2
                      + geotransform cm 2%nat / 2)%float = true ->
    Printf.printable (geotransform cm 3%nat + geotransform cm 4%nat / 2
                      + geotransform cm 5%nat / 2)%float = true ->
    Printf.printable (geotransform cm 1%nat) = true ->
    Printf.printable (geotransform cm 5%nat) = true ->
    (exists cd layer' t,
        msWCSDescribeCoverage_CoverageDescription11
          layer params psRootNode psOwsNs
        = (Some (MS_SUCCESS, Xml.xmlAddChild psRootNode cd, layer'), t)
        /\ grid_text "GridOrigin" cd
           = Some (Printf.sprintf_g15_g15
                     (geotransform cm 0%nat + geotransform cm 1%nat / 2
                      + geotransform cm 2%nat / 2)%float
                     (geotransform cm 3%nat + geotransform cm 4%nat / 2
                      + geotransform cm 5%nat / 2)%float)
        /\ grid_text "GridOffsets" cd
           = Some (Printf.sprintf_g15_g15 (geotransform cm 1%nat)
                                          (geotransform cm 5%nat)))
    /\ Printf.sprintf_g15_g15 (100 + 30 / 2 + 0 / 2)%float
                              (200 + 0 / 2 + -30 / 2)%float = "115 185"
    /\ Printf.sprintf_g15_g15 30%float (-30)%float = "30 -30".
Proof.
  intros ext layer lmap params psRootNode psOwsNs cm P S M _ _ _ _.
  split; [|split; vm_compute; reflexivity].
  unfold msWCSDescribeCoverage_CoverageDescription11.
  rewrite P, S, M. cbn [msCheckParentPointer]. rewrite bind_ret.
  cbn [Z.eqb MS_SUCCESS MS_FAILURE negb].
  set (layer1 := with_metadata layer _).
  assert (P1 : layer_map layer1 = Some lmap) by exact P.
  destruct (resolve_supported_crs_value msOWSGetProjURN layer1) as [v V];
    [congruence|].
  rewrite (bind_value _ _ _ V). rewrite P1.
  destruct (msWCSGetFormatsList11_value lmap (Some layer1)) as [fl F].
  rewrite (bind_value _ _ _ F). cbn [ret fst snd].
  do 3 eexists. split; [reflexivity|].
  unfold grid_text. cbn [Xml.descend].
  erewrite child_add_supported_formats;
    [| apply child_add_supported_crs, child_after_keywords;
       [ destruct (msOWSLookupMetadata (layer_metadata layer1)
                                       "COM" "keywordlist");
         [ rewrite child_xmlAddChild, named_msLibXml2GenerateList |];
         reflexivity
       | reflexivity ] ].
  split; reflexivity.
Qed.

Lemma C5_witness :
  exists cd layer' t,
    msWCSDescribeCoverage_CoverageDescription11 (ext := Sample.world)
      (Sample.layer "a" (Some Sample.three_formats)) (Sample.params None)
      (new_root "CoverageDescriptions" (Sample.params None)) ows_namespace
    = (Some (MS_SUCCESS,
             Xml.xmlAddChild
               (new_root "CoverageDescriptions" (Sample.params None)) cd,
             layer'), t)
    /\ grid_text "GridOrigin" cd
       = Some (Printf.sprintf_g15_g15
                 (geotransform Sample.cm 0%nat + geotransform Sample.cm 1%nat / 2
                  + geotransform Sample.cm 2%nat / 2)%float
                 (geotransform Sample.cm 3%nat + geotransform Sample.cm 4%nat / 2
                  + geotransform Sample.cm 5%nat / 2)%float)
    /\ grid_text "GridOffsets" cd
       = Some (Printf.sprintf_g15_g15 (geotransform Sample.cm 1%nat)
                                      (geotransform Sample.cm 5%nat)).
Proof.
  apply (C5_grid_origin_and_offsets Sample.world
           (Sample.layer "a" (Some Sample.three_formats)) Sample.three_formats
           (Sample.params None)
           (new_root "CoverageDescriptions" (Sample.params None))
           ows_namespace Sample.cm); reflexivity.
Defined.

(** ** Supported CRSs *)

Section SupportedCRS.

Context {ext : Collaborators}.

Lemma children_named_add_children (name : string) (p : xmlNode)
      (cs : list xmlNode) :
  Xml.children_named name (Xml.add_children p cs)
  = (Xml.children_named name p ++ filter (Xml.named name) cs)%list.
Proof.
  unfold Xml.children_named.
  destruct (add_children_keeps p cs) as [_ [_ [_ [_ C]]]].
  now rewrite C, filter_app.
Qed.

Lemma children_named_xmlAddChild (name : string) (p c : xmlNode) :
  Xml.children_named name (Xml.xmlAddChild p c)
  = (Xml.children_named name p ++ filter (Xml.named name) [c])%list.
Proof.
  unfold Xml.children_named. now rewrite children_of_xmlAddChild, filter_app.
Qed.

Lemma filter_new_children (name elname : string) (p : xmlNode)
      (ns : option xmlNs) (l : list string) :
  filter (Xml.named name)
         (List.map (fun t => Xml.new_child p ns elname (Some t)) l)
  = if String.eqb elname name
    then List.map (fun t => Xml.new_child p ns elname (Some t)) l
    else [].
Proof.
  induction l as [|t l IH]; [now destruct (String.eqb elname name)|].
  cbn [List.map filter Xml.named Xml.new_child]. rewrite IH.
  destruct (String.eqb elname name); reflexivity.
Qed.

Lemma content_of_new_children (elname : string) (p : xmlNode)
      (ns : option xmlNs) (l : list string) :
  List.map Xml.content_of
           (List.map (fun t => Xml.new_child p ns elname (Some t)) l)
  = List.map Some l.
Proof. rewrite map_map. reflexivity. Qed.

(** The SupportedCRS children of a node that had none are those of the
    tokens of the value. *)
Lemma supported_crs_of_add (node : xmlNode) (v : option string) :
  Xml.children_named "SupportedCRS" node = [] ->
  supported_crs_of (add_supported_crs node v) = List.map Some (crs_tokens v).
Proof.
  intros H. unfold supported_crs_of, add_supported_crs, crs_tokens.
  destruct v as [[|c v]|]; try (now rewrite H).
  unfold msLibXml2GenerateList.
  rewrite children_named_add_children, H, filter_new_children.
  cbn [app String.eqb]. rewrite !Ascii.eqb_refl.
  apply content_of_new_children.
Qed.

(** Supported formats are no supported CRSs. *)
Lemma children_named_add_supported_formats (node : xmlNode) (fl : string) :
  Xml.children_named "SupportedCRS" (add_supported_formats node fl)
  = Xml.children_named "SupportedCRS" node.
Proof.
  unfold add_supported_formats, msLibXml2GenerateList.
  destruct (CStr.nonempty fl); [|reflexivity].
  rewrite children_named_add_children, filter_new_children.
  cbn. now rewrite app_nil_r.
Qed.

(** The value the resolution comes to, and its diagnostic. *)
Lemma resolve_supported_crs_choice
      (urn_of : projectionObj -> hashTableObj -> string -> Z -> option string)
      (layer : layerObj) (lmap : mapHeader) :
  layer_map layer = Some lmap ->
  let own := urn_of (layer_projection layer) (layer_metadata layer)
                    "COM" MS_FALSE in
  let server := urn_of (map_projection lmap) (web_metadata (web lmap))
                       "COM" MS_FALSE in
  resolve_supported_crs urn_of layer
  = (Some (crs_choice own server),
     match crs_choice own server with
     | Some _ => []
     | None => [no_srs_diagnostic]
     end).
Proof.
  intros P own server. subst own server. unfold resolve_supported_crs.
  rewrite P.
  destruct (urn_of (layer_projection layer) _ _ _); [reflexivity|].
  cbn [crs_choice].
  destruct (urn_of (map_projection lmap) _ _ _); reflexivity.
Qed.

End SupportedCRS.

Section SupportedCRSBuilders.

Context {ext : Collaborators}.

Lemma keywords_not_crs (p : xmlNode) (ns : option xmlNs) (cs : list xmlNode) :
  filter (Xml.named "SupportedCRS")
         [Xml.add_children (Xml.new_child p ns "Keywords" None) cs] = [].
Proof.
  cbn [filter].
  destruct (add_children_keeps (Xml.new_child p ns "Keywords" None) cs)
    as [_ [_ [_ [N _]]]].
  rewrite N. reflexivity.
Qed.

(** The summary of a layer whose coverage metadata are there. *)
Lemma CoverageSummary_supported_crs (map : mapHeader) (params : wcsParamsObj)
      (req : cgiRequestObj) (psRootNode psContents : xmlNode)
      (layer : layerObj) (lmap : mapHeader) :
  layer_map layer = Some lmap ->
  fst (msWCSGetCoverageMetadata layer) = MS_SUCCESS ->
  let choice :=
    crs_choice
      (msOWSGetProjURN (layer_projection layer) (layer_metadata layer)
                       "COM" MS_FALSE)
      (msOWSGetProjURN (map_projection lmap) (web_metadata (web lmap))
                       "COM" MS_FALSE) in
  exists summary t,
    msWCSGetCapabilities11_CoverageSummary
      map params req psRootNode psContents layer
    = (Some (MS_SUCCESS, Xml.xmlAddChild psContents summary), t)
    /\ supported_crs_of summary = List.map Some (crs_tokens choice)
    /\ (choice = None -> In no_srs_diagnostic t).
Proof.
  intros P M choice. unfold msWCSGetCapabilities11_CoverageSummary.
  destruct (msWCSGetCoverageMetadata layer) as [status cm]. cbn [fst] in M.
  subst status. cbn [Z.eqb MS_SUCCESS negb].
  destruct (msWCSGetFormatsList11_value map (Some layer)) as [fl F].
  rewrite (bind_value _ _ _ F).
  rewrite (resolve_supported_crs_choice msOWSGetProjURN layer lmap P).
  fold choice. unfold bind. cbn [fst snd ret].
  do 2 eexists. split; [reflexivity|]. split.
  - apply supported_crs_of_add.
    rewrite children_named_add_supported_formats, children_named_add_children.
    destruct (msOWSLookupMetadata (layer_metadata layer) "COM" "keywordlist");
      [|reflexivity].
    rewrite children_named_xmlAddChild, keywords_not_crs. reflexivity.
  - intros N. rewrite N, app_nil_r. apply in_or_app. right. now left.
Qed.

(** The description of a supported layer whose coverage metadata are
    there; the layer-level value is looked up in the metadata as the call
    has completed them. *)
Lemma CoverageDescription11_supported_crs (layer : layerObj)
      (params : wcsParamsObj) (psRootNode : xmlNode) (psOwsNs : xmlNs)
      (lmap : mapHeader) (cm : coverageMetadataObj) :
  layer_map layer = Some lmap ->
  msWCSIsLayerSupported layer = true ->
  msWCSGetCoverageMetadata layer = (MS_SUCCESS, cm) ->
  let choice :=
    crs_choice
      (msOWSGetProjURN (layer_projection layer)
                       (msWCSSetDefaultBandsRangeSetInfo params cm layer)
                       "COM" MS_FALSE)
      (msOWSGetProjURN (map_projection lmap) (web_metadata (web lmap))
                       "COM" MS_FALSE) in
  exists cd layer' t,
    msWCSDescribeCoverage_CoverageDescription11 layer params psRootNode psOwsNs
    = (Some (MS_SUCCESS, Xml.xmlAddChild psRootNode cd, layer'), t)
    /\ supported_crs_of cd = List.map Some (crs_tokens choice)
    /\ (choice = None -> In no_srs_diagnostic t).
Proof.
  intros P S M choice. unfold msWCSDescribeCoverage_CoverageDescription11.
  rewrite P, S, M. cbn [msCheckParentPointer]. rewrite bind_ret.
  cbn [Z.eqb MS_SUCCESS MS_FAILURE negb].
  set (layer1 := with_metadata layer _).
  assert (P1 : layer_map layer1 = Some lmap) by exact P.
  rewrite (resolve_supported_crs_choice msOWSGetProjURN layer1 lmap P1).
  change (layer_projection layer1) with (layer_projection layer).
  change (layer_metadata layer1)
    with (msWCSSetDefaultBandsRangeSetInfo params cm layer).
  fold choice. unfold bind at 1. cbn [fst snd]. rewrite P1.
  destruct (msWCSGetFormatsList11_value lmap (Some layer1)) as [fl F].
  rewrite (bind_value _ _ _ F). cbn [ret fst snd].
  do 3 eexists. split; [reflexivity|]. split.
  - unfold supported_crs_of at 1.
    rewrite children_named_add_supported_formats.
    apply supported_crs_of_add.
    rewrite !children_named_xmlAddChild.
    destruct (msOWSLookupMetadata (msWCSSetDefaultBandsRangeSetInfo
                                     params cm layer) "COM" "keywordlist");
      [|reflexivity].
    rewrite children_named_xmlAddChild. unfold msLibXml2GenerateList.
    rewrite keywords_not_crs. reflexivity.
  - intros N. rewrite N. apply in_or_app. left. now left.
Qed.

End SupportedCRSBuilders.

(** C7. The supported CRSs of a layer are resolved from its own projection
    and metadata, and from those of its map only when that gives nothing
    (NULL): a layer-level value is the result without a look at the map,
    even when the layer has no map.  The SupportedCRS elements of the
    CoverageSummary and of the CoverageDescription are those of the
    resolved value; when both levels give nothing there is none, the
    no-SRS diagnostic is emitted and the call still returns MS_SUCCESS with
    its node. *)
Theorem C7_crs_resolution_falls_back_to_server :
  forall (ext : Collaborators) (layer : layerObj) (lmap : mapHeader),
    layer_map layer = Some lmap ->
    let server :=
      msOWSGetProjURN (map_projection lmap) (web_metadata (web lmap))
                      "COM" MS_FALSE in
    (forall (urn_of : projectionObj -> hashTableObj -> string -> Z
                      -> option string)
            (any : layerObj) (v : string),
        urn_of (layer_projection any) (layer_metadata any) "COM" MS_FALSE
        = Some v ->
        resolve_supported_crs urn_of any = (Some (Some v), []))
    /\ (msOWSGetProjURN (layer_projection layer) (layer_metadata layer)
                        "COM" MS_FALSE = None ->
        fst (resolve_supported_crs msOWSGetProjURN layer) = Some server
        /\ (server = None ->
            snd (resolve_supported_crs msOWSGetProjURN layer)
            = [no_srs_diagnostic]))
    /\ (forall (map : mapHeader) (params : wcsParamsObj) (req : cgiRequestObj)
               (psRootNode psContents : xmlNode),
           fst (msWCSGetCoverageMetadata layer) = MS_SUCCESS ->
           let choice :=
             crs_choice
               (msOWSGetProjURN (layer_projection layer) (layer_metadata layer)
                                "COM" MS_FALSE) server in
           exists summary t,
             msWCSGetCapabilities11_CoverageSummary
               map params req psRootNode psContents layer
             = (Some (MS_SUCCESS, Xml.xmlAddChild psContents summary), t)
             /\ supported_crs_of summary = List.map Some (crs_tokens choice)
             /\ (choice = None ->
                 Xml.children_named "SupportedCRS" summary = []
                 /\ In no_srs_diagnostic t))
    /\ (forall (params : wcsParamsObj) (psRootNode : xmlNode) (psOwsNs : xmlNs)
               (cm : coverageMetadataObj),
           msWCSIsLayerSupported layer = true ->
           msWCSGetCoverageMetadata layer = (MS_SUCCESS, cm) ->
           let choice :=
             crs_choice
               (msOWSGetProjURN (layer_projection layer)
                                (msWCSSetDefaultBandsRangeSetInfo params cm layer)
                                "COM" MS_FALSE) server in
           exists cd layer' t,
             msWCSDescribeCoverage_CoverageDescription11
               layer params psRootNode psOwsNs
             = (Some (MS_SUCCESS, Xml.xmlAddChild psRootNode cd, layer'), t)
             /\ supported_crs_of cd = List.map Some (crs_tokens choice)
             /\ (choice = None ->
                 Xml.children_named "SupportedCRS" cd = []
                 /\ In no_srs_diagnostic t)).
Proof.
  intros ext layer lmap P server.
  split; [|split; [|split]].
  - intros urn_of any v H. unfold resolve_supported_crs. now rewrite H.
  - intros N.
    rewrite (resolve_supported_crs_choice msOWSGetProjURN layer lmap P), N.
    fold server. cbn [crs_choice fst snd]. split; [reflexivity|].
    now intros ->.
  - intros map params req psRootNode psContents M choice.
    destruct (CoverageSummary_supported_crs map params req psRootNode
                psContents layer lmap P M) as [summary [t [E [C D]]]].
    exists summary, t. split; [exact E|]. split; [exact C|].
    fold server in D. fold choice in D. intros N. split; [|now apply D].
    unfold supported_crs_of in C. fold server in C. fold choice in C.
    rewrite N in C. now apply map_eq_nil in C.
  - intros params psRootNode psOwsNs cm S M choice.
    destruct (CoverageDescription11_supported_crs layer params psRootNode
                psOwsNs lmap cm P S M) as [cd [layer' [t [E [C D]]]]].
    exists cd, layer', t. split; [exact E|]. split; [exact C|].
    fold server in D. fold choice in D. intros N. split; [|now apply D].
    unfold supported_crs_of in C. fold server in C. fold choice in C.
    rewrite N in C. now apply map_eq_nil in C.
Qed.

Lemma C7_witness :
  exists summary t,
    msWCSGetCapabilities11_CoverageSummary (ext := Sample.world)
      Sample.no_url (Sample.params None) Sample.request
      (new_root "Capabilities" (Sample.params None))
      (Xml.xmlNewNode "Contents") (Sample.layer "a" (Some Sample.no_url))
    = (Some (MS_SUCCESS,
             Xml.xmlAddChild (Xml.xmlNewNode "Contents") summary), t)
    /\ Xml.children_named "SupportedCRS" summary = []
    /\ In no_srs_diagnostic t.
Proof.
  destruct (C7_crs_resolution_falls_back_to_server Sample.world
              (Sample.layer "a" (Some Sample.no_url)) Sample.no_url eq_refl)
    as [_ [_ [S _]]].
  destruct (S Sample.no_url (Sample.params None) Sample.request
              (new_root "Capabilities" (Sample.params None))
              (Xml.xmlNewNode "Contents") eq_refl)
    as [summary [t [E [_ N]]]].
  exists summary, t. split; [exact E|]. apply N. reflexivity.
Defined.

(** ** msWCSReturnCoverage11 *)

Lemma append_cancel (a b c : string) : (a ++ b = a ++ c)%string -> b = c.
Proof.
  induction a as [|x a IH]; cbn [append]; intros H; [exact H|].
  injection H as H. now apply IH.
Qed.

(** C8. A GetCoverage return that reports success has written to stdout,
    in three writes, the envelope, what the encoder wrote, and the text
    --wcs-- with two line feeds.  Up to the last byte of the image this
    is the multipart/mixed response of the claim: the Content-Type line
    with the boundary token wcs, the line --wcs, the manifest part whose
    Reference is cid:coverage/wcs.<ext>, the line --wcs, and the coverage
    part with the MIME type of the output format.  But the closing
    delimiter is written straight after the image, with the line break
    after it instead of before it: the output is never the rendering of
    these two parts, whatever follows, and for an encoder that writes
    II* the last lines are II*--wcs-- and two empty lines, and no line
    is --wcs--. *)
Theorem C8_closing_delimiter_follows_the_image_directly :
  forall (ext : Collaborators) (params : wcsParamsObj) (map : mapObj)
         (image : imageObj),
    fst (msWCSReturnCoverage11 params map image) = Some MS_SUCCESS ->
    let format := outputformat (header map) in
    let extension := MS_IMAGE_EXTENSION format in
    let mime := MS_IMAGE_MIME_TYPE format in
    let bytes := snd (msSaveImage (header map) image) in
    let out := stdout_text (snd (msWCSReturnCoverage11 params map image)) in
    let multipart :=
      Mime.render "wcs" [ manifest_part extension;
                          coverage_part mime extension bytes ] in
    fst (msSaveImage (header map) image) = MS_SUCCESS
    /\ snd (msWCSReturnCoverage11 params map image)
       = [ Ev_printf (coverage_envelope extension mime);
           Ev_msSaveImage bytes;
           Ev_printf ("--wcs--" ++ CStr.LF ++ CStr.LF) ]
    /\ multipart = coverage_envelope extension mime ++ bytes
                   ++ CStr.LF ++ "--wcs--" ++ CStr.LF
    /\ out = coverage_envelope extension mime ++ bytes
             ++ "--wcs--" ++ CStr.LF ++ CStr.LF
    /\ (forall epilogue, out <> multipart ++ epilogue)
    /\ (exists rest,
           out = "Content-Type: multipart/mixed; boundary=wcs" ++ CStr.LF
                 ++ CStr.LF ++ "--wcs" ++ CStr.LF ++ rest)
    /\ (let sample :=
          stdout_text (snd (msWCSReturnCoverage11 (ext := Sample.world)
                              (Sample.params None) Sample.server
                              Sample.image)) in
        ~ In "--wcs--" (lines_of sample)
        /\ exists front,
            lines_of sample
            = (front ++ ["II*--wcs--"; EmptyString; EmptyString])%list).
Proof.
  intros ext params map image H format extension mime bytes out multipart.
  subst out multipart bytes. unfold msWCSReturnCoverage11 in *.
  fold format in H |- *. fold extension in H |- *. fold mime in H |- *.
  destruct (msSaveImage (header map) image) as [status bytes].
  cbn [fst snd].
  destruct (Z.eqb_spec status MS_SUCCESS) as [E|E]; cbn [negb] in *.
  2:{ unfold msWCSException, bind, emit, ret in H. cbn [fst snd] in H.
      discriminate. }
  rewrite !bind_emit. cbn [ret fst snd stdout_text].
  assert (R : Mime.render "wcs" [ manifest_part extension;
                                   coverage_part mime extension bytes ]
              = (coverage_envelope extension mime ++ bytes
                 ++ CStr.LF ++ "--wcs--" ++ CStr.LF)%string).
  { unfold coverage_envelope, Mime.render, Mime.render_part, Mime.render_field,
      manifest_part, coverage_part, manifest_xml, CStr.LF, CStr.DQ.
    cbn [List.map String.concat Mime.fields Mime.body fst snd].
    repeat rewrite append_assoc. cbn [append]. reflexivity. }
  assert (O : (coverage_envelope extension mime
               ++ bytes ++ ("--wcs--" ++ CStr.LF ++ CStr.LF) ++ EmptyString)%string
              = (coverage_envelope extension mime ++ bytes
                 ++ "--wcs--" ++ CStr.LF ++ CStr.LF)%string).
  { now rewrite !append_assoc, append_nil_r. }
  split; [exact E|]. split; [reflexivity|]. split; [exact R|].
  split; [exact O|]. split; [|split].
  - intros epilogue. rewrite O, R. rewrite !append_assoc. intros A.
    apply append_cancel, append_cancel in A. discriminate A.
  - eexists. unfold coverage_envelope. rewrite !append_assoc.
    cbn [append]. reflexivity.
  - cbv zeta. split.
    + vm_compute. intuition discriminate.
    + match goal with
      | |- exists front, lines_of ?t = _ =>
          exists (rev (skipn 3 (rev (lines_of t))))
      end.
      vm_compute. reflexivity.
Qed.

Lemma C8_witness :
  stdout_text (snd (msWCSReturnCoverage11 (ext := Sample.world)
                      (Sample.params None) Sample.server Sample.image))
  = (coverage_envelope "tif" "image/tiff" ++ "II*"
     ++ "--wcs--" ++ CStr.LF ++ CStr.LF)%string
  /\ Mime.render "wcs" [ manifest_part "tif";
                         coverage_part "image/tiff" "tif" "II*" ]
     = (coverage_envelope "tif" "image/tiff" ++ "II*"
        ++ CStr.LF ++ "--wcs--" ++ CStr.LF)%string.
Proof.
  destruct (C8_closing_delimiter_follows_the_image_directly Sample.world
              (Sample.params None) Sample.server Sample.image eq_refl)
    as [_ [_ [R [O _]]]].
  split; [exact O | exact R].
Defined.

(* ================================================================== *)
(** * Further properties *)

(** ** msWCSGetFormatsList11: bounds, origin of the entries, the
    server-wide list *)

Section FormatsMore.

Context {ext : Collaborators}.

Lemma raster_format_names_length (fs : list outputFormatObj) :
  (List.length (raster_format_names fs) <= List.length fs)%nat.
Proof.
  induction fs as [|f fs IH]; cbn [raster_format_names List.length]; [lia|].
  destruct (renderer f); cbn [List.length]; lia.
Qed.

Lemma first_seen_length (l : list string) :
  (List.length (first_seen l) <= List.length l)%nat.
Proof.
  induction l as [|x l IH]; cbn [first_seen List.length]; [lia|].
  pose proof (filter_length_le (fun y => negb (CStr.caseeq x y)) (first_seen l)).
  lia.
Qed.

Lemma resolved_mimes_length (map : mapHeader) (tokens : list string) :
  (List.length (resolved_mimes map tokens) <= List.length tokens)%nat.
Proof.
  induction tokens as [|t tokens IH]; [cbn; lia|].
  change (resolved_mimes map (t :: tokens))
    with ((match mime_of_token map t with Some mime => [mime] | None => [] end)
          ++ resolved_mimes map tokens)%list.
  rewrite length_app. destruct (mime_of_token map t); cbn [List.length]; lia.
Qed.

Lemma In_resolved_mimes (map : mapHeader) (tokens : list string) (m : string) :
  In m (resolved_mimes map tokens)
  <-> exists token, In token tokens /\ mime_of_token map token = Some m.
Proof.
  unfold resolved_mimes. rewrite in_flat_map. split.
  - intros [token [I H]]. exists token. split; [exact I|].
    destruct (mime_of_token map token) as [m'|]; [|destruct H].
    destruct H as [<-|[]]. reflexivity.
  - intros [token [I H]]. exists token. split; [exact I|].
    rewrite H. left. reflexivity.
Qed.

Lemma mime_of_token_format (map : mapHeader) (token m : string) :
  mime_of_token map token = Some m ->
  CStr.nonempty m = true
  /\ exists f, In f (outputformatlist map)
               /\ CStr.caseeq (format_name f) token = true
               /\ mimetype f = Some m.
Proof.
  unfold mime_of_token, lookup_format. intros H.
  destruct (find _ (outputformatlist map)) as [f|] eqn:F; [|discriminate].
  apply find_some in F as [I N].
  destruct (mimetype f) as [[|c s]|] eqn:Mi; try discriminate.
  injection H as <-. split; [reflexivity|].
  exists f. split; [exact I|]. split; [exact N | exact Mi].
Qed.

Lemma first_seen_complete (l : list string) (x : string) :
  In x l -> exists y, In y (first_seen l) /\ CStr.caseeq y x = true.
Proof.
  induction l as [|a l IH]; intros I; [destruct I|].
  cbn [first_seen]. destruct I as [->|I].
  - exists x. split; [left; reflexivity | apply caseeq_refl].
  - destruct (IH I) as [y [Iy Cy]].
    destruct (CStr.caseeq a y) eqn:Cay.
    + exists a. split; [left; reflexivity|].
      now apply caseeq_trans with y.
    + exists y. split; [|exact Cy]. right.
      apply filter_In. split; [exact Iy|]. now rewrite Cay.
Qed.

(** A format found under its own name, when no two configured names are
    equal up to case. *)
Lemma lookup_own_name (fs : list outputFormatObj) (f : outputFormatObj) :
  ci_unique (List.map format_name fs) -> In f fs ->
  find (fun g => CStr.caseeq (format_name g) (format_name f)) fs = Some f.
Proof.
  induction fs as [|g fs IH]; intros U I; [destruct I|].
  cbn [List.map ci_unique] in U. destruct U as [Ug U].
  cbn [find]. destruct I as [->|I].
  - now rewrite caseeq_refl.
  - rewrite Forall_forall in Ug.
    rewrite (Ug (format_name f)); [now apply IH|].
    now apply in_map.
Qed.

Lemma resolved_raster_names (map : mapHeader) (fs : list outputFormatObj) :
  ci_unique (List.map format_name (outputformatlist map)) ->
  incl fs (outputformatlist map) ->
  resolved_mimes map (raster_format_names fs) = raster_mimes fs.
Proof.
  intros U. induction fs as [|f fs IH]; intros I; [reflexivity|].
  assert (If : In f (outputformatlist map)) by (apply I; left; reflexivity).
  assert (I' : incl fs (outputformatlist map))
    by (intros x Hx; apply I; right; exact Hx).
  assert (R : resolved_mimes map (format_name f :: raster_format_names fs)
              = (match mimetype f with
                 | Some (String _ _ as mime) => [mime]
                 | _ => []
                 end ++ raster_mimes fs)%list).
  { change (resolved_mimes map (format_name f :: raster_format_names fs))
      with ((match mime_of_token map (format_name f) with
             | Some mime => [mime] | None => [] end)
            ++ resolved_mimes map (raster_format_names fs))%list.
    rewrite (IH I'). unfold mime_of_token, lookup_format.
    rewrite (lookup_own_name _ f U If).
    destruct (mimetype f) as [[|c s]|]; reflexivity. }
  cbn [raster_format_names raster_mimes flat_map]. unfold raster_capable.
  destruct (renderer f); first [exact R | exact (IH I')].
Qed.

End FormatsMore.

(** X1.  msWCSGetFormatsList11 (lines 75-144) stays inside its two
    arrays: the token array has room for [numoutputformats] names and
    never receives more, and the [formats] array has room for
    [numtokens] MIME types and never receives more, whatever the layer
    and the configuration. *)
Theorem X1_formats_arrays_are_never_overrun :
  forall (ext : Collaborators) (map : mapHeader) (layer : option layerObj),
    (List.length (raster_format_names (outputformatlist map))
     <= List.length (outputformatlist map))%nat
    /\ exists formats,
        fst (msWCSGetFormats11 map layer) = Some formats
        /\ (List.length formats
            <= List.length (format_tokens map layer))%nat.
Proof.
  intros ext map layer. split; [apply raster_format_names_length|].
  unfold msWCSGetFormats11. rewrite formats_loop_start.
  eexists. split; [reflexivity|].
  pose proof (first_seen_length (resolved_mimes map (format_tokens map layer))).
  pose proof (resolved_mimes_length map (format_tokens map layer)).
  lia.
Qed.

(** X2.  Every entry of the formats list (lines 102-144) is the
    non-empty MIME type of a configured output format whose name is, up
    to case, one of the names looked up; and every name that stands for a
    non-empty MIME type is represented in the list by a MIME type equal
    to it up to case.  The list invents nothing and loses nothing but
    case variants. *)
Theorem X2_formats_list_is_sound_and_complete :
  forall (ext : Collaborators) (map : mapHeader) (layer : option layerObj),
  exists formats,
    fst (msWCSGetFormats11 map layer) = Some formats
    /\ Forall (fun m =>
                 CStr.nonempty m = true
                 /\ exists token f,
                     In token (format_tokens map layer)
                     /\ In f (outputformatlist map)
                     /\ CStr.caseeq (format_name f) token = true
                     /\ mimetype f = Some m) formats
    /\ (forall token f c s,
           In token (format_tokens map layer) ->
           lookup_format map token = Some f ->
           mimetype f = Some (String c s) ->
           exists m, In m formats /\ CStr.caseeq m (String c s) = true).
Proof.
  intros ext map layer. unfold msWCSGetFormats11. rewrite formats_loop_start.
  eexists. split; [reflexivity|]. split.
  - apply Forall_forall. intros m I.
    apply first_seen_sound, In_resolved_mimes in I as [token [I H]].
    apply mime_of_token_format in H as [N [f [If [C Mi]]]].
    split; [exact N|]. exists token, f. repeat split; assumption.
  - intros token f c s I L Mi.
    apply first_seen_complete, In_resolved_mimes.
    exists token. split; [exact I|].
    unfold mime_of_token. now rewrite L, Mi.
Qed.

(** X3.  For the whole server (no layer, lines 75-93), when no two
    configured format names are equal up to case, the formats list is
    the MIME types of the formats rendered with GD, AGG or as raw data
    that have a non-empty MIME type, in the order of the configuration,
    each kept the first time it is seen. *)
Theorem X3_server_formats_are_the_raster_mime_types :
  forall (ext : Collaborators) (map : mapHeader),
    ci_unique (List.map format_name (outputformatlist map)) ->
    fst (msWCSGetFormats11 map None)
    = Some (first_seen (raster_mimes (outputformatlist map)))
    /\ fst (msWCSGetFormatsList11 map None)
       = Some (String.concat "," (first_seen (raster_mimes
                                                (outputformatlist map)))).
Proof.
  intros ext map U.
  assert (V : fst (msWCSGetFormats11 map None)
              = Some (first_seen (raster_mimes (outputformatlist map)))).
  { unfold msWCSGetFormats11, format_tokens. rewrite formats_loop_start.
    rewrite (resolved_raster_names map _ U (incl_refl _)). reflexivity. }
  split; [exact V|].
  unfold msWCSGetFormatsList11. rewrite fst_bind, V. cbn [ret fst].
  f_equal. apply join_loop_start.
  apply Forall_forall. intros m I. apply first_seen_sound in I.
  unfold raster_mimes in I. apply in_flat_map in I as [f [_ I]].
  destruct (raster_capable f); [|destruct I].
  destruct (mimetype f) as [[|c s]|]; try destruct I as [<-|[]]; try destruct I.
  reflexivity.
Qed.

Lemma X3_witness :
  fst (msWCSGetFormats11 (ext := Sample.world) Sample.five_formats None)
  = Some (first_seen (raster_mimes (outputformatlist Sample.five_formats)))
  /\ fst (msWCSGetFormatsList11 (ext := Sample.world) Sample.five_formats None)
     = Some (String.concat ","
               (first_seen (raster_mimes
                              (outputformatlist Sample.five_formats)))).
Proof.
  apply (X3_server_formats_are_the_raster_mime_types Sample.world
           Sample.five_formats).
  cbn [Sample.five_formats outputformatlist List.map ci_unique].
  repeat split; repeat constructor.
Defined.

(** X4.  When no configured output format is rendered with GD, AGG or as
    raw data, the server-wide formats list (lines 75-93, 152-166) is the
    empty string, and nothing is logged. *)
Theorem X4_no_raster_format_gives_the_empty_list :
  forall (ext : Collaborators) (map : mapHeader),
    forallb (fun f => negb (raster_capable f)) (outputformatlist map) = true ->
    msWCSGetFormatsList11 map None = (Some EmptyString, []).
Proof.
  intros ext map H.
  assert (E : raster_format_names (outputformatlist map) = []).
  { induction (outputformatlist map) as [|f fs IH]; [reflexivity|].
    cbn [forallb] in H. apply andb_true_iff in H as [Hf Hfs].
    cbn [raster_format_names]. unfold raster_capable in Hf.
    destruct (renderer f); try discriminate; now apply IH. }
  unfold msWCSGetFormatsList11, msWCSGetFormats11, format_tokens.
  rewrite E. reflexivity.
Qed.

Lemma X4_witness :
  msWCSGetFormatsList11 (ext := Sample.world)
    {| outputformatlist := [Sample.pdf];
       outputformat := Sample.pdf;
       map_projection := [];
       web := {| web_metadata := [] |} |} None
  = (Some EmptyString, []).
Proof.
  apply (X4_no_raster_format_gives_the_empty_list Sample.world).
  reflexivity.
Defined.

(** ** msWCSGetCapabilities11: the identifier list, the document, the
    outcome *)

Section CapabilitiesMore.

Context {ext : Collaborators}.

Lemma identifier_list_join (ls : list layerObj) (acc : string) :
  identifier_list_loop ls acc = join_loop (supported_names ls) acc.
Proof.
  revert acc. unfold supported_names.
  induction ls as [|layer rest IH]; intros acc; [reflexivity|].
  cbn [identifier_list_loop filter].
  destruct (msWCSIsLayerSupported layer); cbn [negb List.map join_loop];
    apply IH.
Qed.

Lemma join_loop_drop (fs : list string) :
  join_loop fs EmptyString = String.concat "," (drop_leading_empty fs).
Proof.
  induction fs as [|f fs IH]; [reflexivity|].
  destruct f as [|c f].
  - cbn [join_loop CStr.nonempty append drop_leading_empty]. exact IH.
  - cbn [join_loop CStr.nonempty append drop_leading_empty].
    now apply join_loop_concat.
Qed.

Lemma identifier_list_value (ls : list layerObj) :
  identifier_list_loop ls EmptyString
  = String.concat "," (drop_leading_empty (supported_names ls)).
Proof. rewrite identifier_list_join. apply join_loop_drop. Qed.

(** What a summary that succeeded has added. *)
Lemma CoverageSummary_success (map : mapHeader) (params : wcsParamsObj)
      (req : cgiRequestObj) (psRootNode psContents : xmlNode)
      (layer : layerObj) (node : xmlNode) :
  fst (msWCSGetCapabilities11_CoverageSummary
         map params req psRootNode psContents layer)
  = Some (MS_SUCCESS, node) ->
  fst (msWCSGetCoverageMetadata layer) = MS_SUCCESS
  /\ exists summary,
      node = Xml.xmlAddChild psContents summary
      /\ Xml.named "CoverageSummary" summary = true
      /\ identifier_of summary = Some (layer_name layer).
Proof.
  unfold msWCSGetCapabilities11_CoverageSummary.
  destruct (msWCSGetCoverageMetadata layer) as [status cm]. cbn [fst].
  destruct (status =? MS_SUCCESS) eqn:S; cbn [negb];
    [|intros H; inversion H].
  apply Z.eqb_eq in S.
  destruct (msWCSGetFormatsList11_value map (Some layer)) as [fl F].
  rewrite (bind_value _ _ _ F). cbn [fst]. rewrite fst_bind.
  destruct (fst (resolve_supported_crs msOWSGetProjURN layer)) as [v|];
    [|discriminate].
  cbn [ret fst]. intros H. injection H as <-.
  split; [exact S|]. eexists. split; [reflexivity|]. split.
  - rewrite add_supported_crs_named, add_supported_formats_named.
    rewrite !named_xmlAddChild.
    destruct (msOWSLookupMetadata (layer_metadata layer) "COM" "keywordlist");
      reflexivity.
  - unfold identifier_of.
    erewrite child_add_supported_crs;
      [|apply child_add_supported_formats; rewrite !child_xmlAddChild;
        destruct (msOWSLookupMetadata (layer_metadata layer) "COM"
                                      "keywordlist"); reflexivity].
    reflexivity.
Qed.

Lemma filter_all {A : Type} (f : A -> bool) (l : list A) :
  Forall (fun x => f x = true) l -> filter f l = l.
Proof.
  induction 1 as [|x l Hx _ IH]; [reflexivity|].
  cbn [filter]. now rewrite Hx, IH.
Qed.

(** What a Contents loop that succeeded has added. *)
Lemma contents_loop_success (map : mapHeader) (params : wcsParamsObj)
      (req : cgiRequestObj) (psRootNode : xmlNode) (ls : list layerObj)
      (psMainNode node : xmlNode) :
  fst (contents_loop map params req psRootNode ls psMainNode)
  = Some (MS_SUCCESS, node) ->
  summaries_computable ls
  /\ exists summaries,
      node = Xml.add_children psMainNode summaries
      /\ Forall (fun s => Xml.named "CoverageSummary" s = true) summaries
      /\ List.map identifier_of summaries
         = List.map Some (supported_names ls).
Proof.
  revert psMainNode. unfold summaries_computable, supported_names.
  induction ls as [|layer rest IH]; intros psMainNode.
  - cbn [contents_loop ret fst]. intros H. injection H as <-.
    split; [constructor|]. exists []. repeat split. constructor.
  - cbn [contents_loop filter].
    destruct (msWCSIsLayerSupported layer) eqn:Su; cbn [negb].
    + rewrite fst_bind.
      destruct (fst (msWCSGetCapabilities11_CoverageSummary
                       map params req psRootNode psMainNode layer))
        as [[st node1]|] eqn:CS; [|discriminate].
      cbn [fst snd]. destruct (st =? MS_SUCCESS) eqn:St; cbn [negb];
        [|intros H; inversion H].
      apply Z.eqb_eq in St. subst st.
      apply CoverageSummary_success in CS as [Md [summary [-> [N I]]]].
      intros H. apply IH in H as [C [summaries [-> [Ns Is]]]].
      split; [constructor; [intros _; exact Md | exact C]|].
      exists (summary :: summaries). split; [reflexivity|].
      split; [constructor; assumption|].
      cbn [List.map]. now rewrite I, Is.
    + intros H. apply IH in H as [C [summaries [-> [Ns Is]]]].
      split; [constructor; [intros D; congruence | exact C]|].
      exists summaries. repeat split; assumption.
Qed.

(** The Contents loop when every parent pointer is there and every
    supported layer has its coverage metadata. *)
Lemma contents_loop_computable (map : mapHeader) (params : wcsParamsObj)
      (req : cgiRequestObj) (psRootNode : xmlNode) (ls : list layerObj)
      (psMainNode : xmlNode) :
  parents_set ls -> summaries_computable ls ->
  exists node,
    fst (contents_loop map params req psRootNode ls psMainNode)
    = Some (MS_SUCCESS, node).
Proof.
  unfold parents_set, summaries_computable. revert psMainNode.
  induction ls as [|layer rest IH]; intros psMainNode P C;
    [eexists; reflexivity|].
  inversion P as [|? ? Pl Prest]; inversion C as [|? ? Cl Crest]; subst.
  cbn [contents_loop].
  destruct (msWCSIsLayerSupported layer) eqn:Su; cbn [negb];
    [|now apply IH].
  destruct (layer_map layer) as [lmap|] eqn:L; [|congruence].
  destruct (CoverageSummary_supported_crs map params req psRootNode psMainNode
              layer lmap L (Cl eq_refl)) as [summary [t [E _]]].
  rewrite E, fst_bind. cbn [fst snd MS_SUCCESS Z.eqb negb].
  now apply IH.
Qed.

End CapabilitiesMore.

Lemma frees_app (r : resource) (t1 t2 : list event) :
  frees r (t1 ++ t2) = (frees r t1 + frees r t2)%nat.
Proof. unfold frees. now rewrite filter_app, length_app. Qed.

Lemma logs_frees (r : resource) (t : list event) : logs t -> frees r t = 0%nat.
Proof.
  unfold logs, frees. induction t as [|e t IH]; [reflexivity|].
  cbn [forallb]. rewrite andb_true_iff. intros [He Ht].
  destruct e; try discriminate; cbn [filter]; now apply IH.
Qed.

(** A capabilities call that reports success: what it found on its way
    and what it left behind. *)
Lemma capabilities_success {ext : Collaborators} (map : mapObj)
      (params : wcsParamsObj) (req : cgiRequestObj) :
  fst (msWCSGetCapabilities11 map params req) = Some MS_SUCCESS ->
  exists script_url u fl summaries t,
    msOWSGetOnlineResource (header map) "COM" "onlineresource" req
    = Some script_url
    /\ msEncodeHTMLEntities script_url = Some u
    /\ fst (msWCSGetFormatsList11 (header map) None) = Some fl
    /\ msIO_needBinaryStdout <> MS_FAILURE
    /\ summaries_computable (layers map)
    /\ Forall (fun s => Xml.named "CoverageSummary" s = true) summaries
    /\ List.map identifier_of summaries
       = List.map Some (supported_names (layers map))
    /\ silent t
    /\ (forall res, frees res t = if resource_eqb res R_format_list
                                  then 1%nat else 0%nat)
    /\ snd (msWCSGetCapabilities11 map params req)
       = (Ev_free R_script_url
          :: t ++ capabilities_epilogue
                    (capabilities_root map params u fl summaries))%list.
Proof.
  unfold msWCSGetCapabilities11.
  destruct (msOWSGetOnlineResource _ _ _ _) as [script_url|] eqn:U;
    [|intros H; inversion H].
  destruct (msEncodeHTMLEntities script_url) as [u|] eqn:E;
    [|intros H; inversion H].
  rewrite bind_emit.
  destruct (msWCSGetFormatsList11_value (header map) None) as [fl V].
  rewrite (bind_value _ _ _ V), bind_emit. cbn [fst snd].
  pose proof (msWCSGetFormatsList11_trace (header map) None) as Tf.
  match goal with
  | |- context [contents_loop ?m ?p ?q ?rt ?ls ?mn] =>
      pose proof (contents_loop_trace m p q rt ls mn) as Tc;
      destruct (contents_loop m p q rt ls mn) as [[[st node]|] tc] eqn:CL
  end; cbn [fst snd] in *; [|intros H; inversion H].
  rewrite (bind_value (B := Z) (Some (st, node), tc) _ (st, node) eq_refl).
  cbn [fst snd].
  destruct (st =? MS_SUCCESS) eqn:St; cbn [negb]; [|intros H; inversion H].
  apply Z.eqb_eq in St. subst st.
  apply (f_equal fst) in CL. cbn [fst] in CL.
  apply contents_loop_success in CL as [C [summaries [-> [Ns Is]]]].
  unfold write_document.
  destruct (msIO_needBinaryStdout =? MS_FAILURE) eqn:B;
    [intros H; inversion H|].
  intros _. apply Z.eqb_neq in B.
  exists script_url, u, fl, summaries,
    (snd (msWCSGetFormatsList11 (header map) None)
     ++ [Ev_free R_format_list] ++ tc)%list.
  repeat (split; [first [reflexivity | assumption]|]).
  split.
  { apply silent_app; [now apply diagnostic_silent|].
    apply (silent_app [_]); [reflexivity | now apply diagnostic_silent]. }
  split.
  { intros res.
    rewrite !frees_app, (logs_frees res _ (diagnostic_logs _ Tf)),
      (logs_frees res _ (diagnostic_logs _ Tc)).
    destruct res; reflexivity. }
  cbn [fst snd app]. rewrite <- !app_assoc. reflexivity.
Qed.

(** The capabilities call when every parent pointer is there. *)
Lemma capabilities_computable {ext : Collaborators} (map : mapObj)
      (params : wcsParamsObj) (req : cgiRequestObj) (script_url u : string) :
  parents_set (layers map) -> summaries_computable (layers map) ->
  msOWSGetOnlineResource (header map) "COM" "onlineresource" req
  = Some script_url ->
  msEncodeHTMLEntities script_url = Some u ->
  msIO_needBinaryStdout <> MS_FAILURE ->
  fst (msWCSGetCapabilities11 map params req) = Some MS_SUCCESS.
Proof.
  intros P C U E B. unfold msWCSGetCapabilities11. rewrite U, E.
  rewrite bind_emit. cbn [fst].
  destruct (msWCSGetFormatsList11_value (header map) None) as [fl V].
  rewrite (bind_value _ _ _ V), bind_emit. cbn [fst snd].
  match goal with
  | |- context [contents_loop ?m ?p ?q ?rt ?ls ?mn] =>
      destruct (contents_loop_computable m p q rt ls mn P C) as [node CL]
  end.
  rewrite fst_bind, CL. cbn [fst snd MS_SUCCESS Z.eqb negb].
  unfold write_document. apply Z.eqb_neq in B. rewrite B. reflexivity.
Qed.

(** X5.  The identifier list of the capabilities (lines 310-325) is the
    names of the supported layers, in the order of the map, joined by
    commas; unsupported layers leave no trace in it, and supported
    layers with an empty name that come before every other supported
    layer leave none either, not even a comma. *)
Theorem X5_identifier_list_joins_supported_names :
  forall (ext : Collaborators) (ls : list layerObj),
    identifier_list_loop ls EmptyString
    = String.concat "," (drop_leading_empty (supported_names ls))
    /\ identifier_list_loop ls EmptyString
       = identifier_list_loop (filter msWCSIsLayerSupported ls) EmptyString.
Proof.
  intros ext ls. split; [apply identifier_list_value|].
  rewrite !identifier_list_join. unfold supported_names.
  f_equal. f_equal. symmetry.
  rewrite filter_filter. apply filter_ext. intros l. apply andb_diag.
Qed.

(** X6.  A capabilities document that is written (lines 388-445) lists
    in its Contents one CoverageSummary per supported layer and nothing
    else, in the order of the map, each identified by the layer name;
    and its three operations advertise, as the identifiers of
    DescribeCoverage and GetCoverage, the comma-joined names of these
    very layers, and as the formats of GetCoverage the server-wide
    formats list. *)
Theorem X6_capabilities_list_the_supported_layers :
  forall (ext : Collaborators) (map : mapObj) (params : wcsParamsObj)
         (req : cgiRequestObj),
    fst (msWCSGetCapabilities11 map params req) = Some MS_SUCCESS ->
    exists doc contents u fl,
      written_docs (snd (msWCSGetCapabilities11 map params req)) = [doc]
      /\ Xml.children_named "Contents" (root doc) = [contents]
      /\ Xml.children_of contents
         = Xml.children_named "CoverageSummary" contents
      /\ summarized contents = List.map Some (supported_names (layers map))
      /\ fst (msWCSGetFormatsList11 (header map) None) = Some fl
      /\ (exists script_url,
             msOWSGetOnlineResource (header map) "COM" "onlineresource" req
             = Some script_url
             /\ msEncodeHTMLEntities script_url = Some u)
      /\ let identifiers :=
           String.concat ","
             (drop_leading_empty (supported_names (layers map))) in
         let service_version :=
           [("service", "WCS"); ("version", version params)] in
         operations_of (root doc)
         = [ ("GetCapabilities", u, service_version);
             ("DescribeCoverage", u,
              service_version ++ [("identifiers", identifiers)]);
             ("GetCoverage", u,
              service_version
              ++ [("Identifier", identifiers);
                  ("InterpolationType", "NEAREST_NEIGHBOUR,BILINEAR");
                  ("format", fl);
                  ("store", "false");
                  ("GridBaseCRS", "urn:ogc:def:crs:epsg::4326")]) ]%list.
Proof.
  intros ext map params req H.
  destruct (capabilities_success map params req H)
    as [script_url [u [fl [summaries [t [U [E [V [_ [_ [Ns [Is [T [_ R]]]]]]]]]]]]]].
  rewrite R.
  exists {| xml_version := "1.0";
            root := capabilities_root map params u fl summaries |},
    (Xml.add_children
       (Xml.new_child (new_root "Capabilities" params) None "Contents" None)
       summaries), u, fl.
  assert (Ch : Xml.children_named "CoverageSummary"
                 (Xml.add_children
                    (Xml.new_child (new_root "Capabilities" params) None
                                   "Contents" None) summaries)
               = summaries).
  { rewrite children_named_add_children. cbn [Xml.children_named
      Xml.new_child Xml.children_of filter app]. now apply filter_all. }
  split.
  { change (?e :: (?a ++ ?b)%list) with ((e :: a) ++ b)%list.
    rewrite written_docs_silent_app; [reflexivity|].
    apply (silent_app [_]); [reflexivity | exact T]. }
  split.
  { cbn [root capabilities_root Xml.add_children fold_left].
    unfold Xml.children_named. rewrite !children_of_xmlAddChild.
    rewrite !filter_app.
    destruct (add_children_keeps
                (Xml.new_child (new_root "Capabilities" params) None
                               "Contents" None) summaries)
      as [_ [_ [_ [N _]]]].
    cbn [filter]. rewrite N. reflexivity. }
  split.
  { rewrite Ch.
    destruct (add_children_keeps
                (Xml.new_child (new_root "Capabilities" params) None
                               "Contents" None) summaries)
      as [_ [_ [_ [_ C]]]].
    rewrite C. reflexivity. }
  split; [unfold summarized; rewrite Ch; exact Is|].
  split; [exact V|].
  split; [exists script_url; split; assumption|].
  cbv zeta. rewrite <- identifier_list_value.
  cbn [root capabilities_root Xml.add_children fold_left].
  unfold operations_of. rewrite !children_of_xmlAddChild.
  rewrite !flat_map_app.
  destruct (add_children_keeps
              (Xml.new_child (new_root "Capabilities" params) None
                             "Contents" None) summaries)
    as [_ [_ [_ [N _]]]].
  specialize (N "Contents").
  destruct (Xml.add_children _ summaries) as [nm ns d p c cs|]; [|discriminate].
  reflexivity.
Qed.

Lemma X6_witness :
  exists doc contents u fl,
    written_docs (snd (msWCSGetCapabilities11 (ext := Sample.world)
                         Sample.small_server (Sample.params None)
                         Sample.request)) = [doc]
    /\ Xml.children_named "Contents" (root doc) = [contents]
    /\ summarized contents = [Some "a"; Some "c"]
    /\ operations_of (root doc)
       = [ ("GetCapabilities", u,
            [("service", "WCS"); ("version", "1.1.0")]);
           ("DescribeCoverage", u,
            [("service", "WCS"); ("version", "1.1.0");
             ("identifiers", "a,c")]);
           ("GetCoverage", u,
            [("service", "WCS"); ("version", "1.1.0");
             ("Identifier", "a,c");
             ("InterpolationType", "NEAREST_NEIGHBOUR,BILINEAR");
             ("format", fl);
             ("store", "false");
             ("GridBaseCRS", "urn:ogc:def:crs:epsg::4326")]) ].
Proof.
  destruct (X6_capabilities_list_the_supported_layers Sample.world
              Sample.small_server (Sample.params None) Sample.request
              eq_refl)
    as [doc [contents [u [fl [D [C [_ [S [_ [_ O]]]]]]]]]].
  exists doc, contents, u, fl.
  split; [exact D|]. split; [exact C|]. split; [exact S | exact O].
Defined.

(** X7.  When every layer has its parent pointer, the capabilities call
    (lines 292-475) reports success exactly when the online resource is
    found and encoded, the coverage metadata of every supported layer
    can be computed, and stdout can be made binary; unsupported layers
    never matter. *)
Theorem X7_capabilities_succeed_exactly_when :
  forall (ext : Collaborators) (map : mapObj) (params : wcsParamsObj)
         (req : cgiRequestObj),
    parents_set (layers map) ->
    (fst (msWCSGetCapabilities11 map params req) = Some MS_SUCCESS
     <-> (exists script_url u,
             msOWSGetOnlineResource (header map) "COM" "onlineresource" req
             = Some script_url
             /\ msEncodeHTMLEntities script_url = Some u)
         /\ summaries_computable (layers map)
         /\ msIO_needBinaryStdout <> MS_FAILURE).
Proof.
  intros ext map params req P. split.
  - intros H.
    destruct (capabilities_success map params req H)
      as [script_url [u [fl [summaries [t [U [E [_ [B [C _]]]]]]]]]].
    split; [exists script_url, u; split; assumption|].
    split; assumption.
  - intros [[script_url [u [U E]]] [C B]].
    now apply capabilities_computable with script_url u.
Qed.

Lemma X7_witness :
  fst (msWCSGetCapabilities11 (ext := Sample.world) Sample.small_server
         (Sample.params None) Sample.request) = Some MS_SUCCESS
  <-> (exists script_url u,
          msOWSGetOnlineResource (Collaborators := Sample.world)
            (header Sample.small_server) "COM" "onlineresource" Sample.request
          = Some script_url
          /\ msEncodeHTMLEntities (Collaborators := Sample.world) script_url
             = Some u)
      /\ summaries_computable (ext := Sample.world)
           (layers Sample.small_server)
      /\ msIO_needBinaryStdout (Collaborators := Sample.world) <> MS_FAILURE.
Proof.
  apply (X7_capabilities_succeed_exactly_when Sample.world Sample.small_server
           (Sample.params None) Sample.request).
  repeat constructor; discriminate.
Defined.

(** ** Releases *)

Lemma split_single_coverage_trace (params : wcsParamsObj) :
  snd (split_single_coverage params)
  = if CSL.CSLCount (coverages params) =? 1
    then [Ev_free R_old_coverages] else [].
Proof.
  unfold split_single_coverage.
  destruct (CSL.CSLCount (coverages params) =? 1) eqn:N; [|reflexivity].
  destruct (coverages params) as [[|old0 l]|]; try discriminate. reflexivity.
Qed.

(** The three ways [msWCSDescribeCoverage11] ends. *)
Lemma describe_cases {ext : Collaborators} (map : mapObj)
      (params : wcsParamsObj) :
  let r := msWCSDescribeCoverage11 map params in
  exists t,
    snd r = (snd (split_single_coverage params) ++ t)%list
    /\ ((fst r = Some MS_FAILURE
         /\ (exists cs c,
                normalized_coverages params = Some cs
                /\ first_unresolved map cs = Some c)
         /\ forall res, frees res t = 0%nat)
        \/ (fst r = Some MS_FAILURE
            /\ msIO_needBinaryStdout = MS_FAILURE
            /\ match normalized_coverages params with
               | Some cs => first_unresolved map cs = None
               | None => True
               end
            /\ logs t)
        \/ (fst r = Some MS_SUCCESS
            /\ msIO_needBinaryStdout <> MS_FAILURE
            /\ match normalized_coverages params with
               | Some cs => first_unresolved map cs = None
               | None => True
               end
            /\ exists t0 p cds,
                logs t0 /\ t = (t0 ++ describe_epilogue p cds)%list)).
Proof.
  intros r. subst r. unfold msWCSDescribeCoverage11.
  destruct (normalized_coverages_split params) as [p [Sp [_ [Cp _]]]].
  rewrite (bind_value _ _ _ Sp). cbn [fst snd].
  exists (snd (describe_coverages map p)). split; [reflexivity|].
  destruct (match coverages p with
            | Some cs => first_unresolved map cs
            | None => None
            end) as [c|] eqn:F.
  - left. destruct (coverages p) as [cs|] eqn:Cs; [|discriminate].
    rewrite (describe_coverages_refused map p cs c Cs F). cbn [fst snd].
    split; [reflexivity|].
    split; [exists cs, c; split; [now rewrite <- Cp | exact F]|].
    intros res. destruct res; reflexivity.
  - right.
    assert (W : match coverages p with
                | Some cs => Forall (fun c => msGetLayerIndex map c <> -1) cs
                | None => True
                end).
    { destruct (coverages p) as [cs|]; [|exact I].
      now apply first_unresolved_none. }
    assert (N : match normalized_coverages params with
                | Some cs => first_unresolved map cs = None
                | None => True
                end).
    { rewrite <- Cp. destruct (coverages p); [exact F | exact I]. }
    destruct (describe_coverages_outcome map p W) as [cds [t [E [_ L]]]].
    rewrite E.
    destruct (msIO_needBinaryStdout =? MS_FAILURE) eqn:B; cbn [fst snd].
    + left. apply Z.eqb_eq in B. repeat split; assumption.
    + right. apply Z.eqb_neq in B.
      split; [reflexivity|]. split; [exact B|]. split; [exact N|].
      exists t, p, cds. split; [exact L | reflexivity].
Qed.

(** A capabilities call that does not report success: how far it
    got. *)
Lemma capabilities_failure_trace {ext : Collaborators} (map : mapObj)
      (params : wcsParamsObj) (req : cgiRequestObj) :
  fst (msWCSGetCapabilities11 map params req) <> Some MS_SUCCESS ->
  (encoded_online_resource map req = None
   /\ snd (msWCSGetCapabilities11 map params req)
      = [ Ev_msWCSException (Some (version params)) (Some "NoApplicableCode")
                            (Some "NoApplicableCode") ])
  \/ (encoded_online_resource map req <> None
      /\ exists tf tc,
          logs tf /\ logs tc
          /\ snd (msWCSGetCapabilities11 map params req)
             = (Ev_free R_script_url
                :: tf ++ Ev_free R_format_list :: tc)%list).
Proof.
  unfold msWCSGetCapabilities11, encoded_online_resource.
  destruct (msOWSGetOnlineResource _ _ _ _) as [script_url|];
    [|intros _; left; split; reflexivity].
  destruct (msEncodeHTMLEntities script_url) as [u|];
    [|intros _; left; split; reflexivity].
  rewrite bind_emit.
  destruct (msWCSGetFormatsList11_value (header map) None) as [fl V].
  rewrite (bind_value _ _ _ V), bind_emit. cbn [fst snd].
  pose proof (msWCSGetFormatsList11_trace (header map) None) as Tf.
  match goal with
  | |- context [contents_loop ?m ?p ?q ?rt ?ls ?mn] =>
      pose proof (contents_loop_trace m p q rt ls mn) as Tc;
      destruct (contents_loop m p q rt ls mn) as [[[st node]|] tc]
  end; cbn [fst snd] in *.
  - rewrite (bind_value (B := Z) (Some (st, node), tc) _ (st, node) eq_refl).
    cbn [fst snd]. unfold write_document.
    destruct (negb (st =? MS_SUCCESS));
      [|destruct (msIO_needBinaryStdout =? MS_FAILURE);
        [|intros G; cbn [fst bind emit ret snd] in G; congruence]];
      intros _; right; (split; [discriminate|]);
      exists (snd (msWCSGetFormatsList11 (header map) None)), tc;
      (split; [now apply diagnostic_logs|]);
      (split; [now apply diagnostic_logs|]);
      cbn [ret snd]; now rewrite app_nil_r.
  - rewrite (bind_crash (B := Z) (None, tc) _ eq_refl). cbn [fst snd].
    intros _. right. split; [discriminate|].
    exists (snd (msWCSGetFormatsList11 (header map) None)), tc.
    split; [now apply diagnostic_logs|].
    split; [now apply diagnostic_logs | reflexivity].
Qed.

(** X8.  Of the heap objects that the two builders own themselves (the
    parameters and their members, the old coverage list, the script URL
    and its encoded form, the identifier list, the formats list of
    line 407, the document and its dump buffer) none is released twice.
    A capabilities call that reports success has released each of its
    objects once.  One that does not has released the script URL and
    the formats list, once each, when the online resource was found and
    encoded, and nothing else: the document, the encoded URL and the
    identifier list it had built stay allocated.  A describe call has
    released the old coverage list exactly when it held a single item,
    and the document, its buffer and the parameters exactly when it
    reports success.  What the helpers allocate and release within one
    call is not counted. *)
Theorem X8_nothing_is_released_twice :
  (forall (ext : Collaborators) (map : mapObj) (params : wcsParamsObj)
          (req : cgiRequestObj),
      let r := msWCSGetCapabilities11 map params req in
      (fst r = Some MS_SUCCESS
       /\ forall res, frees res (snd r)
                      = if resource_eqb res R_old_coverages
                        then 0%nat else 1%nat)
      \/ (fst r <> Some MS_SUCCESS
          /\ forall res,
              frees res (snd r)
              = if orb (resource_eqb res R_script_url)
                       (resource_eqb res R_format_list)
                then match encoded_online_resource map req with
                     | Some _ => 1%nat
                     | None => 0%nat
                     end
                else 0%nat))
  /\ (forall (ext : Collaborators) (map : mapObj) (params : wcsParamsObj),
         let r := msWCSDescribeCoverage11 map params in
         (fst r = Some MS_SUCCESS
          /\ forall res,
              frees res (snd r)
              = match res with
                | R_old_coverages => single_item params
                | R_params_members | R_params | R_buffer | R_doc => 1%nat
                | _ => 0%nat
                end)
         \/ (fst r <> Some MS_SUCCESS
             /\ forall res,
                 frees res (snd r)
                 = match res with
                   | R_old_coverages => single_item params
                   | _ => 0%nat
                   end)).
Proof.
  split.
  - intros ext map params req r. subst r.
    assert (D : fst (msWCSGetCapabilities11 map params req) = Some MS_SUCCESS
                \/ fst (msWCSGetCapabilities11 map params req)
                   <> Some MS_SUCCESS).
    { destruct (fst (msWCSGetCapabilities11 map params req)) as [st|];
        [|right; discriminate].
      destruct (Z.eq_dec st MS_SUCCESS) as [->|Ne];
        [left; reflexivity | right; congruence]. }
    destruct D as [F|F].
    + left. split; [exact F|]. intros res.
      destruct (capabilities_success map params req F)
        as [script_url [u [fl [summaries [t [_ [_ [_ [_ [_ [_ [_ [_ [Fr R]]]]]]]]]]]]]].
      rewrite R.
      change (?e :: (?a ++ ?b)%list) with ([e] ++ (a ++ b))%list.
      rewrite !frees_app, Fr. destruct res; reflexivity.
    + right. split; [exact F|]. intros res.
      destruct (capabilities_failure_trace map params req F)
        as [[N T] | [N [tf [tc [Lf [Lc T]]]]]]; rewrite T.
      * rewrite N. destruct res; reflexivity.
      * destruct (encoded_online_resource map req); [|congruence].
        change (?e :: (?a ++ ?f :: ?b)%list)
          with ([e] ++ (a ++ ([f] ++ b)))%list.
        rewrite !frees_app, (logs_frees res tf Lf), (logs_frees res tc Lc).
        destruct res; reflexivity.
  - intros ext map params r. subst r.
    destruct (describe_cases map params) as [t [S Cases]].
    rewrite S. unfold single_item. rewrite split_single_coverage_trace.
    destruct Cases as [[F [_ Z0]] | [[F [_ [_ L]]] | [F [_ [_ E]]]]].
    + right. split; [rewrite F; discriminate|]. intros res.
      rewrite frees_app, Z0.
      destruct (CSL.CSLCount (coverages params) =? 1); destruct res;
        reflexivity.
    + right. split; [rewrite F; discriminate|]. intros res.
      rewrite frees_app, (logs_frees res t L).
      destruct (CSL.CSLCount (coverages params) =? 1); destruct res;
        reflexivity.
    + left. split; [exact F|]. intros res.
      destruct E as [t0 [p [cds [L ->]]]].
      rewrite !frees_app, (logs_frees res t0 L).
      destruct (CSL.CSLCount (coverages params) =? 1); destruct res;
        reflexivity.
Qed.

(** X9.  The describe call (lines 723-827) never dereferences a missing
    parent pointer and never indexes the layers out of range: it always
    returns.  It reports success exactly when every coverage name of the
    normalized list is the name of a layer and stdout can be made
    binary; whether the layers are supported, have a parent pointer or
    have coverage metadata does not matter. *)
Theorem X9_describe_always_returns_and_succeeds_exactly_when :
  forall (ext : Collaborators) (map : mapObj) (params : wcsParamsObj),
    let r := msWCSDescribeCoverage11 map params in
    (fst r = Some MS_SUCCESS \/ fst r = Some MS_FAILURE)
    /\ (fst r = Some MS_SUCCESS
        <-> match normalized_coverages params with
            | Some cs => Forall (fun c => msGetLayerIndex map c <> -1) cs
            | None => True
            end
            /\ msIO_needBinaryStdout <> MS_FAILURE).
Proof.
  intros ext map params r. subst r.
  destruct (describe_cases map params) as [t [_ Cases]].
  destruct Cases as [[F [[cs [c [N U]]] _]] | [[F [B [N _]]] | [F [B [N _]]]]].
  - split; [right; exact F|]. rewrite F, N. split; [discriminate|].
    intros [W _]. apply first_unresolved_none in W. congruence.
  - split; [right; exact F|]. rewrite F. split; [discriminate|].
    intros [_ B']. contradiction.
  - split; [left; exact F|]. split; [|intros _; exact F].
    intros _. split; [|exact B].
    destruct (normalized_coverages params) as [cs|]; [|exact I].
    now apply first_unresolved_none.
Qed.

(** ** msWCSReturnCoverage11 when the encoder fails *)

(** X10.  The coverage response (lines 839-883) commits its multipart
    envelope before the image is encoded.  When the encoder fails, the
    envelope and whatever the encoder wrote are already on stdout, the
    exception reporter is called with the version of the request and
    neither code nor locator, the closing boundary line is not written,
    and the call reports failure. *)
Theorem X10_encoder_failure_leaves_an_open_multipart :
  forall (ext : Collaborators) (params : wcsParamsObj) (map : mapObj)
         (image : imageObj),
    fst (msSaveImage (header map) image) <> MS_SUCCESS ->
    let format := outputformat (header map) in
    let envelope :=
      coverage_envelope (MS_IMAGE_EXTENSION format)
                        (MS_IMAGE_MIME_TYPE format) in
    let bytes := snd (msSaveImage (header map) image) in
    let r := msWCSReturnCoverage11 params map image in
    fst r = Some MS_FAILURE
    /\ snd r = [ Ev_printf envelope; Ev_msSaveImage bytes;
                 Ev_msWCSException (Some (version params)) None None ]
    /\ stdout_text (snd r) = envelope ++ bytes
    /\ ~ In (Ev_printf ("--wcs--" ++ CStr.LF ++ CStr.LF)) (snd r).
Proof.
  intros ext params map image H format envelope bytes r.
  subst format envelope bytes r. unfold msWCSReturnCoverage11.
  destruct (msSaveImage (header map) image) as [status bytes].
  cbn [fst snd] in *. apply Z.eqb_neq in H. rewrite H.
  cbn [negb]. rewrite !bind_emit. cbn [fst snd].
  unfold msWCSException. rewrite bind_emit. cbn [fst snd ret stdout_text].
  rewrite append_nil_r.
  repeat split.
  intros [I|[I|[I|[]]]]; discriminate I.
Qed.

Lemma X10_witness :
  fst (msWCSReturnCoverage11 (ext := failing_encoder) (Sample.params None)
         Sample.server Sample.image) = Some MS_FAILURE
  /\ stdout_text (snd (msWCSReturnCoverage11 (ext := failing_encoder)
                         (Sample.params None) Sample.server Sample.image))
     = (coverage_envelope "tif" "image/tiff" ++ "II")%string.
Proof.
  destruct (X10_encoder_failure_leaves_an_open_multipart failing_encoder
              (Sample.params None) Sample.server Sample.image)
    as [F [_ [T _]]].
  - discriminate.
  - split; [exact F | exact T].
Defined.

(** ** The coverage list after the split of a single item *)

Section TokenizerMore.

Variable delims : string.

Lemma tokens_from_only_delimiters (s : string) :
  only_of delims s = true ->
  CSL.tokens_from delims false false false [] s = [].
Proof.
  induction s as [|c s IH]; [reflexivity|].
  cbn [only_of]. rewrite andb_true_iff. intros [C A].
  cbn [CSL.tokens_from negb andb]. rewrite C.
  destruct s; [reflexivity | now apply IH].
Qed.

Lemma free_of_string_of_list (l : list ascii) :
  CStr.free_of delims (string_of_list_ascii l)
  = forallb (fun c => negb (CStr.strchr delims c)) l.
Proof.
  induction l as [|c l IH]; [reflexivity|].
  cbn [string_of_list_ascii CStr.free_of forallb]. now rewrite IH.
Qed.

Lemma gathered_token_clean (c : ascii) (tok : list ascii) :
  forallb (fun c => negb (CStr.strchr delims c)) (c :: tok) = true ->
  CStr.nonempty (string_of_list_ascii (rev (c :: tok))) = true
  /\ CStr.free_of delims (string_of_list_ascii (rev (c :: tok))) = true.
Proof.
  intros H. split.
  - cbn [rev]. destruct (rev tok); reflexivity.
  - rewrite free_of_string_of_list. apply forallb_forall. intros x I.
    apply in_rev in I. rewrite forallb_forall in H. now apply H.
Qed.

(** Every token is gathered from characters that are no delimiters, and
    is added only when it is not empty. *)
Lemma tokens_from_clean (s : string) (tok : list ascii) :
  forallb (fun c => negb (CStr.strchr delims c)) tok = true ->
  Forall (fun t => CStr.nonempty t = true /\ CStr.free_of delims t = true)
         (CSL.tokens_from delims false false false tok s).
Proof.
  revert tok. induction s as [|c s IH]; intros tok H.
  - cbn [CSL.tokens_from]. destruct tok as [|x tok]; [constructor|].
    constructor; [now apply gathered_token_clean | constructor].
  - cbn [CSL.tokens_from negb andb].
    destruct (CStr.strchr delims c) eqn:D.
    + assert (R : Forall (fun t => CStr.nonempty t = true
                                   /\ CStr.free_of delims t = true)
                    match s with
                    | EmptyString => []
                    | String _ _ =>
                        CSL.tokens_from delims false false false [] s
                    end).
      { destruct s; [constructor | now apply IH]. }
      destruct tok as [|x tok]; [exact R|].
      constructor; [now apply gathered_token_clean | exact R].
    + assert (H' : forallb (fun c => negb (CStr.strchr delims c)) (c :: tok)
                   = true) by (cbn [forallb]; now rewrite D, H).
      destruct s; now apply IH.
Qed.

End TokenizerMore.

(** X11.  A single coverage item made of commas only, the empty text
    among them (lines 736-742), is replaced by an empty list that is
    not NULL: the describe call then describes no layer at all and,
    when stdout can be made binary, still writes a document and reports
    success, whatever layers the map has.  It is not taken for a
    request without coverage list, which describes all layers. *)
Theorem X11_empty_coverage_item_describes_nothing :
  forall (ext : Collaborators) (map : mapObj) (v s : string),
    only_of "," s = true ->
    msIO_needBinaryStdout <> MS_FAILURE ->
    let params := {| version := v; coverages := Some [s] |} in
    normalized_coverages params = Some []
    /\ fst (msWCSDescribeCoverage11 map params) = Some MS_SUCCESS
    /\ written_docs (snd (msWCSDescribeCoverage11 map params))
       = [ {| xml_version := "1.0";
              root := new_root "CoverageDescriptions" params |} ].
Proof.
  intros ext map v s O B params. subst params.
  assert (T : CSL.CSLTokenizeStringComplex s "," false false = Some []).
  { unfold CSL.CSLTokenizeStringComplex. destruct s as [|c s]; [reflexivity|].
    now rewrite tokens_from_only_delimiters. }
  apply Z.eqb_neq in B.
  unfold normalized_coverages, msWCSDescribeCoverage11, split_single_coverage.
  cbn [coverages CSL.CSLCount List.length Z.of_nat Pos.of_succ_nat Z.eqb
       Pos.eqb version].
  rewrite T, !bind_emit. cbn [fst snd ret].
  unfold bind, describe_coverages, write_document, emit, ret.
  cbn [fst snd coverages first_unresolved describe_requested].
  rewrite B. cbn [fst snd app written_docs flat_map].
  repeat split.
Qed.

Lemma X11_witness :
  normalized_coverages (Sample.params (Some [",,"])) = Some []
  /\ fst (msWCSDescribeCoverage11 (ext := Sample.world) Sample.server
            (Sample.params (Some [",,"]))) = Some MS_SUCCESS
  /\ written_docs (snd (msWCSDescribeCoverage11 (ext := Sample.world)
                          Sample.server (Sample.params (Some [",,"]))))
     = [ {| xml_version := "1.0";
            root := new_root "CoverageDescriptions"
                             (Sample.params (Some [",,"])) |} ].
Proof.
  apply (X11_empty_coverage_item_describes_nothing Sample.world Sample.server
           "1.1.0" ",,").
  - reflexivity.
  - discriminate.
Defined.

(** X12.  After the split of a single item (lines 736-742) every
    coverage name is non-empty and holds no comma, and splitting again
    would change nothing: the normalized list is its own
    normalization. *)
Theorem X12_split_names_are_clean_and_stable :
  forall (v item : string),
  exists cs,
    normalized_coverages {| version := v; coverages := Some [item] |}
    = Some cs
    /\ Forall (fun c => CStr.nonempty c = true
                        /\ CStr.free_of "," c = true) cs
    /\ normalized_coverages {| version := v; coverages := Some cs |}
       = Some cs.
Proof.
  intros v item.
  exists (match item with
          | EmptyString => []
          | String _ _ => CSL.tokens_from "," false false false [] item
          end).
  assert (C : Forall (fun c => CStr.nonempty c = true
                               /\ CStr.free_of "," c = true)
                match item with
                | EmptyString => []
                | String _ _ => CSL.tokens_from "," false false false [] item
                end).
  { destruct item; [constructor | now apply tokens_from_clean]. }
  split; [destruct item; reflexivity|]. split; [exact C|].
  destruct (match item with
            | EmptyString => []
            | String _ _ => CSL.tokens_from "," false false false [] item
            end) as [|t [|t' l]]; [reflexivity | | ].
  - inversion C as [|? ? [N F] _]; subst.
    unfold normalized_coverages, split_single_coverage.
    cbn [coverages CSL.CSLCount List.length Z.of_nat Pos.of_succ_nat Z.eqb
         Pos.eqb version].
    rewrite bind_emit. cbn [fst ret coverages].
    unfold CSL.CSLTokenizeStringComplex.
    destruct t as [|x t]; [discriminate|].
    now rewrite tokens_from_last.
  - unfold normalized_coverages, split_single_coverage.
    cbn [coverages CSL.CSLCount List.length].
    destruct (Z.eqb_spec (Z.of_nat (S (S (List.length l)))) 1) as [E|_];
      [lia | reflexivity].
Qed.

(** ** msWCSDescribeCoverage11: which layers are described *)

Section DescribeMore.

Context {ext : Collaborators}.

(** What one description does to the root and to the layer. *)
Lemma CoverageDescription11_exact (layer : layerObj) (params : wcsParamsObj)
      (psRootNode : xmlNode) (psOwsNs : xmlNs) :
  exists st root' layer' t,
    msWCSDescribeCoverage_CoverageDescription11 layer params psRootNode psOwsNs
    = (Some (st, root', layer'), t)
    /\ layer_name layer' = layer_name layer
    /\ (if describable layer
        then exists cd, root' = Xml.xmlAddChild psRootNode cd
                        /\ Xml.named "CoverageDescription" cd = true
                        /\ identifier_of cd = Some (layer_name layer)
        else root' = psRootNode /\ layer' = layer)
    /\ logs t.
Proof.
  unfold msWCSDescribeCoverage_CoverageDescription11, describable.
  destruct (layer_map layer) as [lmap|] eqn:P.
  2:{ do 4 eexists. split; [reflexivity|]. repeat split; auto. }
  cbn [msCheckParentPointer]. rewrite bind_ret.
  cbn [Z.eqb MS_SUCCESS MS_FAILURE].
  destruct (msWCSIsLayerSupported layer).
  2:{ do 4 eexists. split; [reflexivity|]. repeat split; auto. }
  cbn [negb andb].
  destruct (msWCSGetCoverageMetadata layer) as [status cm]. cbn [fst].
  unfold MS_SUCCESS. destruct (status =? 0) eqn:St; cbn [negb].
  2:{ do 4 eexists. split; [reflexivity|]. repeat split; auto. }
  set (layer1 := with_metadata layer _).
  assert (P1 : layer_map layer1 = Some lmap) by exact P.
  destruct (resolve_supported_crs_value msOWSGetProjURN layer1) as [v V];
    [congruence|].
  pose proof (resolve_supported_crs_trace msOWSGetProjURN layer1) as Tv.
  rewrite (bind_value _ _ _ V). rewrite P1.
  destruct (msWCSGetFormatsList11_value lmap (Some layer1)) as [fl F].
  pose proof (msWCSGetFormatsList11_trace lmap (Some layer1)) as Tf.
  rewrite (bind_value _ _ _ F). cbn [ret fst snd].
  do 4 eexists. split; [reflexivity|]. split; [reflexivity|]. split.
  - eexists. split; [reflexivity|]. split.
    + rewrite add_supported_formats_named, add_supported_crs_named.
      rewrite !named_xmlAddChild.
      destruct (msOWSLookupMetadata (layer_metadata layer1) "COM"
                                    "keywordlist");
        rewrite ?named_xmlAddChild; reflexivity.
    + unfold identifier_of.
      erewrite child_add_supported_formats;
        [|apply child_add_supported_crs; rewrite !child_xmlAddChild;
          destruct (msOWSLookupMetadata (layer_metadata layer1) "COM"
                                        "keywordlist");
          rewrite ?child_xmlAddChild; reflexivity].
      reflexivity.
  - rewrite app_nil_r. apply logs_app; now apply diagnostic_logs.
Qed.

Lemma described_xmlAddChild (psRootNode cd : xmlNode) :
  Xml.named "CoverageDescription" cd = true ->
  described (Xml.xmlAddChild psRootNode cd)
  = (described psRootNode ++ [identifier_of cd])%list.
Proof.
  intros N. unfold described. rewrite children_named_xmlAddChild.
  cbn [filter]. rewrite N, map_app. reflexivity.
Qed.

(** One turn of either loop. *)
Lemma describe_layer_exact (map : mapObj) (params : wcsParamsObj)
      (psOwsNs : xmlNs) (i : Z) (psRootNode : xmlNode) (layer : layerObj) :
  GET_LAYER map i = Some layer ->
  exists layer' root' t,
    describe_layer map params psOwsNs i psRootNode
    = (Some (set_layer map i layer', root'), t)
    /\ layer_name layer' = layer_name layer
    /\ described root'
       = (described psRootNode
          ++ if describable layer then [Some (layer_name layer)] else [])%list
    /\ logs t.
Proof.
  intros G. unfold describe_layer. rewrite G.
  destruct (CoverageDescription11_exact layer params psRootNode psOwsNs)
    as [st [root' [layer' [t [E [N [D L]]]]]]].
  rewrite E. unfold bind. cbn [fst snd ret].
  exists layer', root', (t ++ [])%list. split; [reflexivity|].
  split; [exact N|]. split; [|now rewrite app_nil_r].
  destruct (describable layer).
  - destruct D as [cd [-> [Nc I]]]. rewrite described_xmlAddChild by exact Nc.
    now rewrite I.
  - destruct D as [-> _]. now rewrite app_nil_r.
Qed.

Lemma set_layer_between (map : mapObj) (pre suf : list layerObj)
      (layer layer' : layerObj) :
  layers map = (pre ++ layer :: suf)%list ->
  GET_LAYER map (Z.of_nat (List.length pre)) = Some layer
  /\ layers (set_layer map (Z.of_nat (List.length pre)) layer')
     = ((pre ++ [layer']) ++ suf)%list.
Proof.
  intros E. unfold GET_LAYER, set_layer. cbn [layers].
  destruct (Z.ltb_spec (Z.of_nat (List.length pre)) 0) as [H|_]; [lia|].
  rewrite Nat2Z.id, E. clear E. split.
  - induction pre as [|p pre IH]; [reflexivity | exact IH].
  - induction pre as [|p pre IH]; [reflexivity|].
    cbn [List.length firstn skipn app] in *. now rewrite IH.
Qed.

(** All layers, each visited once. *)
Lemma describe_all_exact (suf pre : list layerObj) (map : mapObj)
      (params : wcsParamsObj) (psOwsNs : xmlNs) (psRootNode : xmlNode) :
  layers map = (pre ++ suf)%list ->
  exists map' root' t,
    describe_all (List.length suf) (Z.of_nat (List.length pre)) map params
                 psOwsNs psRootNode
    = (Some (map', root'), t)
    /\ described root'
       = (described psRootNode
          ++ List.map Some (List.map layer_name (filter describable suf)))%list
    /\ logs t.
Proof.
  revert pre map psRootNode.
  induction suf as [|layer suf IH]; intros pre map psRootNode E.
  - exists map, psRootNode, []. cbn [filter List.map]. rewrite app_nil_r.
    repeat split.
  - cbn [List.length describe_all].
    destruct (set_layer_between map pre suf layer layer E) as [G _].
    destruct (describe_layer_exact map params psOwsNs _ psRootNode layer G)
      as [layer' [root1 [t1 [E1 [_ [D1 L1]]]]]].
    rewrite E1. unfold bind at 1. cbn [fst snd].
    destruct (set_layer_between map pre suf layer layer' E) as [_ E'].
    destruct (IH (pre ++ [layer'])%list _ root1 E')
      as [map2 [root2 [t2 [E2 [D2 L2]]]]].
    rewrite length_app in E2. cbn [List.length] in E2.
    replace (Z.of_nat (List.length pre + 1)) with (Z.of_nat (List.length pre) + 1)
      in E2 by lia.
    rewrite E2. cbn [fst snd].
    exists map2, root2, (t1 ++ t2)%list. split; [reflexivity|].
    split; [|now apply logs_app].
    rewrite D2, D1, <- app_assoc. f_equal.
    cbn [filter]. destruct (describable layer); reflexivity.
Qed.

Lemma nth_error_other {A : Type} (pre suf : list A) (x y : A) (m : nat) :
  m <> List.length pre ->
  nth_error (pre ++ x :: suf) m = nth_error (pre ++ y :: suf) m.
Proof.
  revert m. induction pre as [|p pre IH]; intros m H.
  - destruct m; [contradiction | reflexivity].
  - destruct m; [reflexivity|]. cbn [app nth_error]. apply IH.
    cbn [List.length] in H. lia.
Qed.

Lemma GET_LAYER_set_layer_other (map : mapObj) (i j : Z)
      (layer layer' : layerObj) :
  GET_LAYER map i = Some layer -> j <> i ->
  GET_LAYER (set_layer map i layer') j = GET_LAYER map j.
Proof.
  unfold GET_LAYER, set_layer. cbn [layers].
  destruct (Z.ltb_spec i 0) as [|Hi]; [discriminate|].
  destruct (Z.ltb_spec j 0) as [|Hj]; [reflexivity|].
  intros G Ne.
  assert (Len : List.length (firstn (Z.to_nat i) (layers map)) = Z.to_nat i).
  { apply firstn_length_le. apply Nat.lt_le_incl, nth_error_Some.
    congruence. }
  rewrite <- (nth_error_firstn_skipn (layers map) (Z.to_nat i) layer G) at 3.
  apply nth_error_other. rewrite Len. lia.
Qed.

Lemma describable_name_set_layer (map : mapObj) (i : Z)
      (layer layer' : layerObj) (c : string) :
  GET_LAYER map i = Some layer -> layer_name layer' = layer_name layer ->
  msGetLayerIndex map c <> i ->
  describable_name (set_layer map i layer') c = describable_name map c.
Proof.
  intros G N Ne. unfold describable_name.
  rewrite (msGetLayerIndex_names (set_layer map i layer') map c)
    by (now apply set_layer_names with layer).
  now rewrite (GET_LAYER_set_layer_other map i _ layer layer' G Ne).
Qed.

(** The requested coverages, when no name comes twice. *)
Lemma describe_requested_exact (cs : list string) (map : mapObj)
      (params : wcsParamsObj) (psOwsNs : xmlNs) (psRootNode : xmlNode) :
  NoDup cs -> Forall (fun c => msGetLayerIndex map c <> -1) cs ->
  exists map' root' t,
    describe_requested map params psOwsNs cs psRootNode
    = (Some (map', root'), t)
    /\ described root'
       = (described psRootNode
          ++ List.map Some (filter (describable_name map) cs))%list
    /\ logs t.
Proof.
  revert map psRootNode.
  induction cs as [|c cs IH]; intros map psRootNode U W.
  - exists map, psRootNode, []. cbn [filter List.map]. rewrite app_nil_r.
    repeat split.
  - inversion U as [|? ? Uc Ucs]; inversion W as [|? ? Wc Wcs]; subst.
    destruct (msGetLayerIndex_found map c Wc) as [layer [G Nm]].
    destruct (describe_layer_exact map params psOwsNs _ psRootNode layer G)
      as [layer' [root1 [t1 [E1 [N1 [D1 L1]]]]]].
    cbn [describe_requested]. rewrite E1. unfold bind at 1. cbn [fst snd].
    set (map1 := set_layer map (msGetLayerIndex map c) layer') in *.
    assert (Names : layer_names map1 = layer_names map)
      by (now apply set_layer_names with layer).
    assert (W1 : Forall (fun x => msGetLayerIndex map1 x <> -1) cs).
    { apply Forall_forall. intros x Ix.
      rewrite (msGetLayerIndex_names map1 map x Names).
      rewrite Forall_forall in Wcs. now apply Wcs. }
    destruct (IH map1 root1 Ucs W1) as [map2 [root2 [t2 [E2 [D2 L2]]]]].
    rewrite E2. cbn [fst snd].
    exists map2, root2, (t1 ++ t2)%list. split; [reflexivity|].
    split; [|now apply logs_app].
    rewrite D2, D1, <- app_assoc. f_equal.
    assert (Same : filter (describable_name map1) cs
                   = filter (describable_name map) cs).
    { apply filter_ext_in. intros x Ix.
      apply describable_name_set_layer with layer; [exact G | exact N1 |].
      intros Eq. rewrite Forall_forall in Wcs.
      destruct (msGetLayerIndex_found map x (Wcs x Ix)) as [lx [Gx Nx]].
      rewrite Eq, G in Gx. injection Gx as <-.
      apply Uc. congruence. }
    rewrite Same. cbn [filter]. unfold describable_name at 2. rewrite G, Nm.
    destruct (describable layer); reflexivity.
Qed.

(** The document of a call whose coverage names are all layers. *)
Lemma describe_coverages_document (map : mapObj) (p : wcsParamsObj)
      (map' : mapObj) (root' : xmlNode) (t : list event) :
  match coverages p with
  | Some cs => first_unresolved map cs
  | None => None
  end = None ->
  match coverages p with
  | Some cs =>
      describe_requested map p ows_namespace cs
                         (new_root "CoverageDescriptions" p)
  | None =>
      describe_all (numlayers map) 0 map p ows_namespace
                   (new_root "CoverageDescriptions" p)
  end = (Some (map', root'), t) ->
  logs t -> msIO_needBinaryStdout <> MS_FAILURE ->
  fst (describe_coverages map p) = Some MS_SUCCESS
  /\ written_docs (snd (describe_coverages map p))
     = [ {| xml_version := "1.0"; root := root' |} ].
Proof.
  intros F E L B. unfold describe_coverages. rewrite F, E.
  apply Z.eqb_neq in B. unfold write_document. rewrite B.
  unfold bind, emit, ret. cbn [fst snd].
  split; [reflexivity|].
  rewrite written_docs_silent_app by (now apply logs_silent). reflexivity.
Qed.

End DescribeMore.

(** X13.  Without a coverage list, the describe call (lines 791-794)
    visits every layer once, in the order of the map: the document it
    writes holds one CoverageDescription for each layer that has its
    parent pointer, is supported and has coverage metadata, identified
    by the layer name, and none for any other layer. *)
Theorem X13_describe_all_describes_the_describable_layers :
  forall (ext : Collaborators) (map : mapObj) (params : wcsParamsObj),
    coverages params = None ->
    msIO_needBinaryStdout <> MS_FAILURE ->
    fst (msWCSDescribeCoverage11 map params) = Some MS_SUCCESS
    /\ exists doc,
        written_docs (snd (msWCSDescribeCoverage11 map params)) = [doc]
        /\ described (root doc)
           = List.map Some
               (List.map layer_name (filter describable (layers map))).
Proof.
  intros ext map params N B.
  unfold msWCSDescribeCoverage11, split_single_coverage.
  rewrite N. cbn [CSL.CSLCount Z.eqb]. rewrite bind_ret.
  destruct (describe_all_exact (layers map) [] map params ows_namespace
              (new_root "CoverageDescriptions" params) eq_refl)
    as [map' [root' [t [E [D L]]]]].
  destruct (describe_coverages_document map params map' root' t) as [F W];
    try assumption; try (now rewrite N).
  split; [exact F|]. eexists. split; [exact W|]. exact D.
Qed.

Lemma X13_witness :
  fst (msWCSDescribeCoverage11 (ext := Sample.world) Sample.orphan_server
         (Sample.params None)) = Some MS_SUCCESS
  /\ exists doc,
      written_docs (snd (msWCSDescribeCoverage11 (ext := Sample.world)
                           Sample.orphan_server (Sample.params None)))
      = [doc]
      /\ described (root doc)
         = List.map Some
             (List.map layer_name
                (filter (describable (ext := Sample.world))
                        (layers Sample.orphan_server))).
Proof.
  apply (X13_describe_all_describes_the_describable_layers Sample.world
           Sample.orphan_server (Sample.params None)).
  - reflexivity.
  - discriminate.
Defined.

(** X14.  With a coverage list whose names are all layers and all
    different (lines 784-789), the document holds one
    CoverageDescription for each requested name whose layer has its
    parent pointer, is supported and has coverage metadata, in the order
    of the request and identified by that name; the other names are
    passed over and the call still reports success. *)
Theorem X14_describe_requested_describes_the_describable_names :
  forall (ext : Collaborators) (map : mapObj) (params : wcsParamsObj)
         (cs : list string),
    normalized_coverages params = Some cs ->
    NoDup cs ->
    Forall (fun c => msGetLayerIndex map c <> -1) cs ->
    msIO_needBinaryStdout <> MS_FAILURE ->
    fst (msWCSDescribeCoverage11 map params) = Some MS_SUCCESS
    /\ exists doc,
        written_docs (snd (msWCSDescribeCoverage11 map params)) = [doc]
        /\ described (root doc)
           = List.map Some (filter (describable_name map) cs).
Proof.
  intros ext map params cs N U W B.
  unfold msWCSDescribeCoverage11.
  destruct (normalized_coverages_split params) as [p [Sp [_ [Cp [Si _]]]]].
  rewrite N in Cp. rewrite (bind_value _ _ _ Sp). cbn [fst snd].
  destruct (describe_requested_exact cs map p ows_namespace
              (new_root "CoverageDescriptions" p) U W)
    as [map' [root' [t [E [D L]]]]].
  destruct (describe_coverages_document map p map' root' t) as [F Wd];
    try assumption; try (rewrite Cp; try assumption).
  - now apply first_unresolved_none.
  - split; [exact F|]. eexists.
    split; [rewrite written_docs_silent_app by exact Si; exact Wd|].
    exact D.
Qed.

Lemma X14_witness :
  fst (msWCSDescribeCoverage11 (ext := Sample.world) Sample.server
         (Sample.params (Some ["c,b,a"]))) = Some MS_SUCCESS
  /\ exists doc,
      written_docs (snd (msWCSDescribeCoverage11 (ext := Sample.world)
                           Sample.server (Sample.params (Some ["c,b,a"]))))
      = [doc]
      /\ described (root doc)
         = List.map Some
             (filter (describable_name (ext := Sample.world) Sample.server)
                     ["c"; "b"; "a"]).
Proof.
  apply (X14_describe_requested_describes_the_describable_names Sample.world
           Sample.server (Sample.params (Some ["c,b,a"])) ["c"; "b"; "a"]).
  - reflexivity.
  - repeat constructor; cbn [In]; intuition discriminate.
  - repeat constructor; discriminate.
  - discriminate.
Defined.

(** ** The text of [%.15g %.15g] fits its buffer *)

Lemma length_append (a b : string) :
  String.length (a ++ b) = (String.length a + String.length b)%nat.
Proof. induction a as [|c a IH]; cbn; [reflexivity | now rewrite IH]. Qed.

Lemma length_substring_le (s : string) (n m : nat) :
  (String.length (substring n m s) <= m)%nat.
Proof.
  revert n m. induction s as [|c s IH]; intros n m.
  - destruct n, m; cbn; lia.
  - destruct n as [|n].
    + destruct m as [|m]; cbn [substring String.length]; [lia|].
      specialize (IH 0%nat m). lia.
    + cbn [substring]. apply IH.
Qed.

Lemma length_strip_zeros_le (s : string) :
  (String.length (Printf.strip_zeros s) <= String.length s)%nat.
Proof.
  induction s as [|c s IH]; [cbn; lia|].
  cbn [Printf.strip_zeros String.length].
  destruct (Printf.strip_zeros s) as [|c' r].
  - destruct (Ascii.eqb c "0"); cbn; lia.
  - cbn [String.length] in *. lia.
Qed.

Lemma length_with_fraction_le (ip fr : string) :
  (String.length (Printf.with_fraction ip fr)
   <= String.length ip + 1 + String.length fr)%nat.
Proof.
  unfold Printf.with_fraction.
  pose proof (length_strip_zeros_le fr) as H.
  destruct (Printf.strip_zeros fr) as [|c r]; [lia|].
  rewrite !length_append. cbn [String.length] in *. lia.
Qed.

Lemma length_zeros (n : nat) : String.length (Printf.zeros n) = n.
Proof. induction n as [|n IH]; cbn; [reflexivity | now rewrite IH]. Qed.

(** Doubling a little-endian decimal adds at most one digit. *)
Lemma nb_digits_double (d : Decimal.uint) :
  (Decimal.nb_digits (Decimal.Little.double d) <= S (Decimal.nb_digits d))%nat
  /\ (Decimal.nb_digits (Decimal.Little.succ_double d)
      <= S (Decimal.nb_digits d))%nat.
Proof.
  induction d as [|d [IH1 IH2]|d [IH1 IH2]|d [IH1 IH2]|d [IH1 IH2]
                  |d [IH1 IH2]|d [IH1 IH2]|d [IH1 IH2]|d [IH1 IH2]
                  |d [IH1 IH2]|d [IH1 IH2]];
    cbn [Decimal.Little.double Decimal.Little.succ_double Decimal.nb_digits];
    split; lia.
Qed.

Lemma nb_digits_to_little_uint (p : positive) :
  (Decimal.nb_digits (Pos.to_little_uint p) <= Pos.size_nat p)%nat.
Proof.
  induction p as [p IH|p IH|]; cbn [Pos.to_little_uint Pos.size_nat];
    [| |cbn; lia].
  - destruct (nb_digits_double (Pos.to_little_uint p)) as [_ H]. lia.
  - destruct (nb_digits_double (Pos.to_little_uint p)) as [H _]. lia.
Qed.

Lemma length_string_of_uint (d : Decimal.uint) :
  String.length (NilEmpty.string_of_uint d) = Decimal.nb_digits d.
Proof.
  induction d; cbn [NilEmpty.string_of_uint String.length Decimal.nb_digits];
    congruence.
Qed.

Lemma size_nat_le (p : positive) (k : nat) :
  Z.pos p < 2 ^ Z.of_nat k -> (Pos.size_nat p <= k)%nat.
Proof.
  revert k. induction p as [p IH|p IH|]; intros k H;
    (destruct k as [|k]; [cbn in H; lia|]);
    cbn [Pos.size_nat]; [| |lia];
    rewrite Nat2Z.inj_succ, Z.pow_succ_r in H by lia;
    specialize (IH k); lia.
Qed.

(** The decimal text of a number below [2^k] has at most [k] characters,
    and one when the number is not positive. *)
Lemma length_dec_le (z : Z) (k : nat) :
  z < 2 ^ Z.of_nat k -> (String.length (Printf.dec z) <= Nat.max 1 k)%nat.
Proof.
  intros H. unfold Printf.dec.
  destruct z as [|p|p]; [apply Nat.le_max_l | | apply Nat.le_max_l].
  cbn [Z.to_N N.to_uint]. unfold Pos.to_uint, NilZero.string_of_uint.
  pose proof (nb_digits_to_little_uint p) as D.
  pose proof (size_nat_le p k H) as S.
  rewrite <- DecimalFacts.nb_digits_rev in D. revert D.
  destruct (Decimal.rev (Pos.to_little_uint p)); intros D;
    [apply Nat.le_max_l | ..]; rewrite length_string_of_uint; lia.
Qed.

(** The search stays within its candidates, and every candidate above
    its result has failed the test. *)
Lemma floor_log10_spec (num den : Z) (fuel : nat) (hi : Z) :
  let x := Printf.floor_log10 fuel hi num den in
  hi - Z.of_nat fuel <= x <= hi
  /\ forall k, x < k <= hi -> Printf.pow10_le k num den = false.
Proof.
  revert hi. induction fuel as [|fuel IH]; intros hi; cbv zeta.
  - cbn [Printf.floor_log10]. split; [lia|]. intros k Hk. lia.
  - cbn [Printf.floor_log10].
    destruct (Printf.pow10_le hi num den) eqn:T.
    + split; [lia|]. intros k Hk. lia.
    + destruct (IH (hi - 1)) as [R F]. split; [lia|].
      intros k Hk. destruct (Z.eq_dec k hi) as [->|Ne]; [exact T|].
      apply F. lia.
Qed.

Lemma round_scaled_le (s num den : Z) :
  Printf.round_scaled s num den
  <= (if 0 <=? s then num * 10 ^ s else num)
     / (if 0 <=? s then den else den * 10 ^ (- s)) + 1.
Proof.
  unfold Printf.round_scaled.
  destruct (2 * _ ?= _); [destruct (Z.even _)| |]; lia.
Qed.

(** A value below [10^(x+1)], scaled to 15 digits after rounding, stays
    at or below [10^15]. *)
Lemma rounded_small (num den x : Z) :
  0 < den -> -5 <= x <= -1 ->
  Printf.pow10_le (x + 1) num den = false ->
  Printf.round_scaled (15 - 1 - x) num den <= 10 ^ 15.
Proof.
  intros D X T.
  pose proof (round_scaled_le (15 - 1 - x) num den) as R.
  assert (Q : (if 0 <=? 15 - 1 - x then num * 10 ^ (15 - 1 - x) else num)
              / (if 0 <=? 15 - 1 - x then den else den * 10 ^ (- (15 - 1 - x)))
              < 10 ^ 15).
  { unfold Printf.pow10_le in T.
    assert (C : x = -5 \/ x = -4 \/ x = -3 \/ x = -2 \/ x = -1) by lia.
    destruct C as [->|[->|[->|[->| ->]]]];
      cbn [Z.leb Z.sub Z.add Z.opp Z.pos_sub Z.compare Pos.compare
           Pos.compare_cont Z.succ_double Z.pred_double Z.double
           Pos.pred_double Pos.add Pos.succ] in T |- *;
      apply Z.div_lt_upper_bound; [exact D | | exact D | | exact D |
                                   | exact D | | exact D |];
      apply Z.leb_gt in T; lia. }
  lia.
Qed.

Lemma length_exp_field_le (x : Z) :
  -512 < x < 512 -> (String.length (Printf.exp_field x) <= 11)%nat.
Proof.
  intros H. unfold Printf.exp_field. rewrite !length_append.
  pose proof (length_dec_le (Z.abs x) 9) as D.
  destruct (x <? 0); destruct (Z.abs x <? 10); cbn [String.length] in *; lia.
Qed.

(** The three styles, for an exponent and a digit run within bounds. *)
Lemma length_styles_le (X R : Z) :
  -512 < X < 512 -> (-4 <= X < 0 -> R < 2 ^ Z.of_nat 50) ->
  (String.length
     (if orb (X <? -4) (15 <=? X)
      then Printf.with_fraction
             (substring 0 1 (Printf.dec R))
             (substring 1 (Z.to_nat (15 - 1)) (Printf.dec R))
           ++ "e" ++ Printf.exp_field X
      else if 0 <=? X
      then Printf.with_fraction
             (substring 0 (Z.to_nat (X + 1)) (Printf.dec R))
             (substring (Z.to_nat (X + 1)) (Z.to_nat (15 - 1 - X))
                        (Printf.dec R))
      else Printf.with_fraction
             "0" (Printf.zeros (Z.to_nat (- X - 1)) ++ Printf.dec R))%Z
   <= 55)%nat.
Proof.
  intros HX HR.
  destruct (orb (X <? -4) (15 <=? X)) eqn:Style.
  - rewrite !length_append.
    pose proof (length_with_fraction_le
                  (substring 0 1 (Printf.dec R))
                  (substring 1 (Z.to_nat (15 - 1)) (Printf.dec R))) as W.
    pose proof (length_substring_le (Printf.dec R) 0 1).
    pose proof (length_substring_le (Printf.dec R) 1 (Z.to_nat (15 - 1))).
    pose proof (length_exp_field_le X HX).
    cbn [String.length]. lia.
  - apply orb_false_iff in Style as [Lo Hi].
    apply Z.ltb_ge in Lo. apply Z.leb_gt in Hi.
    destruct (Z.leb_spec 0 X) as [Pos|Neg].
    + pose proof (length_with_fraction_le
                    (substring 0 (Z.to_nat (X + 1)) (Printf.dec R))
                    (substring (Z.to_nat (X + 1)) (Z.to_nat (15 - 1 - X))
                               (Printf.dec R))) as W.
      pose proof (length_substring_le (Printf.dec R) 0 (Z.to_nat (X + 1))).
      pose proof (length_substring_le (Printf.dec R) (Z.to_nat (X + 1))
                                      (Z.to_nat (15 - 1 - X))).
      lia.
    + pose proof (length_with_fraction_le "0"
                    (Printf.zeros (Z.to_nat (- X - 1)) ++ Printf.dec R)) as W.
      rewrite length_append, length_zeros in W. cbn [String.length] in W.
      pose proof (length_dec_le R 50 (HR (conj Lo Neg))). lia.
Qed.

Lemma length_g_positive_le (num den : Z) :
  0 < den -> (String.length (Printf.g_positive 15 num den) <= 55)%nat.
Proof.
  intros D. unfold Printf.g_positive. cbv zeta.
  destruct (floor_log10_spec num den 700 310) as [Rg F].
  pose proof (rounded_small num den
                (Printf.floor_log10 700 310 num den) D) as S.
  destruct (Printf.round_scaled _ num den =? 10 ^ 15) eqn:E;
    apply length_styles_le; try lia.
  intros Neg.
  specialize (S ltac:(lia)
                (F (Printf.floor_log10 700 310 num den + 1) ltac:(lia))).
  change (2 ^ Z.of_nat 50) with 1125899906842624.
  change (10 ^ 15) with 1000000000000000 in S. lia.
Qed.

Lemma length_g_le (d : float) : (String.length (Printf.g 15 d) <= 56)%nat.
Proof.
  unfold Printf.g.
  destruct (Prim2SF d) as [s|s| |s m e];
    try (destruct s; cbn; lia); try (cbn; lia).
  rewrite length_append.
  assert (S : (String.length (Printf.sign s) <= 1)%nat)
    by (destruct s; cbn; lia).
  destruct (Z.leb_spec 0 e) as [E|E].
  - pose proof (length_g_positive_le (Z.pos m * 2 ^ e) 1). lia.
  - pose proof (length_g_positive_le (Z.pos m) (2 ^ (- e))) as G.
    assert (0 < 2 ^ (- e)) by (apply Z.pow_pos_nonneg; lia).
    lia.
Qed.

(** The two grid texts of a description. *)
Lemma CoverageDescription11_grid {ext : Collaborators} (layer : layerObj)
      (lmap : mapHeader) (params : wcsParamsObj) (psRootNode : xmlNode)
      (psOwsNs : xmlNs) (cm : coverageMetadataObj) :
  layer_map layer = Some lmap ->
  msWCSIsLayerSupported layer = true ->
  msWCSGetCoverageMetadata layer = (MS_SUCCESS, cm) ->
  exists cd layer' t,
    msWCSDescribeCoverage_CoverageDescription11 layer params psRootNode psOwsNs
    = (Some (MS_SUCCESS, Xml.xmlAddChild psRootNode cd, layer'), t)
    /\ grid_text "GridOrigin" cd
       = Some (Printf.sprintf_g15_g15
                 (geotransform cm 0%nat + geotransform cm 1%nat / 2
                  + geotransform cm 2%nat / 2)%float
                 (geotransform cm 3%nat + geotransform cm 4%nat / 2
                  + geotransform cm 5%nat / 2)%float)
    /\ grid_text "GridOffsets" cd
       = Some (Printf.sprintf_g15_g15 (geotransform cm 1%nat)
                                      (geotransform cm 5%nat)).
Proof.
  intros P S M.
  unfold msWCSDescribeCoverage_CoverageDescription11.
  rewrite P, S, M. cbn [msCheckParentPointer]. rewrite bind_ret.
  cbn [Z.eqb MS_SUCCESS MS_FAILURE negb].
  set (layer1 := with_metadata layer _).
  assert (P1 : layer_map layer1 = Some lmap) by exact P.
  destruct (resolve_supported_crs_value msOWSGetProjURN layer1) as [v V];
    [congruence|].
  rewrite (bind_value _ _ _ V). rewrite P1.
  destruct (msWCSGetFormatsList11_value lmap (Some layer1)) as [fl F].
  rewrite (bind_value _ _ _ F). cbn [ret fst snd].
  do 3 eexists. split; [reflexivity|].
  unfold grid_text. cbn [Xml.descend].
  erewrite child_add_supported_formats;
    [| apply child_add_supported_crs, child_after_keywords;
       [ destruct (msOWSLookupMetadata (layer_metadata layer1)
                                       "COM" "keywordlist");
         [ rewrite child_xmlAddChild, named_msLibXml2GenerateList |];
         reflexivity
       | reflexivity ] ].
  split; reflexivity.
Qed.

(** X15.  GridOrigin and GridOffsets (lines 578-594) are written with
    [sprintf] and the format [%.15g %.15g] into a buffer of 500 bytes.
    Whatever the doubles of the geotransform are, infinities and NaN
    among them, each of the two texts takes with its terminator at most
    114 bytes: the buffer is never overrun. *)
Theorem X15_grid_texts_fit_the_buffer :
  forall (ext : Collaborators) (layer : layerObj) (lmap : mapHeader)
         (params : wcsParamsObj) (psRootNode : xmlNode) (psOwsNs : xmlNs)
         (cm : coverageMetadataObj),
    layer_map layer = Some lmap ->
    msWCSIsLayerSupported layer = true ->
    msWCSGetCoverageMetadata layer = (MS_SUCCESS, cm) ->
    (forall a b : float,
        (String.length (Printf.sprintf_g15_g15 a b) + 1 <= 114)%nat)
    /\ exists cd layer' t origin offsets,
        msWCSDescribeCoverage_CoverageDescription11
          layer params psRootNode psOwsNs
        = (Some (MS_SUCCESS, Xml.xmlAddChild psRootNode cd, layer'), t)
        /\ grid_text "GridOrigin" cd = Some origin
        /\ grid_text "GridOffsets" cd = Some offsets
        /\ (String.length origin + 1 <= 500)%nat
        /\ (String.length offsets + 1 <= 500)%nat.
Proof.
  intros ext layer lmap params psRootNode psOwsNs cm P S M.
  assert (B : forall a b : float,
             (String.length (Printf.sprintf_g15_g15 a b) + 1 <= 114)%nat).
  { intros a b. unfold Printf.sprintf_g15_g15. rewrite !length_append.
    pose proof (length_g_le a). pose proof (length_g_le b).
    cbn [String.length]. lia. }
  split; [exact B|].
  destruct (CoverageDescription11_grid layer lmap params psRootNode psOwsNs cm
              P S M) as [cd [layer' [t [E [O1 O2]]]]].
  exists cd, layer', t. do 2 eexists.
  split; [exact E|]. split; [exact O1|]. split; [exact O2|].
  split; match goal with
         | |- (String.length (Printf.sprintf_g15_g15 ?a ?b) + 1 <= _)%nat =>
             pose proof (B a b); lia
         end.
Qed.

Lemma X15_witness :
  exists cd layer' t origin offsets,
    msWCSDescribeCoverage_CoverageDescription11 (ext := Sample.world)
      (Sample.layer "a" (Some Sample.three_formats)) (Sample.params None)
      (new_root "CoverageDescriptions" (Sample.params None)) ows_namespace
    = (Some (MS_SUCCESS,
             Xml.xmlAddChild
               (new_root "CoverageDescriptions" (Sample.params None)) cd,
             layer'), t)
    /\ grid_text "GridOrigin" cd = Some origin
    /\ grid_text "GridOffsets" cd = Some offsets
    /\ (String.length origin + 1 <= 500)%nat
    /\ (String.length offsets + 1 <= 500)%nat.
Proof.
  apply (X15_grid_texts_fit_the_buffer Sample.world
           (Sample.layer "a" (Some Sample.three_formats)) Sample.three_formats
           (Sample.params None)
           (new_root "CoverageDescriptions" (Sample.params None))
           ows_namespace Sample.cm); reflexivity.
Defined.

(** ** The summary and the description of one layer *)

Section Agreement.

Context {ext : Collaborators}.

Lemma children_of_msLibXml2GenerateList (p : xmlNode) (ns : option xmlNs)
      (elname values : string) (delim : ascii) :
  Xml.children_of (msLibXml2GenerateList p ns elname values delim)
  = (Xml.children_of p
     ++ List.map (fun t => Xml.new_child p ns elname (Some t))
                 (msStringSplit values delim))%list.
Proof. unfold msLibXml2GenerateList. apply add_children_keeps. Qed.

Lemma children_of_add_supported_formats (n : xmlNode) (fl : string) :
  Xml.children_of (add_supported_formats n fl)
  = (Xml.children_of n
     ++ if CStr.nonempty fl
        then List.map (fun t => Xml.new_child n None "SupportedFormat" (Some t))
                      (msStringSplit fl ",")
        else [])%list.
Proof.
  unfold add_supported_formats. destruct (CStr.nonempty fl).
  - apply children_of_msLibXml2GenerateList.
  - now rewrite app_nil_r.
Qed.

Lemma children_of_add_supported_crs (n : xmlNode) (v : option string) :
  Xml.children_of (add_supported_crs n v)
  = (Xml.children_of n
     ++ List.map (fun t => Xml.new_child n None "SupportedCRS" (Some t))
                 (crs_tokens v))%list.
Proof.
  unfold add_supported_crs, crs_tokens. destruct v as [[|c s]|].
  - now rewrite app_nil_r.
  - apply children_of_msLibXml2GenerateList.
  - now rewrite app_nil_r.
Qed.

Lemma ns_of_add_supported_formats (n : xmlNode) (fl : string) :
  Xml.ns_of (add_supported_formats n fl) = Xml.ns_of n.
Proof.
  unfold add_supported_formats, msLibXml2GenerateList.
  destruct (CStr.nonempty fl); [apply add_children_keeps | reflexivity].
Qed.

Lemma ns_of_add_supported_crs (n : xmlNode) (v : option string) :
  Xml.ns_of (add_supported_crs n v) = Xml.ns_of n.
Proof.
  unfold add_supported_crs, msLibXml2GenerateList.
  destruct v as [[|c s]|]; try reflexivity. apply add_children_keeps.
Qed.

Lemma new_children_same_ns (p p' : xmlNode) (elname : string)
      (l : list string) :
  Xml.ns_of p = Xml.ns_of p' ->
  List.map (fun t => Xml.new_child p None elname (Some t)) l
  = List.map (fun t => Xml.new_child p' None elname (Some t)) l.
Proof. intros H. unfold Xml.new_child. now rewrite H. Qed.

Lemma boxes_of_new_children (p : xmlNode) (ns : option xmlNs)
      (elname : string) (l : list string) :
  filter is_box (List.map (fun t => Xml.new_child p ns elname (Some t)) l) = [].
Proof. induction l as [|t l IH]; [reflexivity | exact IH]. Qed.

Lemma children_of_add_children (p : xmlNode) (cs : list xmlNode) :
  Xml.children_of (Xml.add_children p cs) = (Xml.children_of p ++ cs)%list.
Proof. apply add_children_keeps. Qed.

Lemma ns_of_add_children (p : xmlNode) (cs : list xmlNode) :
  Xml.ns_of (Xml.add_children p cs) = Xml.ns_of p.
Proof. apply add_children_keeps. Qed.

Lemma named_add_children (name : string) (p : xmlNode) (cs : list xmlNode) :
  Xml.named name (Xml.add_children p cs) = Xml.named name p.
Proof. apply add_children_keeps. Qed.

Lemma is_box_add_children (p : xmlNode) (cs : list xmlNode) :
  is_box (Xml.add_children p cs) = is_box p.
Proof.
  revert p. induction cs as [|c cs IH]; intros p; [reflexivity|].
  cbn [Xml.add_children fold_left].
  fold (Xml.add_children (Xml.xmlAddChild p c) cs). rewrite IH.
  destruct p as [| call ?]; [reflexivity | destruct call; reflexivity].
Qed.

End Agreement.

(** X16.  For a supported layer whose band metadata are already
    complete, the CoverageSummary of the capabilities (lines 194-282) and
    the CoverageDescription (lines 515-711) say the same: the same
    Title, Identifier and Keywords elements, the same three bounding
    boxes in the same order (in the description under
    Domain/SpatialDomain), the same SupportedFormat and the same
    SupportedCRS elements, when both are built under roots of the same
    namespace with the same binding of the ows prefix. *)
Theorem X16_summary_and_description_agree :
  forall (ext : Collaborators) (map : mapHeader) (params : wcsParamsObj)
         (req : cgiRequestObj)
         (psRootNode psContents psDescriptions : xmlNode) (psOwsNs : xmlNs)
         (layer : layerObj) (cm : coverageMetadataObj),
    layer_map layer = Some map ->
    msWCSIsLayerSupported layer = true ->
    msWCSGetCoverageMetadata layer = (MS_SUCCESS, cm) ->
    msWCSSetDefaultBandsRangeSetInfo params cm layer = layer_metadata layer ->
    Xml.xmlSearchNs [psContents; psRootNode] "ows" = Some psOwsNs ->
    Xml.ns_of psContents = Xml.ns_of psDescriptions ->
    exists summary cd sd t1 t2 layer',
      msWCSGetCapabilities11_CoverageSummary
        map params req psRootNode psContents layer
      = (Some (MS_SUCCESS, Xml.xmlAddChild psContents summary), t1)
      /\ msWCSDescribeCoverage_CoverageDescription11
           layer params psDescriptions psOwsNs
         = (Some (MS_SUCCESS, Xml.xmlAddChild psDescriptions cd, layer'), t2)
      /\ Xml.descend ["Domain"; "SpatialDomain"] cd = Some sd
      /\ boxes_of summary = boxes_of sd
      /\ Forall (fun name => Xml.children_named name summary
                             = Xml.children_named name cd)
                ["Title"; "Identifier"; "Keywords"; "SupportedFormat";
                 "SupportedCRS"].
Proof.
  intros ext map params req psRootNode psContents psDescriptions psOwsNs
         layer cm P S M D O N.
  unfold msWCSGetCapabilities11_CoverageSummary,
    msWCSDescribeCoverage_CoverageDescription11.
  rewrite P, S, M, D, O. cbn [msCheckParentPointer]. rewrite bind_ret.
  cbn [Z.eqb MS_SUCCESS MS_FAILURE negb].
  assert (L : with_metadata layer (layer_metadata layer) = layer)
    by (destruct layer; reflexivity).
  rewrite L, P.
  destruct (msWCSGetFormatsList11_value map (Some layer)) as [fl F].
  rewrite !(bind_value _ _ _ F).
  destruct (resolve_supported_crs_value msOWSGetProjURN layer) as [v V];
    [congruence|].
  rewrite !(bind_value _ _ _ V). rewrite !(bind_value _ _ _ F).
  cbn [ret fst snd].
  do 6 eexists. split; [reflexivity|]. split; [reflexivity|].
  split.
  { cbn [Xml.descend].
    erewrite child_add_supported_formats;
      [| apply child_add_supported_crs, child_after_keywords;
         [ destruct (msOWSLookupMetadata (layer_metadata layer)
                                         "COM" "keywordlist");
           [ rewrite child_xmlAddChild, named_msLibXml2GenerateList |];
           reflexivity
         | reflexivity ] ].
    reflexivity. }
  split.
  { unfold boxes_of.
    rewrite children_of_add_supported_crs, children_of_add_supported_formats.
    rewrite !filter_app, boxes_of_new_children.
    replace (filter is_box (if CStr.nonempty fl then _ else []))
      with (@nil xmlNode)
      by (destruct (CStr.nonempty fl);
          [now rewrite boxes_of_new_children | reflexivity]).
    rewrite !app_nil_r.
    rewrite !children_of_xmlAddChild, !children_of_add_children, !filter_app.
    destruct (msOWSLookupMetadata (layer_metadata layer) "COM" "keywordlist").
    - rewrite !children_of_xmlAddChild, !filter_app.
      cbn [filter is_box Xml.new_child Xml.children_of app].
      rewrite is_box_add_children. reflexivity.
    - reflexivity. }
  repeat constructor;
    unfold Xml.children_named;
    repeat rewrite ?children_of_add_supported_crs,
      ?children_of_add_supported_formats;
    rewrite !filter_app;
    destruct (CStr.nonempty fl);
    rewrite ?filter_new_children;
    cbn [String.eqb Ascii.eqb Bool.eqb];
    rewrite ?app_nil_r;
    rewrite ?children_of_add_children, ?children_of_xmlAddChild, ?filter_app;
    unfold range; rewrite ?named_xmlAddChild;
    destruct (msOWSLookupMetadata (layer_metadata layer) "COM" "keywordlist");
    rewrite ?children_of_xmlAddChild, ?filter_app;
    cbn [filter bounding_boxes Xml.named Xml.new_child Xml.children_of app
         String.eqb Ascii.eqb Bool.eqb Xml.xmlAddChild Xml.ns_of];
    rewrite ?named_add_children, ?named_msLibXml2GenerateList;
    cbn [filter bounding_boxes Xml.named Xml.new_child Xml.children_of app
         String.eqb Ascii.eqb Bool.eqb Xml.xmlAddChild Xml.ns_of];
    rewrite ?ns_of_add_supported_formats, ?ns_of_add_supported_crs,
      ?ns_of_add_children, ?ns_of_xmlAddChild;
    cbn [Xml.ns_of];
    rewrite ?N; try reflexivity;
    try (apply new_children_same_ns;
         rewrite ?ns_of_add_supported_formats, ?ns_of_add_supported_crs,
           ?ns_of_add_children, ?ns_of_xmlAddChild;
         cbn [Xml.ns_of]; rewrite ?N; reflexivity).
Qed.

Lemma X16_witness :
  exists summary cd sd t1 t2 layer',
    msWCSGetCapabilities11_CoverageSummary (ext := Sample.world)
      Sample.three_formats (Sample.params None) Sample.request
      (new_root "Capabilities" (Sample.params None))
      (Xml.new_child (new_root "Capabilities" (Sample.params None)) None
                     "Contents" None)
      (Sample.layer "a" (Some Sample.three_formats))
    = (Some (MS_SUCCESS,
             Xml.xmlAddChild
               (Xml.new_child (new_root "Capabilities" (Sample.params None))
                              None "Contents" None) summary), t1)
    /\ msWCSDescribeCoverage_CoverageDescription11 (ext := Sample.world)
         (Sample.layer "a" (Some Sample.three_formats)) (Sample.params None)
         (new_root "CoverageDescriptions" (Sample.params None)) ows_namespace
       = (Some (MS_SUCCESS,
                Xml.xmlAddChild
                  (new_root "CoverageDescriptions" (Sample.params None)) cd,
                layer'), t2)
    /\ Xml.descend ["Domain"; "SpatialDomain"] cd = Some sd
    /\ boxes_of summary = boxes_of sd
    /\ Forall (fun name => Xml.children_named name summary
                           = Xml.children_named name cd)
              ["Title"; "Identifier"; "Keywords"; "SupportedFormat";
               "SupportedCRS"].
Proof.
  apply (X16_summary_and_description_agree Sample.world Sample.three_formats
           (Sample.params None) Sample.request
           (new_root "Capabilities" (Sample.params None))
           (Xml.new_child (new_root "Capabilities" (Sample.params None)) None
                          "Contents" None)
           (new_root "CoverageDescriptions" (Sample.params None))
           ows_namespace (Sample.layer "a" (Some Sample.three_formats))
           Sample.cm); reflexivity.
Defined.

(** ** The layer store after the descriptions *)

(** X17.  Describing the requested coverages (lines 784-789) hands each
    layer to the description and takes it back with its metadata
    possibly completed, and nothing else happens to the layer store:
    the map keeps its header, its layers keep their names and their
    order, so that every name is resolved to the same index as before,
    and a layer that no requested name stands for is left exactly as it
    was. *)
Theorem X17_describing_keeps_the_layer_store :
  forall (ext : Collaborators) (params : wcsParamsObj) (cs : list string)
         (map : mapObj) (psRootNode : xmlNode),
    Forall (fun c => msGetLayerIndex map c <> -1) cs ->
    exists map' root' t,
      describe_requested map params ows_namespace cs psRootNode
      = (Some (map', root'), t)
      /\ header map' = header map
      /\ layer_names map' = layer_names map
      /\ (forall c, msGetLayerIndex map' c = msGetLayerIndex map c)
      /\ (forall i,
             (forall c, In c cs -> msGetLayerIndex map c <> i) ->
             GET_LAYER map' i = GET_LAYER map i).
Proof.
  intros ext params cs.
  induction cs as [|c cs IH]; intros map psRootNode W.
  - exists map, psRootNode, []. repeat split.
  - inversion W as [|? ? Wc Wcs]; subst.
    destruct (msGetLayerIndex_found map c Wc) as [layer [G Nm]].
    destruct (describe_layer_exact map params ows_namespace _ psRootNode
                layer G) as [layer' [root1 [t1 [E1 [N1 _]]]]].
    cbn [describe_requested]. rewrite E1. unfold bind at 1. cbn [fst snd].
    set (map1 := set_layer map (msGetLayerIndex map c) layer') in *.
    assert (Names : layer_names map1 = layer_names map)
      by (now apply set_layer_names with layer).
    assert (W1 : Forall (fun x => msGetLayerIndex map1 x <> -1) cs).
    { apply Forall_forall. intros x Ix.
      rewrite (msGetLayerIndex_names map1 map x Names).
      rewrite Forall_forall in Wcs. now apply Wcs. }
    destruct (IH map1 root1 W1) as [map2 [root2 [t2 [E2 [H2 [N2 [I2 U2]]]]]]].
    rewrite E2. cbn [fst snd].
    exists map2, root2, (t1 ++ t2)%list. split; [reflexivity|].
    split; [rewrite H2; reflexivity|].
    split; [congruence|].
    split.
    + intros x. rewrite I2. now apply msGetLayerIndex_names.
    + intros i Hi. rewrite U2.
      * apply GET_LAYER_set_layer_other with layer; [exact G|].
        intros Eq. apply (Hi c); [left; reflexivity | now symmetry].
      * intros x Ix. rewrite (msGetLayerIndex_names map1 map x Names).
        apply Hi. now right.
Qed.

Lemma X17_witness :
  exists map' root' t,
    describe_requested (ext := Sample.world) Sample.server
      (Sample.params None) ows_namespace ["a"; "c"]
      (new_root "CoverageDescriptions" (Sample.params None))
    = (Some (map', root'), t)
    /\ header map' = header Sample.server
    /\ layer_names map' = layer_names Sample.server
    /\ (forall c, msGetLayerIndex map' c = msGetLayerIndex Sample.server c)
    /\ (forall i,
           (forall c, In c ["a"; "c"] -> msGetLayerIndex Sample.server c <> i) ->
           GET_LAYER map' i = GET_LAYER Sample.server i).
Proof.
  apply (X17_describing_keeps_the_layer_store Sample.world
           (Sample.params None) ["a"; "c"] Sample.server).
  repeat constructor; discriminate.
Defined.
